(** * Assessment scoring and progression engine (buildverse)

  A shallow embedding of the three React components kept in
  [src/components/testing]: [TypingTest], [AIInterview] and
  [TestCoordinator].  Component state (the [useState] cells and refs)
  is an explicit record, every event handler is a function from the
  state of the render it closes over to the next state, and a run of
  the component is a fold of the handler dispatch over a list of UI
  events.

  Numbers.  A JavaScript [number] is an IEEE 754 binary64 value.  A
  finite value is modelled by the rational it denotes ([Q]), and the
  arithmetic of the statistics and of the scores is the exact operation
  followed by [round64], the rounding to the nearest binary64 value
  (53-bit significand, ties to even, gradual underflow): [fadd],
  [fmul], [fdiv].  A decimal literal such as [0.9] denotes [dbl (9 # 10)],
  its nearest binary64 value.  Overflow to [Infinity] is outside the
  model: it needs a magnitude of [2^1024], while the operands here are
  lengths, clock values, percentages and scores.  Values that the code
  only ever produces through [Math.round], [Math.floor] or [length]
  are integers ([Z]) or naturals, added and subtracted exactly (they
  stay below [2^53]); [Math.floor(a / 1000)] is the integer quotient
  ([floor_fdiv_1000]).  [Math.round x] is [floor (x + 1/2)] (ties go
  up), and [0/0], which JavaScript evaluates to [NaN], is made explicit
  with [option].  [Date.now()] is an input of each event.

  [round64] is compared with the Standard Library's reference
  implementation of binary64 on the expressions of the code
  ([round64_agrees_with_SpecFloat]).

  The fraud score of the typing test is a sum of the literals [0.3] and
  [0.2] compared with [0.7]; it is kept in decimal, which stands for
  the binary64 value on each of the sums that can occur: the binary64
  sum is the value of the decimal one, the comparison with [0.7] and
  the final rounding to two decimals agree ([fraud_score_in_binary64]).

  Strings.  A JavaScript string is a sequence of code units; it is
  modelled by [string], one character per code unit. *)

From Stdlib Require Import ZArith QArith Qround Qpower List String Ascii Bool Lia Lqa.
From Stdlib Require Import Permutation Qminmax DecimalString.
From Stdlib Require Import DecimalPos DecimalZ SpecFloat.
Import ListNotations.

Local Open Scope Z_scope.

(* ------------------------------------------------------------------ *)
(** ** JavaScript numbers *)

Module JS.

(** [2^k]. *)
Definition pow2 (k : Z) : Q := (2 ^ k)%Q.

(** The binade of a positive rational [x]: the [e] with
    [2^e <= x < 2^(e+1)].  The difference of the logarithms of
    numerator and denominator is [e] or [e + 1]. *)
Definition binade (x : Q) : Z :=
  let k := Z.log2 (Qnum x) - Z.log2 (Zpos (Qden x)) in
  if Qle_bool (pow2 k) x then k else k - 1.

(** The nearest integer, halves going to the even neighbour. *)
Definition nearest_even (x : Q) : Z :=
  let f := Qfloor x in
  match (x - inject_Z f ?= 1 # 2)%Q with
  | Lt => f
  | Gt => f + 1
  | Eq => if Z.even f then f else f + 1
  end.

(** The binary64 value nearest to a positive [x]: a multiple of
    [2^(e-52)], where [e] is the binade of [x], or of [2^(-1074)] in
    the subnormal range. *)
Definition round_pos (x : Q) : Q :=
  let q := Z.max (binade x - 52) (-1074) in
  (inject_Z (nearest_even (x / pow2 q)) * pow2 q)%Q.

(** Rounding to binary64 (round to nearest, ties to even). *)
Definition round64 (x : Q) : Q :=
  Qred match (x ?= 0)%Q with
       | Eq => 0
       | Gt => round_pos x
       | Lt => - round_pos (- x)
       end.

Arguments round64 x : simpl never.

(** [x + y], [x * y] and [x / y] on numbers ([y] not zero). *)
Definition fadd (x y : Q) : Q := round64 (x + y).
Definition fmul (x y : Q) : Q := round64 (x * y).
Definition fdiv (x y : Q) : Q := round64 (x / y).

(** The value of a decimal literal. *)
Definition dbl (x : Q) : Q := round64 x.

(** The largest length an array can have. *)
Definition max_array_length : Z := 2 ^ 32 - 1.

(** [Math.round]: nearest integer, halves rounded towards +infinity. *)
Definition Math_round (x : Q) : Z := Qfloor (x + (1 # 2))%Q.

(** [a < b] on numbers. *)
Definition Qlt_bool (a b : Q) : bool := negb (Qle_bool b a).

(** [a >= b] on numbers. *)
Definition Qge_bool (a b : Q) : bool := Qle_bool b a.

(** [x / n] where [n] is a length: [0 / 0] is [NaN] ([None]).  The
    callers only divide a sum over a list by the length of that list,
    so a zero divisor comes with a zero dividend. *)
Definition div_length (x : Q) (n : nat) : option Q :=
  match n with
  | O => None
  | S _ => Some (fdiv x (inject_Z (Z.of_nat n)))
  end.

(** [Math.round] of a possibly-[NaN] value. *)
Definition round_opt (x : option Q) : option Z := option_map Math_round x.

(** [x >= m] where [x] may be [NaN]: a comparison with [NaN] is false. *)
Definition ge_opt (x : option Z) (m : Q) : bool :=
  match x with
  | Some v => Qge_bool (inject_Z v) m
  | None => false
  end.

End JS.

(* ------------------------------------------------------------------ *)
(** ** The Standard Library's binary64, for comparison *)

Module Binary64Reference.
Import JS.

(** The rational that a finite value of [SpecFloat] denotes. *)
Definition value (f : spec_float) : option Q :=
  match f with
  | S754_zero _ => Some 0%Q
  | S754_finite s m e => Some ((if s then -1 else 1) * inject_Z (Zpos m) * pow2 e)%Q
  | _ => None
  end.

(** An integer as a binary64 value. *)
Definition of_Z (n : Z) : spec_float := binary_normalize 53 1024 n 0 false.

Definition add64 : spec_float -> spec_float -> spec_float := SFadd 53 1024.
Definition mul64 : spec_float -> spec_float -> spec_float := SFmul 53 1024.
Definition div64 : spec_float -> spec_float -> spec_float := SFdiv 53 1024.

(** [f] is finite and denotes [q]. *)
Definition denotes (f : spec_float) (q : Q) : bool :=
  match value f with
  | Some x => Qeq_bool x q
  | None => false
  end.

(** The pairs [(i, j)] with [i < a] and [1 <= j <= b]. *)
Definition grid (a b : nat) : list (Z * Z) :=
  flat_map (fun i => map (fun j => (Z.of_nat i, Z.of_nat j)) (seq 1 b)) (seq 0 a).

End Binary64Reference.

(* ------------------------------------------------------------------ *)
(** ** TypingTest.tsx *)

Module TypingTest.
Import JS.

Record Config := {
  duration : Z;
  minimumWpm : Q;
  minimumAccuracy : Q;
  fraudDetectionEnabled : bool;
  fraudSensitivity : string
}.

Record KeystrokeData := {
  key : string;
  timestamp : Z;
  timeBetweenKeystrokes : Z;
  isCorrection : bool
}.

Record Stats := {
  wpm : Z;
  accuracy : Z;
  charactersTyped : nat;
  errorsCount : nat;
  correctionsCount : nat
}.

Record TypingTestResult := {
  r_wpm : Z;
  r_accuracy : Z;
  r_charactersTyped : nat;
  errorsMade : nat;
  correctionsMade : nat;
  timeSpent : Z;
  passed : bool;
  fraudScore : Q;
  fraudIndicators : list string
}.

Inductive TestState := ready | active | completed.

(** [input[i] === text[i]]: indexing past the end gives [undefined]. *)
Definition same_char (input text : string) (i : nat) : bool :=
  match String.get i input, String.get i text with
  | Some a, Some b => Ascii.eqb a b
  | None, None => true
  | _, _ => false
  end.

(** One iteration of the comparison loop of [calculateStats]; the
    accumulator is [(correctChars, errors)]. *)
Definition compare_step (input text : string) (acc : nat * nat) (i : nat)
  : nat * nat :=
  if same_char input text i then (S (fst acc), snd acc)
  else (fst acc, S (snd acc)).

(** [for (let i = 0; i < Math.min(input.length, text.length); i++)]. *)
Definition compare_loop (input text : string) : nat * nat :=
  fold_left (compare_step input text)
            (seq 0 (Nat.min (String.length input) (String.length text)))
            (O, O).

(** [startTime ? (currentTime - startTime) / 1000 / 60 : 0], in
    minutes; [startTime] is [null] before the test starts, and a zero
    timestamp is falsy as well. *)
Definition timeElapsed (startTime : option Z) (currentTime : Z) : Q :=
  match startTime with
  | Some s =>
      if s =? 0 then 0%Q
      else fdiv (fdiv (inject_Z (currentTime - s)) 1000) 60
  | None => 0%Q
  end.

Definition calculateStats (startTime : option Z) (keystrokeData : list KeystrokeData)
           (currentTime : Z) (input text : string) : Stats :=
  let elapsed := timeElapsed startTime currentTime in
  let correctChars := fst (compare_loop input text) in
  let errors := snd (compare_loop input text) in
  {| wpm := if Qlt_bool 0 elapsed
            then Math_round (fdiv (fdiv (inject_Z (Z.of_nat correctChars)) 5) elapsed)
            else 0;
     accuracy := if (0 <? String.length input)%nat
                 then Math_round
                        (fmul (fdiv (inject_Z (Z.of_nat correctChars))
                                    (inject_Z (Z.of_nat (String.length input))))
                              100)
                 else 100;
     charactersTyped := String.length input;
     errorsCount := errors;
     correctionsCount := List.length (filter isCorrection keystrokeData) |}.

(** The number of positions [i < min (len input) (len text)] at which
    the two strings agree, as the specification words it. *)
Definition matching_positions (input text : string) : nat :=
  List.length
    (filter (same_char input text)
            (seq 0 (Nat.min (String.length input) (String.length text)))).

(** The component state: the [useState] cells, [lastKeystrokeRef], and
    a log of the results handed to [saveTypingTestResults] and
    [onComplete] (oldest first, with the [autoSubmitted] argument). *)
Record State := {
  testState : TestState;
  currentText : string;
  userInput : string;
  timeRemaining : Z;
  startTime : option Z;
  keystrokeData : list KeystrokeData;
  focusLostCount : nat;
  realTimeStats : Stats;
  fraudAlerts : list string;
  lastKeystrokeRef : Z;
  completions : list (TypingTestResult * bool)
}.

Definition TEST_PARAGRAPHS_technical : list string :=
  [ "Software development is a complex process that requires careful planning, systematic approach, and continuous testing. Modern applications must be scalable, maintainable, and secure. Developers use various programming languages, frameworks, and tools to create robust solutions that meet business requirements and user expectations.";
    "Database optimization involves indexing strategies, query performance tuning, and proper schema design. Efficient data structures and algorithms are essential for handling large datasets. Memory management and caching mechanisms significantly impact application performance and user experience in production environments.";
    "Cloud computing platforms provide scalable infrastructure solutions for modern applications. Containerization technologies like Docker and Kubernetes enable efficient deployment and orchestration. Microservices architecture promotes modularity and allows teams to develop and deploy services independently." ]%string.

(** State after the first render and the mount effect; [r] is the
    value of [Math.floor(Math.random() * paragraphs.length)]. *)
Definition init (config : Config) (r : nat) : State :=
  {| testState := ready;
     currentText := nth r TEST_PARAGRAPHS_technical EmptyString;
     userInput := EmptyString;
     timeRemaining := duration config;
     startTime := None;
     keystrokeData := [];
     focusLostCount := O;
     realTimeStats := {| wpm := 0; accuracy := 100; charactersTyped := O;
                         errorsCount := O; correctionsCount := O |};
     fraudAlerts := [];
     lastKeystrokeRef := 0;
     completions := [] |}.

Definition msg_focus_lost : string := "Browser focus lost during test".
Definition msg_rapid_typing : string := "Suspicious rapid typing detected".
Definition msg_fast_typing : string := "Unusually fast typing detected".
Definition msg_multiple_focus : string := "Multiple focus losses during test".

Definition set_testState (v : TestState) (s : State) : State :=
  {| testState := v; currentText := currentText s; userInput := userInput s;
     timeRemaining := timeRemaining s; startTime := startTime s;
     keystrokeData := keystrokeData s; focusLostCount := focusLostCount s;
     realTimeStats := realTimeStats s; fraudAlerts := fraudAlerts s;
     lastKeystrokeRef := lastKeystrokeRef s; completions := completions s |}.

Definition set_timeRemaining (v : Z) (s : State) : State :=
  {| testState := testState s; currentText := currentText s; userInput := userInput s;
     timeRemaining := v; startTime := startTime s;
     keystrokeData := keystrokeData s; focusLostCount := focusLostCount s;
     realTimeStats := realTimeStats s; fraudAlerts := fraudAlerts s;
     lastKeystrokeRef := lastKeystrokeRef s; completions := completions s |}.

Definition set_startTime (v : option Z) (s : State) : State :=
  {| testState := testState s; currentText := currentText s; userInput := userInput s;
     timeRemaining := timeRemaining s; startTime := v;
     keystrokeData := keystrokeData s; focusLostCount := focusLostCount s;
     realTimeStats := realTimeStats s; fraudAlerts := fraudAlerts s;
     lastKeystrokeRef := lastKeystrokeRef s; completions := completions s |}.

Definition set_focus (n : nat) (alerts : list string) (s : State) : State :=
  {| testState := testState s; currentText := currentText s; userInput := userInput s;
     timeRemaining := timeRemaining s; startTime := startTime s;
     keystrokeData := keystrokeData s; focusLostCount := n;
     realTimeStats := realTimeStats s; fraudAlerts := alerts;
     lastKeystrokeRef := lastKeystrokeRef s; completions := completions s |}.

Definition set_input (input : string) (stats : Stats) (s : State) : State :=
  {| testState := testState s; currentText := currentText s; userInput := input;
     timeRemaining := timeRemaining s; startTime := startTime s;
     keystrokeData := keystrokeData s; focusLostCount := focusLostCount s;
     realTimeStats := stats; fraudAlerts := fraudAlerts s;
     lastKeystrokeRef := lastKeystrokeRef s; completions := completions s |}.

Definition set_keystrokes (kd : list KeystrokeData) (alerts : list string)
           (last : Z) (s : State) : State :=
  {| testState := testState s; currentText := currentText s; userInput := userInput s;
     timeRemaining := timeRemaining s; startTime := startTime s;
     keystrokeData := kd; focusLostCount := focusLostCount s;
     realTimeStats := realTimeStats s; fraudAlerts := alerts;
     lastKeystrokeRef := last; completions := completions s |}.

Definition log_completion (r : TypingTestResult) (autoSubmitted : bool)
           (s : State) : State :=
  {| testState := testState s; currentText := currentText s; userInput := userInput s;
     timeRemaining := timeRemaining s; startTime := startTime s;
     keystrokeData := keystrokeData s; focusLostCount := focusLostCount s;
     realTimeStats := realTimeStats s; fraudAlerts := fraudAlerts s;
     lastKeystrokeRef := lastKeystrokeRef s;
     completions := completions s ++ [(r, autoSubmitted)] |}.

(** [handleFocusLoss], the listener of [blur] and of
    [visibilitychange] while the document is hidden. *)
Definition handleFocusLoss (config : Config) (s : State) : State :=
  match testState s with
  | active =>
      set_focus (S (focusLostCount s))
                (if fraudDetectionEnabled config
                 then fraudAlerts s ++ [msg_focus_lost]
                 else fraudAlerts s)
                s
  | _ => s
  end.

Definition startTest (now : Z) (s : State) : State :=
  set_startTime (Some now) (set_testState active s).

(** [keystrokeData.slice(1).reduce((sum, k) => sum + k.timeBetweenKeystrokes, 0)
     / (keystrokeData.length - 1)], or [0] when the log has fewer than
    two entries. *)
Definition avgTimeBetweenKeystrokes (kd : list KeystrokeData) : Q :=
  let total := fold_left (fun sum k => sum + timeBetweenKeystrokes k) (tl kd) 0 in
  if (1 <? List.length kd)%nat
  then fdiv (inject_Z total) (inject_Z (Z.of_nat (List.length kd - 1)))
  else 0%Q.

(** The fraud section of [handleTestComplete]: the running
    [fraudScore] and the [fraudIndicators] array. *)
Definition fraudAnalysis (config : Config) (s : State) : Q * list string :=
  if fraudDetectionEnabled config then
    let a1 := if Qlt_bool (avgTimeBetweenKeystrokes (keystrokeData s)) 50
              then ((0 + (3 # 10))%Q, [msg_fast_typing])
              else (0%Q, []) in
    let a2 := if (2 <? focusLostCount s)%nat
              then ((fst a1 + (2 # 10))%Q, snd a1 ++ [msg_multiple_focus])
              else a1 in
    if (0 <? List.length (fraudAlerts s))%nat
    then ((fst a2 + (2 # 10))%Q, snd a2 ++ fraudAlerts s)
    else a2
  else (0%Q, []).

(** The [results] object built by [handleTestComplete] from the state
    of the render whose closure runs. *)
Definition testResults (config : Config) (s : State) (now : Z) : TypingTestResult :=
  let finalStats :=
    calculateStats (startTime s) (keystrokeData s) now (userInput s) (currentText s) in
  let fraud := fraudAnalysis config s in
  {| r_wpm := wpm finalStats;
     r_accuracy := accuracy finalStats;
     r_charactersTyped := charactersTyped finalStats;
     errorsMade := errorsCount finalStats;
     correctionsMade := correctionsCount finalStats;
     timeSpent := duration config - timeRemaining s;
     passed := Qge_bool (inject_Z (wpm finalStats)) (minimumWpm config)
               && Qge_bool (inject_Z (accuracy finalStats)) (minimumAccuracy config)
               && Qlt_bool (fst fraud) (7 # 10);
     fraudScore := (inject_Z (Math_round (fst fraud * 100)) / 100)%Q;
     fraudIndicators := snd fraud |}.

(** [handleTestComplete]: [closure] is the state seen by the handler,
    [s] the state its updates are applied to. *)
Definition handleTestComplete (config : Config) (closure : State) (now : Z)
           (autoSubmitted : bool) (s : State) : State :=
  log_completion (testResults config closure now) autoSubmitted
                 (set_testState completed s).

Definition last_key (newInput : string) : string :=
  match String.get (String.length newInput - 1) newInput with
  | Some c => String c EmptyString
  | None => "backspace"%string
  end.

(** [handleInputChange].  All reads are from the state [s] of the
    current render; the [set...] calls take effect afterwards, so the
    statistics and a completion triggered here see the keystroke log,
    alerts and input as they were before this event. *)
Definition handleInputChange (config : Config) (newInput : string) (now : Z)
           (s : State) : State :=
  let s1 := match testState s with ready => startTest now s | _ => s end in
  let s2 :=
    if fraudDetectionEnabled config then
      let between := if lastKeystrokeRef s =? 0 then 0 else now - lastKeystrokeRef s in
      let correction := (String.length newInput <? String.length (userInput s))%nat in
      let alerts :=
        if (between <? 10) && (String.length (userInput s) + 5 <? String.length newInput)%nat
        then fraudAlerts s ++ [msg_rapid_typing] else fraudAlerts s in
      set_keystrokes
        (keystrokeData s ++ [ {| key := last_key newInput; timestamp := now;
                                 timeBetweenKeystrokes := between;
                                 isCorrection := correction |} ])
        alerts now s1
    else s1 in
  let stats := calculateStats (startTime s) (keystrokeData s) now newInput (currentText s) in
  let s3 := set_input newInput stats s2 in
  if (String.length (currentText s) <=? String.length newInput)%nat
  then handleTestComplete config s now false s3
  else s3.

(** The countdown effect, run after a render in which [testState] or
    [timeRemaining] changed. *)
Definition timerEffect (config : Config) (now : Z) (s : State) : State :=
  match testState s with
  | active =>
      if 0 <? timeRemaining s then set_timeRemaining (timeRemaining s - 1) s
      else if timeRemaining s =? 0 then handleTestComplete config s now true s
      else s
  | _ => s
  end.

(** What can happen to a mounted [TypingTest]; [now] is the value
    [Date.now()] returns while the handler runs.  The cancel button
    only calls the parent's [onCancel] and is left out. *)
Inductive Event :=
| ClickStart (now : Z)
| InputChange (newInput : string) (now : Z)
| Timer (now : Z)
| FocusLoss
| ClickSubmitEarly (now : Z).

(** The start button exists only in the [ready] view, the textarea
    only in the other view and it is disabled once [completed], and
    the early-submit button is rendered only while [active]. *)
Definition step (config : Config) (s : State) (e : Event) : State :=
  match e with
  | ClickStart now =>
      match testState s with ready => startTest now s | _ => s end
  | InputChange newInput now =>
      match testState s with
      | active => handleInputChange config newInput now s
      | _ => s
      end
  | Timer now => timerEffect config now s
  | FocusLoss => handleFocusLoss config s
  | ClickSubmitEarly now =>
      match testState s with
      | active => handleTestComplete config s now true s
      | _ => s
      end
  end.

Definition run (config : Config) (s : State) (events : list Event) : State :=
  fold_left (step config) events s.

(** The number of occurrences of a message in an alert list. *)
Definition count_msg (m : string) (l : list string) : nat :=
  List.length (filter (String.eqb m) l).

(** The invariant of the alert list: every alert comes from one of the
    two [setFraudAlerts] calls, and
    with fraud detection enabled there is one focus alert per counted
    focus loss. *)
Definition alerts_inv (config : Config) (s : State) : Prop :=
  Forall (fun a => a = msg_focus_lost \/ a = msg_rapid_typing) (fraudAlerts s)
  /\ (fraudDetectionEnabled config = true ->
      count_msg msg_focus_lost (fraudAlerts s) = focusLostCount s).

End TypingTest.

(* ------------------------------------------------------------------ *)
(** ** AIInterview.tsx *)

Module AIInterview.
Import JS.

Inductive Category := coding | dsa | education | achievements | problem_solving.

Definition Category_eqb (a b : Category) : bool :=
  match a, b with
  | coding, coding | dsa, dsa | education, education
  | achievements, achievements | problem_solving, problem_solving => true
  | _, _ => false
  end.

(** The keys of [config.questionDistribution], as [Object.keys] lists
    them for an object with the declared shape. *)
Definition Object_keys : list Category :=
  [coding; dsa; education; achievements; problem_solving].

Definition Category_name (c : Category) : string :=
  match c with
  | coding => "coding"
  | dsa => "dsa"
  | education => "education"
  | achievements => "achievements"
  | problem_solving => "problem_solving"
  end.

Record QuestionDistribution := {
  d_coding : Q;
  d_dsa : Q;
  d_education : Q;
  d_achievements : Q;
  d_problem_solving : Q
}.

(** [config.questionDistribution[category]]. *)
Definition percentage (d : QuestionDistribution) (c : Category) : Q :=
  match c with
  | coding => d_coding d
  | dsa => d_dsa d
  | education => d_education d
  | achievements => d_achievements d
  | problem_solving => d_problem_solving d
  end.

Record Config := {
  totalQuestions : Z;
  questionDistribution : QuestionDistribution;
  aiModel : string;
  difficultyLevel : string;
  minimumPassingScore : Q;
  evaluationStrictness : string;
  dynamicQuestionsEnabled : bool
}.

Record Question := {
  q_id : string;
  q_text : string;
  q_category : Category;
  q_difficulty : string;
  timeLimit : Z;
  maxScore : Z
}.

Record Answer := {
  questionId : string;
  answer : string;
  timeSpent : Z;
  autoSubmitted : bool;
  timestamp : Z
}.

Record QuestionEvaluation := {
  e_questionId : string;
  aiScore : Q;
  technicalAccuracy : Q;
  problemSolving : Q;
  communication : Q;
  timeManagement : Z;
  creativity : Q;
  feedback : string;
  improvementSuggestions : list string
}.

Record CategoryBreakdown := {
  cb_coding : Z;
  cb_dsa : Z;
  cb_education : Z;
  cb_achievements : Z;
  cb_problem_solving : Z
}.

Record TimeAnalysis := {
  totalTimeSpent : Z;
  averageTimePerQuestion : option Z;
  questionsAutoSubmitted : nat
}.

Record InterviewResults := {
  totalScore : Z;
  percentageScore : option Z;
  questionsAttempted : nat;
  questionsCompleted : nat;
  categoryBreakdown : CategoryBreakdown;
  timeAnalysis : TimeAnalysis;
  passed : bool;
  recommendation : string;
  nextSteps : string;
  evaluations : list QuestionEvaluation
}.

Definition getTimeLimit (c : Category) : Z :=
  match c with
  | coding => 900
  | dsa => 600
  | education => 300
  | achievements => 420
  | problem_solving => 720
  end.

Definition decimal (n : Z) : string :=
  DecimalString.NilZero.string_of_int (Z.to_int n).

(** [Math.round((percentage / 100) * config.totalQuestions)]. *)
Definition questionCount (config : Config) (c : Category) : Z :=
  Math_round (fmul (fdiv (percentage (questionDistribution config) c) 100)
                    (inject_Z (totalQuestions config))).

Section Generation.
(** The environment of one call of [generateInterviewQuestions]:
    the text [generateMockQuestion] draws from its bank for slot [i]
    of a category, the value of [Date.now()] when that slot is
    built, and the outcome of [sort(() => Math.random() - 0.5)]. *)
Variable mockQuestion : Category -> nat -> string.
Variable clock : Category -> nat -> Z.
Variable shuffle : list Question -> list Question.

Definition mkQuestion (config : Config) (c : Category) (i : nat) : Question :=
  {| q_id := Category_name c ++ "_" ++ decimal (Z.of_nat i) ++ "_" ++ decimal (clock c i);
     q_text := mockQuestion c i;
     q_category := c;
     q_difficulty := difficultyLevel config;
     timeLimit := getTimeLimit c;
     maxScore := 100 |}.

(** The inner loop [for (let i = 0; i < questionCount; i++)]. *)
Definition questionsFor (config : Config) (c : Category) : list Question :=
  map (mkQuestion config c) (seq 0 (Z.to_nat (questionCount config c))).

(** [mockQuestions] once the loop over the categories is done. *)
Definition mockQuestions (config : Config) : list Question :=
  flat_map (questionsFor config) Object_keys.

Definition generateInterviewQuestions (config : Config) : list Question :=
  shuffle (mockQuestions config).
End Generation.

(** [questions.find(q => q.id === id)]. *)
Definition findQuestion (questions : list Question) (id : string) : option Question :=
  find (fun q => String.eqb (q_id q) id) questions.

Definition generateMockFeedback (score : Q) : string :=
  if Qge_bool score 80 then
    "Excellent response! You demonstrated strong understanding and provided a comprehensive answer with good technical depth."
  else if Qge_bool score 60 then
    "Good response with room for improvement. Consider providing more specific examples and diving deeper into technical details."
  else
    "Your response shows basic understanding but lacks detail. Try to elaborate more on your thought process and provide concrete examples.".

Definition generateMockSuggestions (c : Category) : list string :=
  match c with
  | coding =>
      [ "Practice explaining your code step-by-step";
        "Consider edge cases and error handling";
        "Discuss time and space complexity" ]
  | dsa =>
      [ "Review fundamental data structures";
        "Practice algorithm analysis";
        "Study common optimization techniques" ]
  | education =>
      [ "Connect academic concepts to practical applications";
        "Highlight relevant coursework";
        "Discuss continuous learning initiatives" ]
  | achievements =>
      [ "Use the STAR method (Situation, Task, Action, Result)";
        "Quantify your impact with specific metrics";
        "Highlight leadership and collaboration skills" ]
  | problem_solving =>
      [ "Break down complex problems systematically";
        "Consider multiple solution approaches";
        "Discuss trade-offs and decision criteria" ]
  end%string.

(** [Math.min(90, Math.max(30, answer.answer.length / 10))]. *)
Definition baseScore (a : Answer) : Q :=
  Qmin 90 (Qmax 30 (fdiv (inject_Z (Z.of_nat (String.length (answer a)))) 10)).

(** [answer.timeSpent < question.timeLimit * 0.5 ? 10 : 0]. *)
Definition timeBonus (q : Question) (a : Answer) : Q :=
  if Qlt_bool (inject_Z (timeSpent a)) (fmul (inject_Z (timeLimit q)) (1 # 2))
  then 10 else 0.

(** The callback of [answers.map] in [processAnswers]; [rnd] is the
    value of [Math.random()] drawn for this answer. *)
Definition evaluate (q : Question) (a : Answer) (rnd : Q) : QuestionEvaluation :=
  let score := Qmin 100 (fadd (baseScore a) (timeBonus q a)) in
  {| e_questionId := questionId a;
     aiScore := score;
     technicalAccuracy := fmul score (dbl (9 # 10));
     problemSolving := fmul score (dbl (8 # 10));
     communication := fmul score (dbl (85 # 100));
     timeManagement := if timeSpent a <? timeLimit q then 90 else 60;
     creativity := fadd (fmul rnd 40) 60;
     feedback := generateMockFeedback score;
     improvementSuggestions := generateMockSuggestions (q_category q) |}.

(** [processAnswers]: [None] is the [TypeError] raised when an answer
    names a question that [questions.find] does not return; [random k]
    is the draw made for the answer at index [k]. *)
Fixpoint processAnswers_from (questions : list Question) (random : nat -> Q)
         (k : nat) (answers : list Answer) : option (list QuestionEvaluation) :=
  match answers with
  | [] => Some []
  | a :: rest =>
      match findQuestion questions (questionId a) with
      | None => None
      | Some q =>
          match processAnswers_from questions random (S k) rest with
          | None => None
          | Some evs => Some (evaluate q a (random k) :: evs)
          end
      end
  end.

Definition processAnswers (questions : list Question) (random : nat -> Q)
           (answers : list Answer) : option (list QuestionEvaluation) :=
  processAnswers_from questions random O answers.

(** [processedResults.reduce((sum, result) => sum + result.aiScore, 0)]. *)
Definition sumScores (l : list QuestionEvaluation) : Q :=
  fold_left (fun sum result => fadd sum (aiScore result)) l 0%Q.

(** The evaluations whose question has category [c]. *)
Definition categoryResults (questions : list Question) (c : Category)
           (processedResults : list QuestionEvaluation) : list QuestionEvaluation :=
  filter (fun result =>
            match findQuestion questions (e_questionId result) with
            | Some q => Category_eqb (q_category q) c
            | None => false
            end) processedResults.

Definition categoryAverage (questions : list Question) (c : Category)
           (processedResults : list QuestionEvaluation) : Z :=
  let rs := categoryResults questions c processedResults in
  if (0 <? List.length rs)%nat
  then Math_round (fdiv (sumScores rs) (inject_Z (Z.of_nat (List.length rs))))
  else 0.

Definition is_white_space (c : ascii) : bool :=
  let n := nat_of_ascii c in
  ((n =? 9) || (n =? 10) || (n =? 11) || (n =? 12) || (n =? 13)
   || (n =? 32) || (n =? 160))%nat.

Fixpoint dropWhile {A} (p : A -> bool) (l : list A) : list A :=
  match l with
  | [] => []
  | x :: rest => if p x then dropWhile p rest else l
  end.

(** [String.prototype.trim]. *)
Definition trim (s : string) : string :=
  string_of_list_ascii
    (rev (dropWhile is_white_space
                    (rev (dropWhile is_white_space (list_ascii_of_string s))))).

Definition calculateResults (config : Config) (questions : list Question)
           (answers : list Answer) (processedResults : list QuestionEvaluation)
  : InterviewResults :=
  let total := sumScores processedResults in
  let averageScore := div_length total (List.length processedResults) in
  let percentage := round_opt averageScore in
  let totalTime := fold_left (fun sum a => sum + timeSpent a) answers 0 in
  let pass := ge_opt percentage (minimumPassingScore config) in
  {| totalScore := Math_round total;
     percentageScore := percentage;
     questionsAttempted := List.length answers;
     questionsCompleted :=
       List.length (filter (fun a => (0 <? String.length (trim (answer a)))%nat) answers);
     categoryBreakdown :=
       {| cb_coding := categoryAverage questions coding processedResults;
          cb_dsa := categoryAverage questions dsa processedResults;
          cb_education := categoryAverage questions education processedResults;
          cb_achievements := categoryAverage questions achievements processedResults;
          cb_problem_solving := categoryAverage questions problem_solving processedResults |};
     timeAnalysis :=
       {| totalTimeSpent := totalTime;
          averageTimePerQuestion :=
            round_opt (div_length (inject_Z totalTime) (List.length answers));
          questionsAutoSubmitted := List.length (filter autoSubmitted answers) |};
     passed := pass;
     recommendation :=
       if pass
       then "Candidate demonstrates strong technical capabilities and problem-solving skills. Recommended for next interview round."
       else "Candidate shows potential but may need additional preparation. Consider providing feedback and scheduling a follow-up assessment.";
     nextSteps :=
       if pass
       then "Schedule technical panel interview with senior team members."
       else "Provide detailed feedback and offer study resources for improvement areas.";
     evaluations := processedResults |}.

(** The [results] that [completeInterview] hands to [onComplete];
    [None] when [processAnswers] raised and the [catch] branch ran. *)
Definition interviewResults (config : Config) (questions : list Question)
           (random : nat -> Q) (finalAnswers : list Answer) : option InterviewResults :=
  option_map (calculateResults config questions finalAnswers)
             (processAnswers questions random finalAnswers).

Inductive InterviewState := loading | ready | active | completed.

(** The component state, and the argument of every call of
    [completeInterview] so far (oldest first). *)
Record State := {
  interviewState : InterviewState;
  questions : list Question;
  currentQuestionIndex : nat;
  answers : list Answer;
  currentAnswer : string;
  questionStartTime : Z;
  timeRemaining : Z;
  isSubmitting : bool;
  completions : list (list Answer)
}.

(** The state once the mount effect [generateQuestions] has stored
    the generated questions. *)
Definition mounted (generated : list Question) : State :=
  {| interviewState := ready;
     questions := generated;
     currentQuestionIndex := O;
     answers := [];
     currentAnswer := EmptyString;
     questionStartTime := 0;
     timeRemaining := 0;
     isSubmitting := false;
     completions := [] |}.

Definition set_interviewState (v : InterviewState) (s : State) : State :=
  {| interviewState := v; questions := questions s;
     currentQuestionIndex := currentQuestionIndex s; answers := answers s;
     currentAnswer := currentAnswer s; questionStartTime := questionStartTime s;
     timeRemaining := timeRemaining s; isSubmitting := isSubmitting s;
     completions := completions s |}.

Definition set_answers (v : list Answer) (s : State) : State :=
  {| interviewState := interviewState s; questions := questions s;
     currentQuestionIndex := currentQuestionIndex s; answers := v;
     currentAnswer := currentAnswer s; questionStartTime := questionStartTime s;
     timeRemaining := timeRemaining s; isSubmitting := isSubmitting s;
     completions := completions s |}.

Definition set_currentAnswer (v : string) (s : State) : State :=
  {| interviewState := interviewState s; questions := questions s;
     currentQuestionIndex := currentQuestionIndex s; answers := answers s;
     currentAnswer := v; questionStartTime := questionStartTime s;
     timeRemaining := timeRemaining s; isSubmitting := isSubmitting s;
     completions := completions s |}.

Definition set_timeRemaining (v : Z) (s : State) : State :=
  {| interviewState := interviewState s; questions := questions s;
     currentQuestionIndex := currentQuestionIndex s; answers := answers s;
     currentAnswer := currentAnswer s; questionStartTime := questionStartTime s;
     timeRemaining := v; isSubmitting := isSubmitting s;
     completions := completions s |}.

(** [startQuestion(index)]; [None] is the [TypeError] of
    [questions[index].timeLimit] when there is no such question. *)
Definition startQuestion (index : nat) (now : Z) (s : State) : option State :=
  match nth_error (questions s) index with
  | Some q =>
      Some {| interviewState := interviewState s; questions := questions s;
              currentQuestionIndex := index; answers := answers s;
              currentAnswer := EmptyString; questionStartTime := now;
              timeRemaining := timeLimit q; isSubmitting := isSubmitting s;
              completions := completions s |}
  | None => None
  end.

Definition startInterview (now : Z) (s : State) : option State :=
  startQuestion O now (set_interviewState active s).

Definition handleAnswerChange (value : string) (s : State) : State :=
  set_currentAnswer value s.

(** [completeInterview(finalAnswers)]. *)
Definition completeInterview (finalAnswers : list Answer) (s : State) : State :=
  {| interviewState := completed; questions := questions s;
     currentQuestionIndex := currentQuestionIndex s; answers := answers s;
     currentAnswer := currentAnswer s; questionStartTime := questionStartTime s;
     timeRemaining := timeRemaining s; isSubmitting := isSubmitting s;
     completions := completions s ++ [finalAnswers] |}.

(** The part shared by [handleSubmitAnswer] and [handleAutoSubmit]:
    [setAnswers(prev => [...prev, answer])], then the next question
    or [completeInterview([...answers, answer])]. *)
Definition submit (a : Answer) (now : Z) (s : State) : option State :=
  let s1 := set_answers (answers s ++ [a]) s in
  if (currentQuestionIndex s <? List.length (questions s) - 1)%nat
  then startQuestion (currentQuestionIndex s + 1) now s1
  else Some (completeInterview (answers s ++ [a]) s1).

Definition set_isSubmitting (v : bool) (s : State) : State :=
  {| interviewState := interviewState s; questions := questions s;
     currentQuestionIndex := currentQuestionIndex s; answers := answers s;
     currentAnswer := currentAnswer s; questionStartTime := questionStartTime s;
     timeRemaining := timeRemaining s; isSubmitting := v;
     completions := completions s |}.

(** [handleSubmitAnswer]; [timeSpent] is
    [Math.floor((Date.now() - questionStartTime) / 1000)], and the
    handler ends with [setIsSubmitting(false)]. *)
Definition handleSubmitAnswer (now : Z) (s : State) : option State :=
  match nth_error (questions s) (currentQuestionIndex s) with
  | None => None
  | Some q =>
      option_map (set_isSubmitting false)
        (submit {| questionId := q_id q;
                   answer := currentAnswer s;
                   timeSpent := (now - questionStartTime s) / 1000;
                   autoSubmitted := false;
                   timestamp := now |} now s)
  end.

Definition handleAutoSubmit (now : Z) (s : State) : option State :=
  match nth_error (questions s) (currentQuestionIndex s) with
  | None => None
  | Some q =>
      submit {| questionId := q_id q;
                answer := currentAnswer s;
                timeSpent := timeLimit q;
                autoSubmitted := true;
                timestamp := now |} now s
  end.

(** The updater passed to [setAnswers] by [handlePreviousQuestion]:
    overwrite the first record with the same [questionId], or append. *)
Fixpoint upsert (tempAnswer : Answer) (prev : list Answer) : list Answer :=
  match prev with
  | [] => [tempAnswer]
  | a :: rest =>
      if String.eqb (questionId a) (questionId tempAnswer)
      then tempAnswer :: rest
      else a :: upsert tempAnswer rest
  end.

Definition handlePreviousQuestion (now : Z) (s : State) : option State :=
  if (0 <? currentQuestionIndex s)%nat then
    match nth_error (questions s) (currentQuestionIndex s) with
    | None => None
    | Some q =>
        let tempAnswer := {| questionId := q_id q;
                             answer := currentAnswer s;
                             timeSpent := (now - questionStartTime s) / 1000;
                             autoSubmitted := false;
                             timestamp := now |} in
        match startQuestion (currentQuestionIndex s - 1) now
                            (set_answers (upsert tempAnswer (answers s)) s),
              nth_error (questions s) (currentQuestionIndex s - 1) with
        | Some s1, Some prevQ =>
            match find (fun a => String.eqb (questionId a) (q_id prevQ)) (answers s) with
            | Some prevAnswer => Some (set_currentAnswer (answer prevAnswer) s1)
            | None => Some s1
            end
        | _, _ => None
        end
    end
  else Some s.

(** The per-question countdown effect. *)
Definition timerEffect (now : Z) (s : State) : option State :=
  match interviewState s with
  | active =>
      if 0 <? timeRemaining s then Some (set_timeRemaining (timeRemaining s - 1) s)
      else if timeRemaining s =? 0 then handleAutoSubmit now s
      else Some s
  | _ => Some s
  end.

(** What can happen to a mounted [AIInterview]; the End Interview
    button only calls the parent's [onCancel] and is left out. *)
Inductive Event :=
| ClickStartInterview (now : Z)
| AnswerChange (value : string)
| ClickSubmit (now : Z)
| ClickPrevious (now : Z)
| Timer (now : Z).

(** The question card (textarea, Previous, Next/Complete) is rendered
    when the state is neither [loading] nor [ready] and
    [questions[currentQuestionIndex]] exists. *)
Definition questionCard (s : State) : bool :=
  match interviewState s, nth_error (questions s) (currentQuestionIndex s) with
  | (active | completed), Some _ => true
  | _, _ => false
  end.

Definition step (s : State) (e : Event) : option State :=
  match e with
  | ClickStartInterview now =>
      match interviewState s with
      | ready => startInterview now s
      | _ => Some s
      end
  | AnswerChange value =>
      if questionCard s && negb (isSubmitting s)
      then Some (handleAnswerChange value s) else Some s
  | ClickSubmit now =>
      if questionCard s && negb (isSubmitting s)
      then handleSubmitAnswer now s else Some s
  | ClickPrevious now =>
      if questionCard s && negb ((currentQuestionIndex s =? 0)%nat || isSubmitting s)
      then handlePreviousQuestion now s else Some s
  | Timer now => timerEffect now s
  end.

Fixpoint run (s : State) (events : list Event) : option State :=
  match events with
  | [] => Some s
  | e :: rest =>
      match step s e with
      | Some s' => run s' rest
      | None => None
      end
  end.

(** The [Answer] records kept for one question. *)
Definition answersFor (id : string) (l : list Answer) : list Answer :=
  filter (fun a => String.eqb (questionId a) id) l.


(** What [processAnswers] produces for one answer. *)
Definition evaluated (questions : list Question) (a : Answer) (e : QuestionEvaluation) : Prop :=
  exists q,
    findQuestion questions (questionId a) = Some q
    /\ aiScore e
       = Qmin 100
              (fadd (Qmin 90 (Qmax 30 (fdiv (inject_Z (Z.of_nat (String.length (answer a))))
                                            10)))
                    (if Qlt_bool (inject_Z (timeSpent a))
                                 (fmul (inject_Z (timeLimit q)) (1 # 2))
                     then 10 else 0))
    /\ (30 <= aiScore e <= 100)%Q
    /\ (answer a = EmptyString -> (aiScore e == 30 \/ aiScore e == 40)%Q).

(** Every answer of the list names a question that [questions.find]
    returns. *)
Definition answersKnown (qs : list Question) (l : list Answer) : Prop :=
  forall a, In a l -> exists q, findQuestion qs (questionId a) = Some q.

(** The invariant of a session over the questions [qs]: the question
    list is never replaced, and every recorded or completed answer
    belongs to one of the questions. *)
Definition session_inv (qs : list Question) (s : State) : Prop :=
  questions s = qs
  /\ answersKnown qs (answers s)
  /\ Forall (answersKnown qs) (completions s).

End AIInterview.

(* ------------------------------------------------------------------ *)
(** ** TestCoordinator.tsx *)

Module TestCoordinator.
Import JS.

Record JobConfig := {
  typingTestEnabled : bool;
  minimumWpm : Q;
  minimumAccuracy : Q;
  typingTestDuration : Z;
  fraudDetectionEnabled : bool;
  fraudSensitivity : string;
  totalInterviewQuestions : Z;
  questionDistribution : AIInterview.QuestionDistribution;
  aiModel : string;
  difficultyLevel : string;
  minimumPassingScore : Q;
  evaluationStrictness : string;
  dynamicQuestionsEnabled : bool;
  jobTitle : string;
  company : string;
  atsMinimumScore : Q
}.

Record CandidateInfo := {
  resume : string;
  c_jobTitle : string;
  experience : string;
  atsScore : Q
}.

Inductive PhaseId := ats_check | typing_test | ai_interview.

Definition PhaseId_eqb (a b : PhaseId) : bool :=
  match a, b with
  | ats_check, ats_check | typing_test, typing_test | ai_interview, ai_interview => true
  | _, _ => false
  end.

Inductive Status := pending | active | completed | failed | skipped.

Definition is_pending (st : Status) : bool :=
  match st with pending => true | _ => false end.

Definition is_active (st : Status) : bool :=
  match st with active => true | _ => false end.

Inductive PhaseResults :=
| AtsResults (score required : Q)
| TypingResults (r : TypingTest.TypingTestResult)
| InterviewResults (r : AIInterview.InterviewResults).

Record TestPhase := {
  phase_id : PhaseId;
  status : Status;
  required : bool;
  results : option PhaseResults
}.

(** [currentPhase]: ['overview'] or the id of a phase. *)
Inductive Screen := overview | phase (p : PhaseId).

Record OverallResults := {
  typingTestResults : option PhaseResults;
  interviewResults : AIInterview.InterviewResults;
  overallPassed : bool
}.

Inductive Toast :=
| AtsScoreRequirementNotMet (minimum current : Q)
| InitializationError.

(** The column [jobs.question_distribution]: absent, a string (with
    the outcome of [JSON.parse], [None] when it throws), or an object. *)
Inductive DistributionColumn :=
| NoDistribution
| DistributionText (parsed : option AIInterview.QuestionDistribution)
| DistributionObject (d : AIInterview.QuestionDistribution).

Record JobData := {
  typing_test_enabled : bool;
  minimum_wpm : Q;
  minimum_accuracy : Q;
  typing_test_duration : Z;
  fraud_detection_enabled : bool;
  fraud_sensitivity : string;
  total_interview_questions : Z;
  question_distribution : DistributionColumn;
  ai_model : string;
  difficulty_level : string;
  minimum_passing_score : Q;
  evaluation_strictness : string;
  dynamic_questions_enabled : bool;
  title : string;
  company_name : option string;
  ats_minimum_score : Q
}.

Record ApplicationData := {
  ai_score : option Q;
  resume_url : option string;
  experience_years : option string
}.

(** The [useState] cells of the coordinator, the toasts raised so
    far, the number of [setTimeout] callbacks still outstanding, the
    number of times an [AIInterview] was mounted (each mount runs
    [generateQuestions] once) and the [applications] updates issued. *)
Record State := {
  loading : bool;
  jobConfig : option JobConfig;
  candidateInfo : option CandidateInfo;
  currentPhase : Screen;
  testPhases : list TestPhase;
  overallResults : option OverallResults;
  toasts : list Toast;
  pendingTimeouts : nat;
  questionGenerations : nat;
  statusUpdates : list (string * option Z)
}.

Definition initial : State :=
  {| loading := true; jobConfig := None; candidateInfo := None;
     currentPhase := overview; testPhases := []; overallResults := None;
     toasts := []; pendingTimeouts := O; questionGenerations := O;
     statusUpdates := [] |}.

Definition add_toast (t : Toast) (s : State) : State :=
  {| loading := loading s; jobConfig := jobConfig s; candidateInfo := candidateInfo s;
     currentPhase := currentPhase s; testPhases := testPhases s;
     overallResults := overallResults s; toasts := toasts s ++ [t];
     pendingTimeouts := pendingTimeouts s; questionGenerations := questionGenerations s;
     statusUpdates := statusUpdates s |}.

Definition set_currentPhase (v : Screen) (s : State) : State :=
  {| loading := loading s; jobConfig := jobConfig s; candidateInfo := candidateInfo s;
     currentPhase := v; testPhases := testPhases s;
     overallResults := overallResults s; toasts := toasts s;
     pendingTimeouts := pendingTimeouts s; questionGenerations := questionGenerations s;
     statusUpdates := statusUpdates s |}.

Definition set_testPhases (v : list TestPhase) (s : State) : State :=
  {| loading := loading s; jobConfig := jobConfig s; candidateInfo := candidateInfo s;
     currentPhase := currentPhase s; testPhases := v;
     overallResults := overallResults s; toasts := toasts s;
     pendingTimeouts := pendingTimeouts s; questionGenerations := questionGenerations s;
     statusUpdates := statusUpdates s |}.

Definition set_pendingTimeouts (v : nat) (s : State) : State :=
  {| loading := loading s; jobConfig := jobConfig s; candidateInfo := candidateInfo s;
     currentPhase := currentPhase s; testPhases := testPhases s;
     overallResults := overallResults s; toasts := toasts s;
     pendingTimeouts := v; questionGenerations := questionGenerations s;
     statusUpdates := statusUpdates s |}.

Definition set_questionGenerations (v : nat) (s : State) : State :=
  {| loading := loading s; jobConfig := jobConfig s; candidateInfo := candidateInfo s;
     currentPhase := currentPhase s; testPhases := testPhases s;
     overallResults := overallResults s; toasts := toasts s;
     pendingTimeouts := pendingTimeouts s; questionGenerations := v;
     statusUpdates := statusUpdates s |}.

Definition defaultDistribution : AIInterview.QuestionDistribution :=
  {| AIInterview.d_coding := 30; AIInterview.d_dsa := 25;
     AIInterview.d_education := 15; AIInterview.d_achievements := 15;
     AIInterview.d_problem_solving := 15 |}.

Definition parseDistribution (c : DistributionColumn) : AIInterview.QuestionDistribution :=
  match c with
  | NoDistribution => defaultDistribution
  | DistributionText (Some d) => d
  | DistributionText None => defaultDistribution
  | DistributionObject d => d
  end.

Definition or_else {A} (x : option A) (d : A) : A :=
  match x with Some v => v | None => d end.

(** [initializeTest], applied to the outcome of the two fetches
    ([None]: the query returned an error). *)
Definition initializeTest (job : option JobData) (application : option ApplicationData)
           (s : State) : State :=
  match job, application with
  | Some jobData, Some applicationData =>
      let candidateAtsScore := or_else (ai_score applicationData) 0%Q in
      if Qlt_bool candidateAtsScore (ats_minimum_score jobData) then
        add_toast (AtsScoreRequirementNotMet (ats_minimum_score jobData) candidateAtsScore) s
      else
        let config :=
          {| typingTestEnabled := typing_test_enabled jobData;
             minimumWpm := minimum_wpm jobData;
             minimumAccuracy := minimum_accuracy jobData;
             typingTestDuration := typing_test_duration jobData;
             fraudDetectionEnabled := fraud_detection_enabled jobData;
             fraudSensitivity := fraud_sensitivity jobData;
             totalInterviewQuestions := total_interview_questions jobData;
             questionDistribution := parseDistribution (question_distribution jobData);
             aiModel := ai_model jobData;
             difficultyLevel := difficulty_level jobData;
             minimumPassingScore := minimum_passing_score jobData;
             evaluationStrictness := evaluation_strictness jobData;
             dynamicQuestionsEnabled := dynamic_questions_enabled jobData;
             jobTitle := title jobData;
             company := or_else (company_name jobData) "Company"%string;
             atsMinimumScore := ats_minimum_score jobData |} in
        let candidateData :=
          {| resume := or_else (resume_url applicationData) EmptyString;
             c_jobTitle := jobTitle config;
             experience := or_else (experience_years applicationData) "0"%string;
             atsScore := candidateAtsScore |} in
        let phases :=
          [ {| phase_id := ats_check;
               status := if Qge_bool candidateAtsScore (atsMinimumScore config)
                         then completed else failed;
               required := true;
               results := Some (AtsResults candidateAtsScore (atsMinimumScore config)) |} ]
          ++ (if typingTestEnabled config
              then [ {| phase_id := typing_test; status := pending;
                        required := true; results := None |} ]
              else [])
          ++ [ {| phase_id := ai_interview; status := pending;
                  required := true; results := None |} ] in
        {| loading := false; jobConfig := Some config;
           candidateInfo := Some candidateData;
           currentPhase := currentPhase s; testPhases := phases;
           overallResults := overallResults s; toasts := toasts s;
           pendingTimeouts := pendingTimeouts s;
           questionGenerations := questionGenerations s;
           statusUpdates := statusUpdates s |}
  | _, _ => add_toast InitializationError s
  end.

(** The props handed to the two children. *)
Definition typingTestProps (c : JobConfig) : TypingTest.Config :=
  {| TypingTest.duration := typingTestDuration c;
     TypingTest.minimumWpm := minimumWpm c;
     TypingTest.minimumAccuracy := minimumAccuracy c;
     TypingTest.fraudDetectionEnabled := fraudDetectionEnabled c;
     TypingTest.fraudSensitivity := fraudSensitivity c |}.

Definition interviewProps (c : JobConfig) : AIInterview.Config :=
  {| AIInterview.totalQuestions := totalInterviewQuestions c;
     AIInterview.questionDistribution := questionDistribution c;
     AIInterview.aiModel := aiModel c;
     AIInterview.difficultyLevel := difficultyLevel c;
     AIInterview.minimumPassingScore := minimumPassingScore c;
     AIInterview.evaluationStrictness := evaluationStrictness c;
     AIInterview.dynamicQuestionsEnabled := dynamicQuestionsEnabled c |}.

(** What the component renders. *)
Inductive View :=
| LoadingView
| TypingTestView (c : TypingTest.Config)
| AIInterviewView (c : AIInterview.Config)
| OverviewView (config : JobConfig) (candidate : CandidateInfo).

Definition view (s : State) : View :=
  match loading s, jobConfig s, candidateInfo s with
  | false, Some config, Some candidate =>
      match currentPhase s with
      | phase typing_test =>
          if typingTestEnabled config then TypingTestView (typingTestProps config)
          else OverviewView config candidate
      | phase ai_interview => AIInterviewView (interviewProps config)
      | _ => OverviewView config candidate
      end
  | _, _, _ => LoadingView
  end.

Definition startNextPhase (s : State) : State :=
  match find (fun p => is_pending (status p)) (testPhases s) with
  | Some nextPhase => set_currentPhase (phase (phase_id nextPhase)) s
  | None => s
  end.

(** [prev.map(phase => phase.id === id ? {...phase, status, results} : phase)]. *)
Definition updatePhase (id : PhaseId) (ok : bool) (r : PhaseResults)
           (phases : list TestPhase) : list TestPhase :=
  map (fun p => if PhaseId_eqb (phase_id p) id
                then {| phase_id := phase_id p;
                        status := if ok then completed else failed;
                        required := required p;
                        results := Some r |}
                else p) phases.

Definition handleTypingTestComplete (r : TypingTest.TypingTestResult) (s : State) : State :=
  let s1 := set_testPhases
              (updatePhase typing_test (TypingTest.passed r) (TypingResults r) (testPhases s)) s in
  if TypingTest.passed r then
    match find (fun p => PhaseId_eqb (phase_id p) ai_interview) (testPhases s) with
    | Some _ => set_pendingTimeouts (S (pendingTimeouts s)) (set_currentPhase overview s1)
    | None => s1
    end
  else set_currentPhase overview s1.

(** The callback of [setTimeout(..., 1000)] in
    [handleTypingTestComplete]. *)
Definition timeoutCallback (s : State) : State :=
  set_pendingTimeouts (pendingTimeouts s - 1) (set_currentPhase (phase ai_interview) s).

Definition handleInterviewComplete (r : AIInterview.InterviewResults) (s : State) : State :=
  {| loading := loading s; jobConfig := jobConfig s; candidateInfo := candidateInfo s;
     currentPhase := overview;
     testPhases := updatePhase ai_interview (AIInterview.passed r) (InterviewResults r)
                               (testPhases s);
     overallResults :=
       Some {| typingTestResults :=
                 match find (fun p => PhaseId_eqb (phase_id p) typing_test) (testPhases s) with
                 | Some p => results p
                 | None => None
                 end;
               interviewResults := r;
               overallPassed := AIInterview.passed r |};
     toasts := toasts s;
     pendingTimeouts := pendingTimeouts s;
     questionGenerations := questionGenerations s;
     statusUpdates :=
       statusUpdates s
       ++ [ if AIInterview.passed r
            then ("Under Review"%string, AIInterview.percentageScore r)
            else ("Rejected"%string, None) ] |}.

(** The [disabled] attribute of the Start Next Phase button. *)
Definition startDisabled (config : JobConfig) (s : State) : bool :=
  forallb (fun p => negb (is_pending (status p))
                    || (PhaseId_eqb (phase_id p) typing_test
                        && negb (typingTestEnabled config)))
          (testPhases s).

(** What can happen to the coordinator: a click on Start Next Phase,
    a callback from a mounted child, or the timeout set after a passed
    typing test.  The exit and finish buttons call the page's own
    [onCancel] and [onComplete] and are left out. *)
Inductive Event :=
| ClickStartNextPhase
| TypingTestOnComplete (r : TypingTest.TypingTestResult)
| TypingTestOnCancel
| InterviewOnComplete (r : AIInterview.InterviewResults)
| InterviewOnCancel
| TimeoutFires.

(** The handlers reachable from what is on screen.  The loading card
    has no control; the children's callbacks exist while the child is
    mounted; the Start Next Phase button is rendered on the overview
    when there is no overall result and the ATS score reaches the
    minimum. *)
Definition dispatch (s : State) (e : Event) : State :=
  match e, view s with
  | ClickStartNextPhase, OverviewView config candidate =>
      match overallResults s with
      | None =>
          if Qge_bool (atsScore candidate) (atsMinimumScore config)
             && negb (startDisabled config s)
          then startNextPhase s else s
      | Some _ => s
      end
  | TypingTestOnComplete r, TypingTestView _ => handleTypingTestComplete r s
  | TypingTestOnCancel, TypingTestView _ => set_currentPhase overview s
  | InterviewOnComplete r, AIInterviewView _ => handleInterviewComplete r s
  | InterviewOnCancel, AIInterviewView _ => set_currentPhase overview s
  | TimeoutFires, _ =>
      if (0 <? pendingTimeouts s)%nat then timeoutCallback s else s
  | _, _ => s
  end.

Definition showsInterview (s : State) : bool :=
  match view s with AIInterviewView _ => true | _ => false end.

(** One event, followed by the render: an [AIInterview] that appears
    on screen is a fresh mount and runs [generateQuestions]. *)
Definition step (s : State) (e : Event) : State :=
  let s' := dispatch s e in
  if showsInterview s' && negb (showsInterview s)
  then set_questionGenerations (S (questionGenerations s')) s'
  else s'.

Definition run (s : State) (events : list Event) : State :=
  fold_left step events s.

(** The states a run goes through, the first one included. *)
Fixpoint trace (s : State) (events : list Event) : list State :=
  match events with
  | [] => [s]
  | e :: rest => s :: trace (step s e) rest
  end.

(** [overallResults?.overallPassed], as the overview tests it. *)
Definition overallOutcome (s : State) : bool :=
  match overallResults s with
  | Some o => overallPassed o
  | None => false
  end.

Definition phaseActive (id : PhaseId) (s : State) : bool :=
  existsb (fun p => PhaseId_eqb (phase_id p) id && is_active (status p)) (testPhases s).


(** No phase has the status [active]. *)
Definition noActivePhase (s : State) : Prop :=
  forall p, In p (testPhases s) -> status p <> active.

End TestCoordinator.

(* ------------------------------------------------------------------ *)
(** ** Concrete sessions used below *)

Module Examples.

Definition typingConfig : TypingTest.Config :=
  {| TypingTest.duration := 60;
     TypingTest.minimumWpm := 1;
     TypingTest.minimumAccuracy := 90;
     TypingTest.fraudDetectionEnabled := true;
     TypingTest.fraudSensitivity := "medium" |}.

Definition typingConfigNoFraud : TypingTest.Config :=
  {| TypingTest.duration := 60;
     TypingTest.minimumWpm := 1;
     TypingTest.minimumAccuracy := 90;
     TypingTest.fraudDetectionEnabled := false;
     TypingTest.fraudSensitivity := "medium" |}.

(** Three keystrokes 30 ms apart, then the window loses focus three
    times. *)
Definition focusSession : list TypingTest.Event :=
  [ TypingTest.ClickStart 1000;
    TypingTest.InputChange "S" 1100;
    TypingTest.InputChange "So" 1130;
    TypingTest.InputChange "Sof" 1160;
    TypingTest.FocusLoss;
    TypingTest.FocusLoss;
    TypingTest.FocusLoss ].

(** The test is started and nothing is typed. *)
Definition idleSession : list TypingTest.Event :=
  [ TypingTest.ClickStart 1000 ].

(** Six correct characters typed at a human pace. *)
Definition steadySession : list TypingTest.Event :=
  [ TypingTest.ClickStart 1000;
    TypingTest.InputChange "S" 1200;
    TypingTest.InputChange "So" 1400;
    TypingTest.InputChange "Sof" 1600;
    TypingTest.InputChange "Soft" 1800;
    TypingTest.InputChange "Softw" 2000;
    TypingTest.InputChange "Softwa" 2200 ].

Definition interviewConfig (n : Z) : AIInterview.Config :=
  {| AIInterview.totalQuestions := n;
     AIInterview.questionDistribution := TestCoordinator.defaultDistribution;
     AIInterview.aiModel := "gpt-4";
     AIInterview.difficultyLevel := "medium";
     AIInterview.minimumPassingScore := 70;
     AIInterview.evaluationStrictness := "moderate";
     AIInterview.dynamicQuestionsEnabled := false |}.

Definition bankEntry (c : AIInterview.Category) (i : nat) : string :=
  "Describe your process for breaking down a complex problem.".

Definition fixedClock (c : AIInterview.Category) (i : nat) : Z := 1700000000000.

(** A comparator that happens to leave the array reversed. *)
Definition reversing (l : list AIInterview.Question) : list AIInterview.Question := rev l.

Definition q1 : AIInterview.Question :=
  AIInterview.mkQuestion bankEntry fixedClock (interviewConfig 2) AIInterview.coding 0.

Definition q2 : AIInterview.Question :=
  AIInterview.mkQuestion bankEntry fixedClock (interviewConfig 2) AIInterview.dsa 0.

Definition twoQuestions : list AIInterview.Question := [q1; q2].

(** Answer the first question, go on, come back, answer it again. *)
Definition backAndForth : list AIInterview.Event :=
  [ AIInterview.ClickStartInterview 1000;
    AIInterview.AnswerChange "first";
    AIInterview.ClickSubmit 61000;
    AIInterview.ClickPrevious 62000;
    AIInterview.AnswerChange "second";
    AIInterview.ClickSubmit 120000 ].

(** An answer text of [n] characters. *)
Definition filler (n : nat) : string := string_of_list_ascii (repeat "a"%char n).

(** Two answers that the stub evaluator scores 80 and 60. *)
Definition twoAnswers : list AIInterview.Answer :=
  [ {| AIInterview.questionId := AIInterview.q_id q1;
       AIInterview.answer := filler 800;
       AIInterview.timeSpent := 700;
       AIInterview.autoSubmitted := false;
       AIInterview.timestamp := 701000 |};
    {| AIInterview.questionId := AIInterview.q_id q2;
       AIInterview.answer := filler 600;
       AIInterview.timeSpent := 500;
       AIInterview.autoSubmitted := false;
       AIInterview.timestamp := 1201000 |} ].

(** Two answers left blank, the second one by the per-question timeout. *)
Definition blankAnswers : list AIInterview.Answer :=
  [ {| AIInterview.questionId := AIInterview.q_id q1;
       AIInterview.answer := "";
       AIInterview.timeSpent := 5;
       AIInterview.autoSubmitted := false;
       AIInterview.timestamp := 6000 |};
    {| AIInterview.questionId := AIInterview.q_id q2;
       AIInterview.answer := "";
       AIInterview.timeSpent := 600;
       AIInterview.autoSubmitted := true;
       AIInterview.timestamp := 606000 |} ].

Definition noDraw (k : nat) : Q := 0.

Definition jobRow (atsMinimum : Q) : TestCoordinator.JobData :=
  {| TestCoordinator.typing_test_enabled := true;
     TestCoordinator.minimum_wpm := 40;
     TestCoordinator.minimum_accuracy := 90;
     TestCoordinator.typing_test_duration := 60;
     TestCoordinator.fraud_detection_enabled := true;
     TestCoordinator.fraud_sensitivity := "medium";
     TestCoordinator.total_interview_questions := 20;
     TestCoordinator.question_distribution := TestCoordinator.NoDistribution;
     TestCoordinator.ai_model := "gpt-4";
     TestCoordinator.difficulty_level := "medium";
     TestCoordinator.minimum_passing_score := 70;
     TestCoordinator.evaluation_strictness := "moderate";
     TestCoordinator.dynamic_questions_enabled := false;
     TestCoordinator.title := "Backend Engineer";
     TestCoordinator.company_name := None;
     TestCoordinator.ats_minimum_score := atsMinimum |}.

Definition applicationRow (score : Q) : TestCoordinator.ApplicationData :=
  {| TestCoordinator.ai_score := Some score;
     TestCoordinator.resume_url := None;
     TestCoordinator.experience_years := Some "3"%string |}.

(** A typing-test result that passed. *)
Definition passedTyping : TypingTest.TypingTestResult :=
  {| TypingTest.r_wpm := 52; TypingTest.r_accuracy := 97;
     TypingTest.r_charactersTyped := 260%nat; TypingTest.errorsMade := 8%nat;
     TypingTest.correctionsMade := 3%nat; TypingTest.timeSpent := 60;
     TypingTest.passed := true; TypingTest.fraudScore := 0;
     TypingTest.fraudIndicators := [] |}.

(** Everything a candidate could try on the coordinator. *)
Definition insistentCandidate : list TestCoordinator.Event :=
  [ TestCoordinator.ClickStartNextPhase;
    TestCoordinator.TimeoutFires;
    TestCoordinator.TypingTestOnComplete passedTyping;
    TestCoordinator.ClickStartNextPhase;
    TestCoordinator.InterviewOnCancel ].

(** The ordinary course: start the typing test, pass it, and let the
    one-second timeout open the interview. *)
Definition ordinaryCourse : list TestCoordinator.Event :=
  [ TestCoordinator.ClickStartNextPhase;
    TestCoordinator.TypingTestOnComplete passedTyping;
    TestCoordinator.TimeoutFires ].

(** Two answers of 453 characters each, scored 45.3 by the stub. *)
Definition fractionalAnswers : list AIInterview.Answer :=
  [ {| AIInterview.questionId := AIInterview.q_id q1;
       AIInterview.answer := filler 453;
       AIInterview.timeSpent := 700;
       AIInterview.autoSubmitted := false;
       AIInterview.timestamp := 701000 |};
    {| AIInterview.questionId := AIInterview.q_id q2;
       AIInterview.answer := filler 453;
       AIInterview.timeSpent := 500;
       AIInterview.autoSubmitted := false;
       AIInterview.timestamp := 1201000 |} ].

End Examples.

(* ------------------------------------------------------------------ *)
(** ** TypingTest.tsx: what the test screen displays *)

Module TypingTestDisplay.
Import TypingTest.

Inductive CharacterStatus := correct | incorrect | pending.

Definition CharacterStatus_eqb (a b : CharacterStatus) : bool :=
  match a, b with
  | correct, correct | incorrect, incorrect | pending, pending => true
  | _, _ => false
  end.

(** [getCharacterStatus(index)], for the [userInput] and [currentText]
    of the render. *)
Definition getCharacterStatus (userInput currentText : string) (index : nat)
  : CharacterStatus :=
  if (String.length userInput <=? index)%nat then pending
  else if same_char userInput currentText index then correct else incorrect.

(** The statuses of the characters of the reference text, in the order
    [currentText.split('').map] renders them. *)
Definition displayedStatuses (userInput currentText : string) : list CharacterStatus :=
  map (getCharacterStatus userInput currentText) (seq 0 (String.length currentText)).

Definition countStatus (st : CharacterStatus) (l : list CharacterStatus) : nat :=
  List.length (filter (CharacterStatus_eqb st) l).

(** A session in which the candidate starts the test, types nothing
    and lets the countdown run: one timer effect per entry of [ticks]. *)
Definition idleCountdown (start : Z) (ticks : list Z) : list Event :=
  ClickStart start :: map Timer ticks.

(** The timer never leaves [0, duration]. *)
Definition timer_inv (config : Config) (s : State) : Prop :=
  0 <= timeRemaining s <= duration config.

(** A test is either finished, with the one result it reported, or not
    finished, with none. *)
Definition completion_inv (s : State) : Prop :=
  match testState s with
  | completed => List.length (completions s) = 1%nat
  | _ => completions s = []
  end.

(** Until the test is finished, the input is shorter than the text. *)
Definition input_inv (s : State) : Prop :=
  match testState s with
  | completed => True
  | _ => (String.length (userInput s) < String.length (currentText s))%nat
  end.

(** Without fraud detection nothing is logged. *)
Definition quiet_inv (s : State) : Prop :=
  keystrokeData s = [] /\ fraudAlerts s = [].

End TypingTestDisplay.

(* ------------------------------------------------------------------ *)
(** ** AIInterview.tsx: sessions *)

Module InterviewSessions.
Import AIInterview.

(** The candidate starts the interview and, for each entry of
    [inputs], types the text and presses Next Question (or Complete
    Interview) at the given time. *)
Definition straightThrough (start : Z) (inputs : list (string * Z)) : list Event :=
  ClickStartInterview start
  :: flat_map (fun p => [AnswerChange (fst p); ClickSubmit (snd p)]) inputs.

(** The slots [(category, i)] that [generateInterviewQuestions] fills,
    in the order of the two nested loops. *)
Definition slots (config : Config) : list (Category * nat) :=
  flat_map (fun c => map (fun i => (c, i)) (seq 0 (Z.to_nat (questionCount config c))))
           Object_keys.

(** A decimal digit. *)
Definition is_digit (c : ascii) : bool :=
  let n := nat_of_ascii c in ((48 <=? n) && (n <=? 57))%nat.

Fixpoint all_digits (s : string) : bool :=
  match s with
  | EmptyString => true
  | String c rest => is_digit c && all_digits rest
  end.

(** The characters of a string, and a test on all of them. *)
Definition chars (s : string) : list ascii := list_ascii_of_string s.

Definition hasVisibleCharacter (s : string) : bool :=
  existsb (fun c => negb (is_white_space c)) (chars s).

(** [categoryBreakdown[category]]. *)
Definition breakdownOf (b : CategoryBreakdown) (c : Category) : Z :=
  match c with
  | coding => cb_coding b
  | dsa => cb_dsa b
  | education => cb_education b
  | achievements => cb_achievements b
  | problem_solving => cb_problem_solving b
  end.

End InterviewSessions.

(* ------------------------------------------------------------------ *)
(** ** MyExams.tsx *)

Module MyExams.
Import JS.

Record Job := {
  job_id : string;
  title : string;
  company_name : string;
  typing_test_enabled : bool;
  minimum_wpm : Q;
  minimum_accuracy : Q;
  total_interview_questions : Z;
  ats_minimum_score : Q
}.

Record TypingTestRow := {
  t_id : string;
  t_passed : bool;
  wpm : Q;
  accuracy : Q;
  t_created_at : string
}.

Record InterviewRow := {
  i_id : string;
  i_passed : bool;
  percentage_score : Q;
  i_created_at : string
}.

Record ExamApplication := {
  id : string;
  a_job_id : string;
  status : string;
  application_date : string;
  ai_score : Q;
  job : Job;
  typing_test_results : option (list TypingTestRow);
  interview_results : option (list InterviewRow)
}.

Inductive Variant := destructive | default.

Record StatusInfo := {
  s_status : string;
  description : string;
  variant : Variant;
  canTakeExam : bool
}.

(** [rows?.[0]]. *)
Definition firstRow {A} (rows : option (list A)) : option A :=
  match rows with
  | Some (r :: _) => Some r
  | _ => None
  end.

Definition notQualified : StatusInfo :=
  {| s_status := "Not Qualified";
     description := "ATS score below minimum requirement";
     variant := destructive; canTakeExam := false |}.

Definition typingPending : StatusInfo :=
  {| s_status := "Typing Test Pending";
     description := "Complete typing speed test to proceed";
     variant := default; canTakeExam := true |}.

Definition typingFailed : StatusInfo :=
  {| s_status := "Typing Test Failed";
     description := "Did not meet typing requirements";
     variant := destructive; canTakeExam := false |}.

Definition interviewPending : StatusInfo :=
  {| s_status := "Interview Pending";
     description := "Complete AI technical interview";
     variant := default; canTakeExam := true |}.

Definition interviewFailed : StatusInfo :=
  {| s_status := "Interview Failed";
     description := "Did not meet interview requirements";
     variant := destructive; canTakeExam := false |}.

Definition allCompleted : StatusInfo :=
  {| s_status := "Completed";
     description := "All assessments completed successfully";
     variant := default; canTakeExam := false |}.

(** The interview part of [getApplicationStatus]. *)
Definition interviewStatus (application : ExamApplication) : StatusInfo :=
  match firstRow (interview_results application) with
  | None => interviewPending
  | Some interviewResult =>
      if i_passed interviewResult then allCompleted else interviewFailed
  end.

Definition getApplicationStatus (application : ExamApplication) : StatusInfo :=
  if Qlt_bool (ai_score application) (ats_minimum_score (job application))
  then notQualified
  else if typing_test_enabled (job application) then
    match firstRow (typing_test_results application) with
    | None => typingPending
    | Some typingResult =>
        if t_passed typingResult then interviewStatus application else typingFailed
    end
  else interviewStatus application.

(** The rows the coordinator fetches when the candidate follows the
    Start Assessment button of an application: the same ATS score and
    the same job settings; [rest] gives the job columns that My Exams
    does not select. *)
Definition jobRowOf (application : ExamApplication) (rest : TestCoordinator.JobData)
  : TestCoordinator.JobData :=
  {| TestCoordinator.typing_test_enabled := typing_test_enabled (job application);
     TestCoordinator.minimum_wpm := minimum_wpm (job application);
     TestCoordinator.minimum_accuracy := minimum_accuracy (job application);
     TestCoordinator.typing_test_duration := TestCoordinator.typing_test_duration rest;
     TestCoordinator.fraud_detection_enabled := TestCoordinator.fraud_detection_enabled rest;
     TestCoordinator.fraud_sensitivity := TestCoordinator.fraud_sensitivity rest;
     TestCoordinator.total_interview_questions := total_interview_questions (job application);
     TestCoordinator.question_distribution := TestCoordinator.question_distribution rest;
     TestCoordinator.ai_model := TestCoordinator.ai_model rest;
     TestCoordinator.difficulty_level := TestCoordinator.difficulty_level rest;
     TestCoordinator.minimum_passing_score := TestCoordinator.minimum_passing_score rest;
     TestCoordinator.evaluation_strictness := TestCoordinator.evaluation_strictness rest;
     TestCoordinator.dynamic_questions_enabled :=
       TestCoordinator.dynamic_questions_enabled rest;
     TestCoordinator.title := title (job application);
     TestCoordinator.company_name := Some (company_name (job application));
     TestCoordinator.ats_minimum_score := ats_minimum_score (job application) |}.

Definition applicationRowOf (application : ExamApplication) : TestCoordinator.ApplicationData :=
  {| TestCoordinator.ai_score := Some (ai_score application);
     TestCoordinator.resume_url := None;
     TestCoordinator.experience_years := None |}.

End MyExams.

(* ------------------------------------------------------------------ *)
(** ** Coordinator: shapes of the phase list *)

Module CoordinatorPhases.
Import TestCoordinator.

(** The ids of the phases [initializeTest] creates for a job. *)
Definition plannedPhases (typingEnabled : bool) : list PhaseId :=
  [ats_check] ++ (if typingEnabled then [typing_test] else []) ++ [ai_interview].

(** The status of the phase with a given id, if the list has one. *)
Definition statusOf (id : PhaseId) (phases : list TestPhase) : option Status :=
  option_map status (find (fun p => PhaseId_eqb (phase_id p) id) phases).

(** The phase list is the planned one or still empty, the ATS phase,
    when present, is completed, and no phase is ever active or
    skipped. *)
Definition phases_inv (s : State) : Prop :=
  (testPhases s = []
   \/ exists config, jobConfig s = Some config
                     /\ map phase_id (testPhases s) = plannedPhases (typingTestEnabled config))
  /\ (forall p, In p (testPhases s) -> phase_id p = ats_check -> status p = completed)
  /\ (forall p, In p (testPhases s) ->
                status p = pending \/ status p = completed \/ status p = failed).

End CoordinatorPhases.

(* ------------------------------------------------------------------ *)
(** ** More concrete sessions *)

Module MoreExamples.

Definition failedTyping : TypingTest.TypingTestResult :=
  {| TypingTest.r_wpm := 12; TypingTest.r_accuracy := 71;
     TypingTest.r_charactersTyped := 60%nat; TypingTest.errorsMade := 17%nat;
     TypingTest.correctionsMade := 0%nat; TypingTest.timeSpent := 60;
     TypingTest.passed := false; TypingTest.fraudScore := 0;
     TypingTest.fraudIndicators := [] |}.

Definition shortConfig : TypingTest.Config :=
  {| TypingTest.duration := 3;
     TypingTest.minimumWpm := 40;
     TypingTest.minimumAccuracy := 90;
     TypingTest.fraudDetectionEnabled := false;
     TypingTest.fraudSensitivity := "low" |}.

(** A job row with the typing test switched off. *)
Definition jobRowNoTyping (atsMinimum : Q) : TestCoordinator.JobData :=
  {| TestCoordinator.typing_test_enabled := false;
     TestCoordinator.minimum_wpm := 40;
     TestCoordinator.minimum_accuracy := 90;
     TestCoordinator.typing_test_duration := 60;
     TestCoordinator.fraud_detection_enabled := true;
     TestCoordinator.fraud_sensitivity := "medium";
     TestCoordinator.total_interview_questions := 20;
     TestCoordinator.question_distribution := TestCoordinator.DistributionText None;
     TestCoordinator.ai_model := "gpt-4";
     TestCoordinator.difficulty_level := "medium";
     TestCoordinator.minimum_passing_score := 70;
     TestCoordinator.evaluation_strictness := "moderate";
     TestCoordinator.dynamic_questions_enabled := false;
     TestCoordinator.title := "Backend Engineer";
     TestCoordinator.company_name := None;
     TestCoordinator.ats_minimum_score := atsMinimum |}.

Definition examJob : MyExams.Job :=
  {| MyExams.job_id := "job-1";
     MyExams.title := "Backend Engineer";
     MyExams.company_name := "Acme";
     MyExams.typing_test_enabled := true;
     MyExams.minimum_wpm := 40;
     MyExams.minimum_accuracy := 90;
     MyExams.total_interview_questions := 20;
     MyExams.ats_minimum_score := 60 |}.

(** An application whose typing test was passed earlier and whose
    interview has not been taken. *)
Definition resumedApplication : MyExams.ExamApplication :=
  {| MyExams.id := "app-1";
     MyExams.a_job_id := "job-1";
     MyExams.status := "Under Review";
     MyExams.application_date := "2025-05-20";
     MyExams.ai_score := 75;
     MyExams.job := examJob;
     MyExams.typing_test_results :=
       Some [ {| MyExams.t_id := "t-1"; MyExams.t_passed := true;
                 MyExams.wpm := 52; MyExams.accuracy := 97;
                 MyExams.t_created_at := "2025-05-21" |} ];
     MyExams.interview_results := Some [] |}.

(** An interview result that passed. *)
Definition passedInterview : AIInterview.InterviewResults :=
  AIInterview.calculateResults (Examples.interviewConfig 2) Examples.twoQuestions
                               Examples.twoAnswers
                               [ AIInterview.evaluate Examples.q1
                                   (nth 0 Examples.twoAnswers
                                        {| AIInterview.questionId := ""; AIInterview.answer := "";
                                           AIInterview.timeSpent := 0;
                                           AIInterview.autoSubmitted := false;
                                           AIInterview.timestamp := 0 |}) 0;
                                 AIInterview.evaluate Examples.q2
                                   (nth 1 Examples.twoAnswers
                                        {| AIInterview.questionId := ""; AIInterview.answer := "";
                                           AIInterview.timeSpent := 0;
                                           AIInterview.autoSubmitted := false;
                                           AIInterview.timestamp := 0 |}) 0 ].

End MoreExamples.

(* ------------------------------------------------------------------ *)
(** ** Facts about the number model *)

Module JSFacts.
Import JS.

Lemma two_neq_0 : ~ (2 == 0)%Q.
Proof. intro H. discriminate H. Qed.

Lemma pow2_pos (k : Z) : (0 < pow2 k)%Q.
Proof. apply Qpower_0_lt. reflexivity. Qed.

Lemma pow2_plus (a b : Z) : (pow2 (a + b) == pow2 a * pow2 b)%Q.
Proof. apply Qpower_plus, two_neq_0. Qed.

Lemma pow2_le (a b : Z) : a <= b -> (pow2 a <= pow2 b)%Q.
Proof. intro H. apply Qpower_le_compat_l; [exact H | discriminate]. Qed.

Lemma pow2_lt (a b : Z) : a < b -> (pow2 a < pow2 b)%Q.
Proof. intro H. apply Qpower_lt_compat_l; [exact H | reflexivity]. Qed.

Lemma pow2_lt_inv (a b : Z) : (pow2 a < pow2 b)%Q -> a < b.
Proof. intro H. apply (Qpower_lt_compat_l_inv 2); [exact H | reflexivity]. Qed.

Lemma pow2_Z (k : Z) : 0 <= k -> (pow2 k == inject_Z (2 ^ k))%Q.
Proof. intro H. symmetry. apply (Zpower_Qpower 2 k H). Qed.

(** [x / 2^q] is [x * 2^(-q)]. *)
Lemma div_pow2 (x : Q) (q : Z) : (x / pow2 q == x * pow2 (- q))%Q.
Proof. unfold Qdiv, pow2. rewrite Qpower_opp. reflexivity. Qed.

Lemma pow2_cancel (q : Z) : (pow2 (- q) * pow2 q == 1)%Q.
Proof. rewrite <- pow2_plus. replace (- q + q) with 0 by lia. reflexivity. Qed.

(** The binade of a positive rational, between the logarithms of its
    numerator and denominator. *)
Lemma log2_quotient (x : Q) :
  (0 < x)%Q ->
  let k := Z.log2 (Qnum x) - Z.log2 (Zpos (Qden x)) in
  (pow2 (k - 1) <= x /\ x < pow2 (k + 1))%Q.
Proof.
  intros Hx k. destruct x as [n d]. cbn [Qnum Qden] in k.
  assert (Hn : 0 < n).
  { unfold Qlt in Hx. simpl in Hx. lia. }
  set (a := Z.log2 n) in *. set (b := Z.log2 (Zpos d)) in *.
  assert (Ha : 2 ^ a <= n < 2 ^ (a + 1)).
  { unfold a. pose proof (Z.log2_spec n Hn). lia. }
  assert (Hb : 2 ^ b <= Zpos d < 2 ^ (b + 1)).
  { unfold b. pose proof (Z.log2_spec (Zpos d) ltac:(lia)). lia. }
  assert (Ha0 : 0 <= a) by apply Z.log2_nonneg.
  assert (Hb0 : 0 <= b) by apply Z.log2_nonneg.
  assert (Hpa : 0 < 2 ^ a) by (apply Z.pow_pos_nonneg; lia).
  assert (Hpb : 0 < 2 ^ b) by (apply Z.pow_pos_nonneg; lia).
  assert (Hsa : 2 ^ (a + 1) = 2 * 2 ^ a)
    by (replace (a + 1) with (Z.succ a) by lia; apply Z.pow_succ_r; lia).
  assert (Hsb : 2 ^ (b + 1) = 2 * 2 ^ b)
    by (replace (b + 1) with (Z.succ b) by lia; apply Z.pow_succ_r; lia).
  (* bring both powers to the form 2^a' / 2^b' *)
  assert (E1 : (pow2 (k - 1) == inject_Z (2 ^ a) / inject_Z (2 ^ (b + 1)))%Q).
  { replace (k - 1) with (a - (b + 1)) by (unfold k; lia).
    unfold pow2. rewrite (Qpower_minus 2 a (b + 1) two_neq_0).
    fold (pow2 a). fold (pow2 (b + 1)).
    rewrite (pow2_Z a), (pow2_Z (b + 1)) by lia. reflexivity. }
  assert (E2 : (pow2 (k + 1) == inject_Z (2 ^ (a + 1)) / inject_Z (2 ^ b))%Q).
  { replace (k + 1) with (a + 1 - b) by (unfold k; lia).
    unfold pow2. rewrite (Qpower_minus 2 (a + 1) b two_neq_0).
    fold (pow2 (a + 1)). fold (pow2 b).
    rewrite (pow2_Z (a + 1)), (pow2_Z b) by lia. reflexivity. }
  rewrite E1, E2. rewrite (Qmake_Qdiv n d).
  assert (Hd : (0 < inject_Z (Zpos d))%Q) by reflexivity.
  assert (Hqb : (0 < inject_Z (2 ^ b))%Q).
  { change 0%Q with (inject_Z 0). rewrite <- Zlt_Qlt. exact Hpb. }
  assert (Hqb1 : (0 < inject_Z (2 ^ (b + 1)))%Q).
  { change 0%Q with (inject_Z 0). rewrite <- Zlt_Qlt. lia. }
  split.
  - apply Qle_shift_div_l; [exact Hd|].
    unfold Qdiv. rewrite <- Qmult_assoc, (Qmult_comm (/ _)), Qmult_assoc.
    apply Qle_shift_div_r; [exact Hqb1|].
    rewrite <- !inject_Z_mult, <- Zle_Qle. nia.
  - apply Qlt_shift_div_r; [exact Hd|].
    unfold Qdiv. rewrite <- Qmult_assoc, (Qmult_comm (/ _)), Qmult_assoc.
    apply Qlt_shift_div_l; [exact Hqb|].
    rewrite <- !inject_Z_mult, <- Zlt_Qlt. nia.
Qed.

Lemma binade_spec (x : Q) :
  (0 < x)%Q -> (pow2 (binade x) <= x /\ x < pow2 (binade x + 1))%Q.
Proof.
  intro Hx. destruct (log2_quotient x Hx) as [Hlo Hhi]. unfold binade.
  set (k := Z.log2 (Qnum x) - Z.log2 (Zpos (Qden x))) in *.
  destruct (Qle_bool (pow2 k) x) eqn:E.
  - apply Qle_bool_iff in E. split; assumption.
  - split; [exact Hlo|].
    replace (k - 1 + 1) with k by lia.
    apply Qnot_le_lt. intro H. apply Qle_bool_iff in H. congruence.
Qed.

Lemma binade_unique (x : Q) (e : Z) :
  (pow2 e <= x)%Q -> (x < pow2 (e + 1))%Q -> binade x = e.
Proof.
  intros Hlo Hhi.
  assert (Hx : (0 < x)%Q) by (apply Qlt_le_trans with (pow2 e); [apply pow2_pos | exact Hlo]).
  destruct (binade_spec x Hx) as [Blo Bhi].
  assert (H1 : e < binade x + 1).
  { apply pow2_lt_inv. apply Qle_lt_trans with x; assumption. }
  assert (H2 : binade x < e + 1).
  { apply pow2_lt_inv. apply Qle_lt_trans with x; assumption. }
  lia.
Qed.

Lemma binade_mono (x y : Q) : (0 < x)%Q -> (x <= y)%Q -> binade x <= binade y.
Proof.
  intros Hx Hxy.
  assert (Hy : (0 < y)%Q) by (apply Qlt_le_trans with x; assumption).
  destruct (binade_spec x Hx) as [Xlo _]. destruct (binade_spec y Hy) as [_ Yhi].
  assert (H : binade x < binade y + 1).
  { apply pow2_lt_inv. apply Qle_lt_trans with x; [exact Xlo|].
    apply Qle_lt_trans with y; assumption. }
  lia.
Qed.

Lemma nearest_even_bounds (x : Q) : Qfloor x <= nearest_even x <= Qfloor x + 1.
Proof.
  unfold nearest_even. destruct (_ ?= _)%Q; [destruct (Z.even _)| |]; lia.
Qed.

Lemma nearest_even_mono (x y : Q) : (x <= y)%Q -> nearest_even x <= nearest_even y.
Proof.
  intro H. pose proof (Qfloor_resp_le x y H) as Hf.
  destruct (Z.eq_dec (Qfloor x) (Qfloor y)) as [E | NE].
  - unfold nearest_even. rewrite <- E.
    destruct (Qcompare_spec (x - inject_Z (Qfloor x)) (1 # 2)) as [Hx | Hx | Hx];
      destruct (Qcompare_spec (y - inject_Z (Qfloor x)) (1 # 2)) as [Hy | Hy | Hy];
      try destruct (Z.even (Qfloor x)); try lia; exfalso; lra.
  - pose proof (nearest_even_bounds x). pose proof (nearest_even_bounds y). lia.
Qed.

Lemma nearest_even_Z (z : Z) : nearest_even (inject_Z z) = z.
Proof.
  unfold nearest_even. rewrite Qfloor_Z.
  replace (inject_Z z - inject_Z z ?= 1 # 2)%Q with Lt; [reflexivity|].
  symmetry. apply Qlt_alt.
  assert (E : (inject_Z z - inject_Z z == 0)%Q) by ring.
  rewrite E. reflexivity.
Qed.

Lemma nearest_even_le_Z (x : Q) (m : Z) : (x <= inject_Z m)%Q -> nearest_even x <= m.
Proof. intro H. rewrite <- (nearest_even_Z m). apply nearest_even_mono, H. Qed.

Lemma nearest_even_ge_Z (x : Q) (m : Z) : (inject_Z m <= x)%Q -> m <= nearest_even x.
Proof. intro H. rewrite <- (nearest_even_Z m). apply nearest_even_mono, H. Qed.

Lemma round_pos_nonneg (x : Q) : (0 < x)%Q -> (0 <= round_pos x)%Q.
Proof.
  intro Hx. unfold round_pos.
  apply Qmult_le_0_compat; [|apply Qlt_le_weak, pow2_pos].
  change 0%Q with (inject_Z 0). rewrite <- Zle_Qle.
  apply nearest_even_ge_Z. apply Qle_shift_div_l; [apply pow2_pos|].
  rewrite Qmult_0_l. apply Qlt_le_weak, Hx.
Qed.

(** [2^e], a multiple of the unit [2^q] used below it, bounds the
    rounding of what lies below it. *)
Lemma round_pos_le_pow2 (x : Q) (e : Z) :
  (0 < x)%Q -> (x <= pow2 e)%Q ->
  Z.max (binade x - 52) (-1074) <= e ->
  (round_pos x <= pow2 e)%Q.
Proof.
  intros Hx Hle Hq. unfold round_pos.
  set (q := Z.max (binade x - 52) (-1074)) in *.
  assert (E : (pow2 e == inject_Z (2 ^ (e - q)) * pow2 q)%Q).
  { rewrite <- (pow2_Z (e - q)) by lia. rewrite <- pow2_plus.
    replace (e - q + q) with e by lia. reflexivity. }
  rewrite E. apply Qmult_le_compat_r; [|apply Qlt_le_weak, pow2_pos].
  rewrite <- Zle_Qle. apply nearest_even_le_Z.
  apply Qle_shift_div_r; [apply pow2_pos|]. rewrite <- E. exact Hle.
Qed.

Lemma round_pos_ge_pow2 (x : Q) :
  (0 < x)%Q -> -1074 <= binade x - 52 -> (pow2 (binade x) <= round_pos x)%Q.
Proof.
  intros Hx Hq. unfold round_pos.
  replace (Z.max (binade x - 52) (-1074)) with (binade x - 52) by lia.
  set (b := binade x) in *.
  assert (E : (pow2 b == inject_Z (2 ^ 52) * pow2 (b - 52))%Q).
  { rewrite <- (pow2_Z 52) by lia. rewrite <- pow2_plus.
    replace (52 + (b - 52)) with b by lia. reflexivity. }
  rewrite E at 1. apply Qmult_le_compat_r; [|apply Qlt_le_weak, pow2_pos].
  rewrite <- Zle_Qle. apply nearest_even_ge_Z.
  apply Qle_shift_div_l; [apply pow2_pos|]. rewrite <- E.
  apply (binade_spec x Hx).
Qed.

Lemma round_pos_mono (x y : Q) :
  (0 < x)%Q -> (x <= y)%Q -> (round_pos x <= round_pos y)%Q.
Proof.
  intros Hx Hxy.
  assert (Hy : (0 < y)%Q) by (apply Qlt_le_trans with x; assumption).
  pose proof (binade_mono x y Hx Hxy) as Hb.
  destruct (Z.eq_dec (Z.max (binade x - 52) (-1074)) (Z.max (binade y - 52) (-1074)))
    as [E | NE].
  - unfold round_pos. rewrite <- E.
    apply Qmult_le_compat_r; [|apply Qlt_le_weak, pow2_pos].
    rewrite <- Zle_Qle. apply nearest_even_mono.
    unfold Qdiv. apply Qmult_le_compat_r; [exact Hxy|].
    apply Qlt_le_weak, Qinv_lt_0_compat, pow2_pos.
  - assert (Hlt : binade x < binade y) by lia.
    apply Qle_trans with (pow2 (binade y)).
    + apply round_pos_le_pow2; [exact Hx | | lia].
      apply Qle_trans with (pow2 (binade x + 1)).
      * apply Qlt_le_weak, (binade_spec x Hx).
      * apply pow2_le. lia.
    + apply round_pos_ge_pow2; [exact Hy | lia].
Qed.

Lemma round64_unfold (x : Q) :
  (round64 x == match (x ?= 0)%Q with
                | Eq => 0
                | Gt => round_pos x
                | Lt => - round_pos (- x)
                end)%Q.
Proof. unfold round64. apply Qred_correct. Qed.

(** The arithmetic of the model is that of the Standard Library's
    reference implementation of binary64 ([SpecFloat]) on the
    expressions the code evaluates: the accuracy
    [(correct / typed) * 100] for up to 40 characters, the allocation
    [(percentage / 100) * N] for every whole percentage and up to 30
    questions, sums of two scores [length / 10], and the speed and the
    mean at the inputs quoted in this file. *)
Lemma round64_agrees_with_SpecFloat :
  let same f q := Binary64Reference.denotes f q = true in
  let z := Binary64Reference.of_Z in
  let add := Binary64Reference.add64 in
  let mul := Binary64Reference.mul64 in
  let div := Binary64Reference.div64 in
  Forall (fun p => same (mul (div (z (fst p)) (z (snd p))) (z 100))
                        (fmul (fdiv (inject_Z (fst p)) (inject_Z (snd p))) 100))
         (Binary64Reference.grid 41 40)
  /\ Forall (fun p => same (mul (div (z (fst p)) (z 100)) (z (snd p)))
                           (fmul (fdiv (inject_Z (fst p)) 100) (inject_Z (snd p))))
            (Binary64Reference.grid 101 30)
  /\ Forall (fun p => same (add (div (z (fst p)) (z 10)) (div (z (snd p)) (z 10)))
                           (fadd (fdiv (inject_Z (fst p)) 10) (fdiv (inject_Z (snd p)) 10)))
            (Binary64Reference.grid 41 40)
  /\ same (div (div (z 7) (z 5)) (div (div (z 1600) (z 1000)) (z 60)))
          (fdiv (fdiv 7 5) (fdiv (fdiv 1600 1000) 60))
  /\ same (div (add (add (add (z 0) (div (z 304) (z 10))) (div (z 338) (z 10)))
                    (div (z 363) (z 10)))
               (z 3))
          (fdiv (fadd (fadd (fadd 0 (fdiv 304 10)) (fdiv 338 10)) (fdiv 363 10)) 3).
Proof.
  intros same z add mul div.
  repeat split; try (apply Forall_forall; apply forallb_forall); vm_compute; reflexivity.
Qed.

(** Rounding is monotone. *)
Lemma round64_mono (x y : Q) : (x <= y)%Q -> (round64 x <= round64 y)%Q.
Proof.
  intro H. rewrite !round64_unfold.
  destruct (Qcompare_spec x 0) as [Hx | Hx | Hx];
    destruct (Qcompare_spec y 0) as [Hy | Hy | Hy]; try (exfalso; lra).
  - apply Qle_refl.
  - apply round_pos_nonneg, Hy.
  - pose proof (round_pos_nonneg (- x) ltac:(lra)). lra.
  - assert (H' : (round_pos (- y) <= round_pos (- x))%Q)
      by (apply round_pos_mono; lra).
    lra.
  - pose proof (round_pos_nonneg (- x) ltac:(lra)).
    pose proof (round_pos_nonneg y Hy). lra.
  - apply round_pos_mono; assumption.
Qed.

Lemma round64_comp (x y : Q) : (x == y)%Q -> (round64 x == round64 y)%Q.
Proof.
  intro H. apply Qle_antisym; apply round64_mono; rewrite H; apply Qle_refl.
Qed.

Lemma round64_opp (x : Q) : (round64 (- x) == - round64 x)%Q.
Proof.
  rewrite !round64_unfold.
  destruct (Qcompare_spec x 0) as [Hx | Hx | Hx];
    destruct (Qcompare_spec (- x) 0) as [Hy | Hy | Hy]; try (exfalso; lra).
  - reflexivity.
  - lra.
  - assert (E : (round_pos (- - x) == round_pos x)%Q).
    { apply Qle_antisym; apply round_pos_mono; lra. }
    rewrite E. reflexivity.
Qed.

(** Integers below [2^53] are binary64 values. *)
Lemma round_pos_Z (z : Z) : 0 < z < 2 ^ 53 -> (round_pos (inject_Z z) == inject_Z z)%Q.
Proof.
  intros [Hz Hlt].
  pose proof (Z.log2_spec z Hz) as Hl.
  assert (Hl0 : 0 <= Z.log2 z) by apply Z.log2_nonneg.
  assert (Hl52 : Z.log2 z < 53) by (apply Z.log2_lt_pow2; lia).
  assert (Hb : binade (inject_Z z) = Z.log2 z).
  { apply binade_unique.
    - rewrite pow2_Z by lia. rewrite <- Zle_Qle. lia.
    - rewrite pow2_Z by lia. rewrite <- Zlt_Qlt.
      replace (Z.log2 z + 1) with (Z.succ (Z.log2 z)) by lia. lia. }
  unfold round_pos. rewrite Hb.
  replace (Z.max (Z.log2 z - 52) (-1074)) with (Z.log2 z - 52) by lia.
  set (q := Z.log2 z - 52).
  assert (E : (inject_Z z / pow2 q == inject_Z (z * 2 ^ (- q)))%Q).
  { rewrite div_pow2, pow2_Z by (unfold q; lia). rewrite inject_Z_mult. reflexivity. }
  assert (E' : nearest_even (inject_Z z / pow2 q) = z * 2 ^ (- q)).
  { rewrite <- (nearest_even_Z (z * 2 ^ (- q))).
    apply Z.le_antisymm; apply nearest_even_mono; rewrite E; apply Qle_refl. }
  rewrite E', inject_Z_mult, <- pow2_Z by (unfold q; lia).
  rewrite <- Qmult_assoc, pow2_cancel. apply Qmult_1_r.
Qed.

Lemma round64_Z (z : Z) : - 2 ^ 53 < z < 2 ^ 53 -> (round64 (inject_Z z) == inject_Z z)%Q.
Proof.
  intros [Hlo Hhi]. rewrite round64_unfold.
  destruct (Qcompare_spec (inject_Z z) 0) as [H | H | H].
  - symmetry. exact H.
  - change 0%Q with (inject_Z 0) in H. rewrite <- Zlt_Qlt in H.
    rewrite <- inject_Z_opp, round_pos_Z by lia. rewrite inject_Z_opp. ring.
  - change 0%Q with (inject_Z 0) in H. rewrite <- Zlt_Qlt in H.
    apply round_pos_Z. lia.
Qed.

(** Multiples of a power of two with a significand below [2^53] are
    binary64 values. *)
Lemma round_pos_dyadic (m e : Z) :
  0 < m < 2 ^ 53 -> -1074 <= e ->
  (round_pos (inject_Z m * pow2 e) == inject_Z m * pow2 e)%Q.
Proof.
  intros [Hm Hlt] He.
  pose proof (Z.log2_spec m Hm) as Hl.
  assert (Hl0 : 0 <= Z.log2 m) by apply Z.log2_nonneg.
  assert (Hl52 : Z.log2 m < 53) by (apply Z.log2_lt_pow2; lia).
  assert (Hb : binade (inject_Z m * pow2 e) = Z.log2 m + e).
  { apply binade_unique.
    - rewrite pow2_plus. apply Qmult_le_compat_r; [|apply Qlt_le_weak, pow2_pos].
      rewrite pow2_Z by lia. rewrite <- Zle_Qle. lia.
    - replace (Z.log2 m + e + 1) with (Z.log2 m + 1 + e) by lia.
      rewrite pow2_plus. apply Qmult_lt_compat_r; [apply pow2_pos|].
      rewrite pow2_Z by lia. rewrite <- Zlt_Qlt.
      replace (Z.log2 m + 1) with (Z.succ (Z.log2 m)) by lia. lia. }
  unfold round_pos. rewrite Hb.
  set (q := Z.max (Z.log2 m + e - 52) (-1074)).
  assert (Hq : q <= e) by (unfold q; lia).
  assert (E : (inject_Z m * pow2 e / pow2 q == inject_Z (m * 2 ^ (e - q)))%Q).
  { rewrite div_pow2, <- Qmult_assoc, <- pow2_plus, pow2_Z by lia.
    rewrite inject_Z_mult. replace (e + - q) with (e - q) by lia. reflexivity. }
  assert (E' : nearest_even (inject_Z m * pow2 e / pow2 q) = m * 2 ^ (e - q)).
  { rewrite <- (nearest_even_Z (m * 2 ^ (e - q))).
    apply Z.le_antisymm; apply nearest_even_mono; rewrite E; apply Qle_refl. }
  rewrite E', inject_Z_mult, <- pow2_Z by lia.
  rewrite <- Qmult_assoc, <- pow2_plus.
  replace (e - q + q) with e by lia. reflexivity.
Qed.

Lemma round64_dyadic (m e : Z) :
  - 2 ^ 53 < m < 2 ^ 53 -> -1074 <= e ->
  (round64 (inject_Z m * pow2 e) == inject_Z m * pow2 e)%Q.
Proof.
  intros Hm He.
  assert (Hpos : forall k, 0 < k < 2 ^ 53 ->
                           (round64 (inject_Z k * pow2 e) == inject_Z k * pow2 e)%Q).
  { intros k Hk. rewrite round64_unfold.
    assert (H : (0 < inject_Z k * pow2 e)%Q).
    { apply Qmult_lt_0_compat; [|apply pow2_pos].
      change 0%Q with (inject_Z 0). rewrite <- Zlt_Qlt. lia. }
    destruct (Qcompare_spec (inject_Z k * pow2 e) 0) as [H0 | H0 | H0];
      try (exfalso; lra).
    apply round_pos_dyadic; assumption. }
  destruct (Z.lt_trichotomy m 0) as [Hneg | [-> | Hp]].
  - assert (E : (inject_Z m * pow2 e == - (inject_Z (- m) * pow2 e))%Q)
      by (rewrite inject_Z_opp; ring).
    rewrite (round64_comp _ _ E), round64_opp, Hpos by lia. symmetry. exact E.
  - rewrite (round64_comp _ 0) by apply Qmult_0_l.
    rewrite Qmult_0_l. reflexivity.
  - apply Hpos. lia.
Qed.

Lemma round64_nonneg (x : Q) : (0 <= x)%Q -> (0 <= round64 x)%Q.
Proof. intro H. change 0%Q with (round64 0) at 1. apply round64_mono, H. Qed.

(** Rounding does not cross an integer below [2^53]. *)
Lemma round64_le_Z (x : Q) (z : Z) :
  - 2 ^ 53 < z < 2 ^ 53 -> (x <= inject_Z z)%Q -> (round64 x <= inject_Z z)%Q.
Proof. intros Hz H. rewrite <- (round64_Z z Hz). apply round64_mono, H. Qed.

Lemma round64_ge_Z (x : Q) (z : Z) :
  - 2 ^ 53 < z < 2 ^ 53 -> (inject_Z z <= x)%Q -> (inject_Z z <= round64 x)%Q.
Proof. intros Hz H. rewrite <- (round64_Z z Hz). apply round64_mono, H. Qed.

(** A quotient of non-negative numbers is non-negative. *)
Lemma fdiv_nonneg (x y : Q) : (0 <= x)%Q -> (0 < y)%Q -> (0 <= fdiv x y)%Q.
Proof.
  intros Hx Hy. apply round64_nonneg.
  apply Qle_shift_div_l; [exact Hy|]. rewrite Qmult_0_l. exact Hx.
Qed.

(** A product with a non-negative factor stays between the products
    of the bounds. *)
Lemma fmul_between (x lo hi c : Q) :
  (0 <= c)%Q -> (lo <= x <= hi)%Q -> (fmul lo c <= fmul x c <= fmul hi c)%Q.
Proof.
  intros Hc [Hlo Hhi]. unfold fmul.
  split; apply round64_mono; apply Qmult_le_compat_r; assumption.
Qed.

(** A part of a whole, as a fraction: between 0 and 1. *)
Lemma fdiv_fraction (c n : Z) :
  0 <= c <= n -> 0 < n -> (0 <= fdiv (inject_Z c) (inject_Z n) <= 1)%Q.
Proof.
  intros Hc Hn.
  assert (Hq : (0 < inject_Z n)%Q).
  { change 0%Q with (inject_Z 0). rewrite <- Zlt_Qlt. exact Hn. }
  split.
  - apply fdiv_nonneg; [|exact Hq].
    change 0%Q with (inject_Z 0). rewrite <- Zle_Qle. lia.
  - apply (round64_le_Z _ 1); [lia|].
    apply Qle_shift_div_r; [exact Hq|]. rewrite Qmult_1_l.
    rewrite <- Zle_Qle. lia.
Qed.

(** [Math.floor(a / 1000)], the quotient taken in binary64, is the
    integer quotient: this is how the seconds of an answer are obtained
    from two values of [Date.now()], whose differences are far below
    [1000 * 2^43]. *)
Lemma floor_fdiv_1000 (a : Z) :
  - (1000 * 2 ^ 43) < a < 1000 * 2 ^ 43 ->
  Qfloor (fdiv (inject_Z a) 1000) = a / 1000.
Proof.
  intro Ha.
  pose proof (Z.div_mod a 1000 ltac:(lia)) as Hdm.
  pose proof (Z.mod_pos_bound a 1000 ltac:(lia)) as Hr.
  set (k := a / 1000) in *. set (r := a mod 1000) in *.
  assert (Hk : - 2 ^ 43 <= k < 2 ^ 43) by lia.
  assert (Hx : (inject_Z a / 1000 == inject_Z k + inject_Z r / 1000)%Q).
  { rewrite Hdm, inject_Z_plus, inject_Z_mult.
    change (inject_Z 1000) with 1000%Q. field. }
  assert (Hlo : (inject_Z k <= fdiv (inject_Z a) 1000)%Q).
  { apply round64_ge_Z; [lia|]. rewrite Hx.
    assert (0 <= inject_Z r / 1000)%Q.
    { apply Qle_shift_div_l; [reflexivity|]. rewrite Qmult_0_l.
      change 0%Q with (inject_Z 0). rewrite <- Zle_Qle. lia. }
    lra. }
  set (d := (inject_Z ((k + 1) * 1024 - 1) * pow2 (-10))%Q).
  assert (Hd : (d == inject_Z k + 1 - (1 # 1024))%Q).
  { unfold d. replace ((k + 1) * 1024 - 1) with (k * 1024 + 1023) by lia.
    rewrite inject_Z_plus, inject_Z_mult.
    change (pow2 (-10)) with (/ 1024)%Q.
    change (inject_Z 1024) with 1024%Q. change (inject_Z 1023) with 1023%Q. field. }
  assert (Hhi : (fdiv (inject_Z a) 1000 <= d)%Q).
  { unfold fdiv.
    apply Qle_trans with (round64 d);
      [|unfold d; rewrite (round64_dyadic ((k + 1) * 1024 - 1) (-10)) by lia; apply Qle_refl].
    apply round64_mono. rewrite Hx, Hd.
    assert (inject_Z r / 1000 <= 999 # 1000)%Q.
    { apply Qle_shift_div_r; [reflexivity|].
      setoid_replace ((999 # 1000) * 1000)%Q with (inject_Z 999) by reflexivity.
      rewrite <- Zle_Qle. lia. }
    lra. }
  apply Z.le_antisymm.
  - assert (H : Qfloor (fdiv (inject_Z a) 1000) < k + 1); [|lia].
    rewrite Zlt_Qlt. apply Qle_lt_trans with (fdiv (inject_Z a) 1000); [apply Qfloor_le|].
    apply Qle_lt_trans with d; [exact Hhi|]. rewrite Hd, inject_Z_plus.
    change (inject_Z 1) with 1%Q. lra.
  - rewrite <- (Qfloor_Z k) at 1. apply Qfloor_resp_le. exact Hlo.
Qed.

Lemma Qlt_bool_iff (a b : Q) : Qlt_bool a b = true <-> (a < b)%Q.
Proof.
  unfold Qlt_bool. rewrite negb_true_iff.
  split; intro H.
  - apply Qnot_le_lt. intro Hle. apply Qle_bool_iff in Hle. congruence.
  - destruct (Qle_bool b a) eqn:E; [|reflexivity].
    apply Qle_bool_iff in E. exfalso. exact (Qlt_not_le _ _ H E).
Qed.

Lemma Qlt_bool_false_iff (a b : Q) : Qlt_bool a b = false <-> (b <= a)%Q.
Proof.
  unfold Qlt_bool. rewrite negb_false_iff. apply Qle_bool_iff.
Qed.

Lemma Qge_bool_iff (a b : Q) : Qge_bool a b = true <-> (b <= a)%Q.
Proof. apply Qle_bool_iff. Qed.

Lemma Math_round_mono (x y : Q) : (x <= y)%Q -> Math_round x <= Math_round y.
Proof.
  intro H. unfold Math_round. apply Qfloor_resp_le.
  apply Qplus_le_l. exact H.
Qed.

Lemma Math_round_Z (z : Z) : Math_round (inject_Z z) = z.
Proof.
  unfold Math_round.
  assert (Hlo : z <= Qfloor (inject_Z z + (1 # 2))).
  { rewrite <- (Qfloor_Z z) at 1. apply Qfloor_resp_le.
    rewrite <- (Qplus_0_r (inject_Z z)) at 1.
    apply Qplus_le_r. discriminate. }
  assert (Hhi : Qfloor (inject_Z z + (1 # 2)) < z + 1).
  { rewrite Zlt_Qlt.
    apply Qle_lt_trans with (inject_Z z + (1 # 2))%Q; [apply Qfloor_le|].
    rewrite inject_Z_plus. apply Qplus_lt_r. reflexivity. }
  lia.
Qed.

End JSFacts.

(* ------------------------------------------------------------------ *)
(** ** Typing statistics *)

Module TypingTestStats.
Import JS JSFacts TypingTest.

(** The comparison loop counts, on any list of indices, the matching
    ones in its first component and the others in its second. *)
Lemma compare_fold (input text : string) (l : list nat) (acc : nat * nat) :
  fold_left (compare_step input text) l acc
  = ((fst acc + List.length (filter (same_char input text) l))%nat,
     (snd acc + List.length (filter (fun i => negb (same_char input text i)) l))%nat).
Proof.
  revert acc. induction l as [|i l IH]; intros [c e]; simpl.
  - f_equal; lia.
  - rewrite IH. unfold compare_step.
    destruct (same_char input text i); simpl; f_equal; lia.
Qed.

Lemma filter_split_length {A} (p : A -> bool) (l : list A) :
  (List.length (filter p l) + List.length (filter (fun x => negb (p x)) l)
   = List.length l)%nat.
Proof.
  induction l as [|x l IH]; simpl; [reflexivity|].
  destruct (p x); simpl; lia.
Qed.

Lemma correctChars_matching (input text : string) :
  fst (compare_loop input text) = matching_positions input text.
Proof.
  unfold compare_loop, matching_positions. rewrite compare_fold. reflexivity.
Qed.

Lemma errors_mismatching (input text : string) :
  (snd (compare_loop input text)
   = Nat.min (String.length input) (String.length text)
     - matching_positions input text)%nat.
Proof.
  unfold compare_loop, matching_positions. rewrite compare_fold. simpl.
  pose proof (filter_split_length (same_char input text)
                (seq 0 (Nat.min (String.length input) (String.length text)))) as H.
  rewrite length_seq in H. lia.
Qed.

Lemma matching_le_input (input text : string) :
  (matching_positions input text <= String.length input)%nat.
Proof.
  unfold matching_positions.
  pose proof (filter_split_length (same_char input text)
                (seq 0 (Nat.min (String.length input) (String.length text)))) as H.
  rewrite length_seq in H. lia.
Qed.


(** C8: whatever the input, the reference text and the clock,
    [0 <= accuracy <= 100] and [wpm >= 0]. *)
Theorem calculateStats_bounds :
  forall (start : option Z) (kd : list KeystrokeData) (now : Z) (input text : string),
    let st := calculateStats start kd now input text in
    0 <= accuracy st <= 100 /\ 0 <= wpm st.
Proof.
  intros start kd now input text st. subst st.
  unfold calculateStats; simpl. rewrite correctChars_matching.
  pose proof (matching_le_input input text) as Hc.
  set (c := matching_positions input text) in *.
  set (n := String.length input) in *.
  assert (Hc0 : (0 <= inject_Z (Z.of_nat c))%Q).
  { change 0%Q with (inject_Z 0). rewrite <- Zle_Qle. lia. }
  split.
  - destruct (0 <? n)%nat eqn:En; [|lia].
    apply Nat.ltb_lt in En.
    destruct (fdiv_fraction (Z.of_nat c) (Z.of_nat n)) as [Hlo Hhi]; [lia | lia |].
    set (ratio := fdiv (inject_Z (Z.of_nat c)) (inject_Z (Z.of_nat n))) in *.
    split.
    + rewrite <- (Math_round_Z 0) at 1. apply Math_round_mono.
      apply round64_nonneg. apply Qmult_le_0_compat; [exact Hlo | discriminate].
    + rewrite <- (Math_round_Z 100) at 2. apply Math_round_mono.
      apply (round64_le_Z _ 100); [lia|].
      setoid_replace (inject_Z 100) with (1 * 100)%Q by reflexivity.
      apply Qmult_le_compat_r; [exact Hhi | discriminate].
  - destruct (Qlt_bool 0 (timeElapsed start now)) eqn:Et; [|lia].
    apply Qlt_bool_iff in Et.
    rewrite <- (Math_round_Z 0) at 1. apply Math_round_mono.
    apply fdiv_nonneg; [|exact Et].
    apply fdiv_nonneg; [exact Hc0 | reflexivity].
Qed.

(** The statistics are those of binary64: 23 right characters out of
    40 give [(23 / 40) * 100 = 57.49999999999999] and an accuracy of
    57, and 7 right characters after 1600 ms give a speed of
    [52.49999999999999], reported as 52; the exact quotients 57.5 and
    52.5 would round to 58 and 53. *)
Lemma binary64_statistics_example :
  let text := Examples.filler 40 in
  let input := (Examples.filler 23 ++ "bbbbbbbbbbbbbbbbb")%string in
  accuracy (calculateStats (Some 1000) [] 61000 input text) = 57
  /\ wpm (calculateStats (Some 1000) [] 2600 (Examples.filler 7) text) = 52
  /\ Math_round (((23 / 40) * 100)%Q) = 58
  /\ Math_round (((7 / 5) / ((1600 / 1000) / 60))%Q) = 53.
Proof. vm_compute. repeat split. Qed.


End TypingTestStats.

(* ------------------------------------------------------------------ *)
(** ** Typing test: fraud score and verdict *)

Module TypingTestVerdict.
Import JS JSFacts TypingTest.

(** The running score is one of six sums of 0.3, 0.2 and 0.2, each
    with two decimals already: the final rounding keeps its value. *)
Lemma fraudScore_unrounded (config : Config) (s : State) (now : Z) :
  (fraudScore (testResults config s now) == fst (fraudAnalysis config s))%Q.
Proof.
  unfold testResults; simpl. unfold fraudAnalysis.
  destruct (fraudDetectionEnabled config); [|reflexivity].
  destruct (Qlt_bool _ 50); destruct (2 <? focusLostCount s)%nat;
    destruct (0 <? List.length (fraudAlerts s))%nat; reflexivity.
Qed.

Lemma passed_false_of_score (config : Config) (s : State) (now : Z) :
  (7 # 10 <= fraudScore (testResults config s now))%Q ->
  passed (testResults config s now) = false.
Proof.
  rewrite fraudScore_unrounded. intro H. unfold testResults; simpl.
  apply Qlt_bool_false_iff in H. rewrite H. apply andb_false_r.
Qed.

(** The decimal fraud score stands for the JavaScript number: each
    sum that [fraudAnalysis] can form, computed in binary64 from the
    literals [0.3] and [0.2], is the binary64 value of the decimal sum;
    it is below the literal [0.7] exactly when the decimal sum is below
    7/10; and [Math.round(score * 100) / 100] returns it unchanged. *)
Lemma fraud_score_in_binary64 (fast focus alerts : bool) :
  let decimal :=
    let s1 := if fast then (0 + (3 # 10))%Q else 0%Q in
    let s2 := if focus then (s1 + (2 # 10))%Q else s1 in
    if alerts then (s2 + (2 # 10))%Q else s2 in
  let binary :=
    let s1 := if fast then fadd 0 (dbl (3 # 10)) else 0%Q in
    let s2 := if focus then fadd s1 (dbl (2 # 10)) else s1 in
    if alerts then fadd s2 (dbl (2 # 10)) else s2 in
  (binary == dbl decimal)%Q
  /\ Qlt_bool binary (dbl (7 # 10)) = Qlt_bool decimal (7 # 10)
  /\ (fdiv (inject_Z (Math_round (fmul binary 100))) 100 == binary)%Q
  /\ (inject_Z (Math_round (decimal * 100)) / 100 == decimal)%Q.
Proof. destruct fast, focus, alerts; vm_compute; repeat split. Qed.

(** C7: [passed] holds exactly when the speed and the accuracy reach
    their minimums and the fraud score is below 0.7; a fraud score of
    0.7 or more fails the test, and the score is 0 when fraud
    detection is disabled. *)
Theorem passed_iff :
  forall (config : Config) (s : State) (now : Z),
    let r := testResults config s now in
    (passed r = true <->
     (minimumWpm config <= inject_Z (r_wpm r))%Q
     /\ (minimumAccuracy config <= inject_Z (r_accuracy r))%Q
     /\ (fraudScore r < 7 # 10)%Q)
    /\ ((7 # 10 <= fraudScore r)%Q -> passed r = false)
    /\ (fraudDetectionEnabled config = false -> (fraudScore r == 0)%Q).
Proof.
  intros config s now r.
  assert (Hiff : passed r = true <->
                 (minimumWpm config <= inject_Z (r_wpm r))%Q
                 /\ (minimumAccuracy config <= inject_Z (r_accuracy r))%Q
                 /\ (fraudScore r < 7 # 10)%Q).
  { subst r. rewrite (fraudScore_unrounded config s now).
    unfold testResults; simpl.
    rewrite !andb_true_iff, !Qge_bool_iff, Qlt_bool_iff. tauto. }
  split; [exact Hiff|]. split.
  - intro Hge. destruct (passed r) eqn:E; [|reflexivity].
    destruct Hiff as [Hiff _]. destruct (Hiff eq_refl) as (_ & _ & Hlt).
    exfalso. exact (Qlt_not_le _ _ Hlt Hge).
  - intro Hoff. subst r. rewrite (fraudScore_unrounded config s now).
    unfold fraudAnalysis. rewrite Hoff. reflexivity.
Qed.

Lemma passed_iff_witness :
  let steady :=
    run Examples.typingConfig (init Examples.typingConfig 0) Examples.steadySession in
  let unfocused :=
    run Examples.typingConfig (init Examples.typingConfig 0) Examples.focusSession in
  passed (testResults Examples.typingConfig steady 3000) = true
  /\ passed (testResults Examples.typingConfig unfocused 5000) = false
  /\ (fraudScore (testResults Examples.typingConfigNoFraud unfocused 5000) == 0)%Q.
Proof.
  intros steady unfocused.
  destruct (passed_iff Examples.typingConfig steady 3000) as ((_ & Hpass) & _ & _).
  destruct (passed_iff Examples.typingConfig unfocused 5000) as (_ & Hfail & _).
  destruct (passed_iff Examples.typingConfigNoFraud unfocused 5000) as (_ & _ & Hoff).
  split; [|split].
  - apply Hpass. repeat split; vm_compute; congruence.
  - apply Hfail. vm_compute. congruence.
  - apply Hoff. reflexivity.
Defined.

End TypingTestVerdict.

(* ------------------------------------------------------------------ *)
(** ** Typing test: the fraud rules over whole sessions *)

Module TypingTestFraud.
Import JS JSFacts TypingTest.

Lemma count_msg_app (m : string) (l1 l2 : list string) :
  count_msg m (l1 ++ l2) = (count_msg m l1 + count_msg m l2)%nat.
Proof. unfold count_msg. rewrite filter_app, length_app. reflexivity. Qed.

Lemma count_focus_in_rapid : count_msg msg_focus_lost [msg_rapid_typing] = O.
Proof. vm_compute. reflexivity. Qed.

Lemma count_focus_in_focus : count_msg msg_focus_lost [msg_focus_lost] = 1%nat.
Proof. vm_compute. reflexivity. Qed.

Lemma alerts_inv_init (config : Config) (r : nat) : alerts_inv config (init config r).
Proof. split; [constructor | reflexivity]. Qed.

Lemma alerts_inv_same (config : Config) (s s' : State) :
  fraudAlerts s' = fraudAlerts s -> focusLostCount s' = focusLostCount s ->
  alerts_inv config s -> alerts_inv config s'.
Proof. unfold alerts_inv. intros -> ->. tauto. Qed.

Lemma alerts_inv_rapid (config : Config) (s s' : State) :
  fraudAlerts s' = fraudAlerts s ++ [msg_rapid_typing] ->
  focusLostCount s' = focusLostCount s ->
  alerts_inv config s -> alerts_inv config s'.
Proof.
  unfold alerts_inv. intros -> -> [HF HC]. split.
  - apply Forall_app. split; [exact HF|]. constructor; [now right | constructor].
  - intro He. rewrite count_msg_app, (HC He), count_focus_in_rapid. lia.
Qed.

Ltac split_cases :=
  repeat match goal with
         | |- context [match testState ?s with _ => _ end] => destruct (testState s)
         | |- context [if ?b then _ else _] => destruct b
         end.

Lemma handleInputChange_focus (config : Config) (newInput : string) (now : Z) (s : State) :
  focusLostCount (handleInputChange config newInput now s) = focusLostCount s.
Proof. unfold handleInputChange. split_cases; reflexivity. Qed.

Lemma handleInputChange_alerts (config : Config) (newInput : string) (now : Z) (s : State) :
  fraudAlerts (handleInputChange config newInput now s) = fraudAlerts s
  \/ fraudAlerts (handleInputChange config newInput now s)
     = fraudAlerts s ++ [msg_rapid_typing].
Proof. unfold handleInputChange. split_cases; simpl; auto. Qed.

Lemma handleInputChange_inv (config : Config) (newInput : string) (now : Z) (s : State) :
  alerts_inv config s -> alerts_inv config (handleInputChange config newInput now s).
Proof.
  intro H.
  destruct (handleInputChange_alerts config newInput now s) as [Ha|Ha].
  - eapply alerts_inv_same; [exact Ha | apply handleInputChange_focus | exact H].
  - eapply alerts_inv_rapid; [exact Ha | apply handleInputChange_focus | exact H].
Qed.

Lemma step_inv (config : Config) (s : State) (e : Event) :
  alerts_inv config s -> alerts_inv config (step config s e).
Proof.
  intro H. destruct e as [now|newInput now|now| |now]; simpl.
  - destruct (testState s); exact H.
  - destruct (testState s); try exact H.
    apply handleInputChange_inv. exact H.
  - unfold timerEffect. split_cases; exact H.
  - unfold handleFocusLoss. destruct (testState s); try exact H.
    destruct H as [HF HC]. unfold alerts_inv; simpl.
    destruct (fraudDetectionEnabled config) eqn:He.
    + split.
      * apply Forall_app. split; [exact HF|]. constructor; [now left | constructor].
      * intros _. rewrite count_msg_app, (HC eq_refl), count_focus_in_focus. lia.
    + split; [exact HF | discriminate].
  - destruct (testState s); exact H.
Qed.

Lemma run_inv (config : Config) (events : list Event) (s : State) :
  alerts_inv config s -> alerts_inv config (run config s events).
Proof.
  revert s. induction events as [|e events IH]; intros s H; simpl; [exact H|].
  apply IH. apply step_inv. exact H.
Qed.

(** A list of focus alerts only is determined by its length. *)
Lemma only_focus_alerts (l : list string) :
  Forall (fun a => a = msg_focus_lost \/ a = msg_rapid_typing) l ->
  ~ In msg_rapid_typing l ->
  l = repeat msg_focus_lost (count_msg msg_focus_lost l).
Proof.
  induction l as [|a l IH]; intros HF Hno; [reflexivity|].
  inversion HF as [|? ? [Ha|Ha] HF']; subst.
  - unfold count_msg in *. simpl. f_equal. apply IH; [exact HF'|].
    intro Hin. apply Hno. now right.
  - exfalso. apply Hno. now left.
Qed.

(** What the three rules give in a state whose alert list is empty. *)
Lemma fraud_rules_without_alerts (config : Config) (s : State) (now : Z) :
  fraudDetectionEnabled config = true ->
  (avgTimeBetweenKeystrokes (keystrokeData s) < 50)%Q ->
  (2 < focusLostCount s)%nat ->
  fraudAlerts s = [] ->
  (fraudScore (testResults config s now) == 5 # 10)%Q
  /\ fraudIndicators (testResults config s now) = [msg_fast_typing; msg_multiple_focus].
Proof.
  intros He Havg Hfocus Hal.
  rewrite TypingTestVerdict.fraudScore_unrounded.
  unfold testResults; simpl. unfold fraudAnalysis.
  apply Qlt_bool_iff in Havg. apply Nat.ltb_lt in Hfocus.
  rewrite He, Havg, Hfocus, Hal. simpl. split; reflexivity.
Qed.

Lemma step_completions (config : Config) (s : State) (e : Event) :
  completions (step config s e) = completions s
  \/ exists now auto,
      completions (step config s e)
      = completions s ++ [(testResults config s now, auto)].
Proof.
  destruct e as [now|newInput now|now| |now]; simpl.
  - destruct (testState s); left; reflexivity.
  - destruct (testState s); try (left; reflexivity).
    unfold handleInputChange.
    destruct (String.length (currentText s) <=? String.length newInput)%nat.
    + right. exists now, false. split_cases; reflexivity.
    + left. split_cases; reflexivity.
  - unfold timerEffect. destruct (testState s); try (left; reflexivity).
    destruct (0 <? timeRemaining s); [left; reflexivity|].
    destruct (timeRemaining s =? 0); [|left; reflexivity].
    right. exists now, true. reflexivity.
  - unfold handleFocusLoss. destruct (testState s); left; reflexivity.
  - destruct (testState s); try (left; reflexivity).
    right. exists now, true. reflexivity.
Qed.

(** Every result handed to [onComplete] is [testResults] of the state
    reached by a prefix of the session. *)
Lemma completions_are_testResults (config : Config) (r : nat) (events : list Event)
      (res : TypingTestResult) (auto : bool) :
  In (res, auto) (completions (run config (init config r) events)) ->
  exists before after now,
    events = before ++ after
    /\ res = testResults config (run config (init config r) before) now.
Proof.
  induction events as [|e events IH] using rev_ind; intro Hin.
  - destruct Hin.
  - unfold run in Hin. rewrite fold_left_app in Hin. simpl in Hin.
    fold (run config (init config r) events) in Hin.
    destruct (step_completions config (run config (init config r) events) e)
      as [Heq | (now & auto' & Heq)]; rewrite Heq in Hin.
    + destruct (IH Hin) as (before & after & now & -> & Hres).
      exists before, (after ++ [e]), now. split; [symmetry; apply app_assoc | exact Hres].
    + apply in_app_or in Hin. destruct Hin as [Hin | [Hin | []]].
      * destruct (IH Hin) as (before & after & now' & -> & Hres).
        exists before, (after ++ [e]), now'.
        split; [symmetry; apply app_assoc | exact Hres].
      * exists events, [e], now. split; [reflexivity | congruence].
Qed.

(** C3, as the code has it: with fraud detection enabled every
    counted focus loss has also put an alert in the list, so a
    session with fast typing (average interval below 50 ms, 30 ms in
    particular), more than two focus losses (three in particular) and
    no rapid-typing alert completes with all three rules fired: the
    alert list is one focus alert per loss, the fraud score is 0.70,
    the indicators are the two rule names followed by those alerts,
    and the test is not passed. *)
Theorem focus_losses_count_twice :
  forall (config : Config) (r : nat) (events : list Event) (now : Z),
    let s := run config (init config r) events in
    let res := testResults config s now in
    fraudDetectionEnabled config = true ->
    (avgTimeBetweenKeystrokes (keystrokeData s) < 50)%Q ->
    (2 < focusLostCount s)%nat ->
    ~ In msg_rapid_typing (fraudAlerts s) ->
    fraudAlerts s = repeat msg_focus_lost (focusLostCount s)
    /\ (fraudScore res == 7 # 10)%Q
    /\ fraudIndicators res
       = [msg_fast_typing; msg_multiple_focus] ++ repeat msg_focus_lost (focusLostCount s)
    /\ passed res = false.
Proof.
  intros config r events now s res He Havg Hfocus Hno.
  destruct (run_inv config events _ (alerts_inv_init config r)) as [HF HC].
  fold s in HF, HC.
  assert (Hal : fraudAlerts s = repeat msg_focus_lost (focusLostCount s)).
  { rewrite <- (HC He). apply only_focus_alerts; assumption. }
  assert (Hlen : (0 <? List.length (fraudAlerts s))%nat = true).
  { rewrite Hal, repeat_length. apply Nat.ltb_lt. lia. }
  assert (Hscore : (fst (fraudAnalysis config s) == 7 # 10)%Q
                   /\ snd (fraudAnalysis config s)
                      = [msg_fast_typing; msg_multiple_focus] ++ fraudAlerts s).
  { unfold fraudAnalysis. apply Qlt_bool_iff in Havg. apply Nat.ltb_lt in Hfocus.
    rewrite He, Havg, Hfocus, Hlen. simpl. split; reflexivity. }
  destruct Hscore as [Hscore Hind].
  split; [exact Hal|]. split; [|split].
  - subst res. rewrite TypingTestVerdict.fraudScore_unrounded. exact Hscore.
  - subst res. unfold testResults; simpl. rewrite Hind, Hal. reflexivity.
  - apply (TypingTestVerdict.passed_false_of_score config s now).
    subst res. rewrite TypingTestVerdict.fraudScore_unrounded, Hscore. apply Qle_refl.
Qed.

Lemma focus_losses_count_twice_witness :
  let s := run Examples.typingConfig (init Examples.typingConfig 0) Examples.focusSession in
  let res := testResults Examples.typingConfig s 5000 in
  (avgTimeBetweenKeystrokes (keystrokeData s) == 30)%Q
  /\ focusLostCount s = 3%nat
  /\ (fraudScore res == 7 # 10)%Q
  /\ fraudIndicators res
     = [msg_fast_typing; msg_multiple_focus; msg_focus_lost; msg_focus_lost; msg_focus_lost]
  /\ passed res = false.
Proof.
  intros s res.
  assert (Hno : ~ In msg_rapid_typing (fraudAlerts s)).
  { vm_compute. intros [H|[H|[H|[]]]]; discriminate. }
  destruct (focus_losses_count_twice Examples.typingConfig 0 Examples.focusSession 5000
              eq_refl eq_refl (le_n 3) Hno) as (_ & H2 & H3 & H4).
  split; [reflexivity|]. split; [reflexivity|].
  split; [exact H2|]. split; [exact H3 | exact H4].
Defined.

(** C3 as stated fails: in this session fraud detection is enabled,
    the average interval is 30 ms, focus was lost three times and no
    alert was raised by the typing itself, yet the completion reports
    0.70 and five indicators, not 0.50 and the two rule names. *)
Lemma focus_session_counterexample :
  let s := run Examples.typingConfig (init Examples.typingConfig 0) Examples.focusSession in
  let res := testResults Examples.typingConfig s 5000 in
  fraudDetectionEnabled Examples.typingConfig = true
  /\ (avgTimeBetweenKeystrokes (keystrokeData s) == 30)%Q
  /\ focusLostCount s = 3%nat
  /\ ~ In msg_rapid_typing (fraudAlerts s)
  /\ completions (step Examples.typingConfig s (ClickSubmitEarly 5000)) = [(res, true)]
  /\ (fraudScore res == 7 # 10)%Q
  /\ ~ (fraudScore res == 5 # 10)%Q
  /\ fraudIndicators res <> [msg_fast_typing; msg_multiple_focus].
Proof.
  intros s res.
  split; [reflexivity|]. split; [reflexivity|]. split; [reflexivity|].
  split; [vm_compute; intros [H|[H|[H|[]]]]; discriminate|].
  split; [vm_compute; reflexivity|].
  split; [reflexivity|].
  split; [vm_compute; discriminate | vm_compute; discriminate].
Qed.

(** C9: with fraud detection enabled and fewer than two logged
    keystrokes the average interval is 0, so the fast-typing rule
    fires: 0.3 enters the fraud score and the rule name heads the
    indicators, although nothing was typed fast. *)
Theorem short_log_flags_fast_typing :
  forall (config : Config) (s : State) (now : Z),
    let res := testResults config s now in
    fraudDetectionEnabled config = true ->
    (List.length (keystrokeData s) < 2)%nat ->
    (avgTimeBetweenKeystrokes (keystrokeData s) == 0)%Q
    /\ (fraudScore res
        == (3 # 10)
           + (if (2 <? focusLostCount s)%nat then 2 # 10 else 0)
           + (if (0 <? List.length (fraudAlerts s))%nat then 2 # 10 else 0))%Q
    /\ (3 # 10 <= fraudScore res)%Q
    /\ hd_error (fraudIndicators res) = Some msg_fast_typing
    /\ In msg_fast_typing (fraudIndicators res).
Proof.
  intros config s now res He Hlen.
  assert (Havg : avgTimeBetweenKeystrokes (keystrokeData s) = 0%Q).
  { unfold avgTimeBetweenKeystrokes.
    destruct (1 <? List.length (keystrokeData s))%nat eqn:E; [|reflexivity].
    apply Nat.ltb_lt in E. lia. }
  assert (Hscore :
            (fraudScore res
             == (3 # 10)
                + (if (2 <? focusLostCount s)%nat then 2 # 10 else 0)
                + (if (0 <? List.length (fraudAlerts s))%nat then 2 # 10 else 0))%Q).
  { subst res. rewrite TypingTestVerdict.fraudScore_unrounded.
    unfold fraudAnalysis. rewrite He, Havg.
    destruct (2 <? focusLostCount s)%nat;
      destruct (0 <? List.length (fraudAlerts s))%nat; reflexivity. }
  assert (Hhd : hd_error (fraudIndicators res) = Some msg_fast_typing).
  { subst res. unfold testResults; simpl. unfold fraudAnalysis. rewrite He, Havg.
    destruct (2 <? focusLostCount s)%nat;
      destruct (0 <? List.length (fraudAlerts s))%nat; reflexivity. }
  split; [rewrite Havg; reflexivity|]. split; [exact Hscore|]. split; [|split].
  - rewrite Hscore.
    destruct (2 <? focusLostCount s)%nat;
      destruct (0 <? List.length (fraudAlerts s))%nat; discriminate.
  - exact Hhd.
  - destruct (fraudIndicators res) as [|a l]; [discriminate|].
    injection Hhd as ->. now left.
Qed.

Lemma short_log_flags_fast_typing_witness :
  let s := run Examples.typingConfig (init Examples.typingConfig 0) Examples.idleSession in
  let res := testResults Examples.typingConfig s 3000 in
  keystrokeData s = []
  /\ completions (step Examples.typingConfig s (ClickSubmitEarly 3000)) = [(res, true)]
  /\ (3 # 10 <= fraudScore res)%Q
  /\ In msg_fast_typing (fraudIndicators res).
Proof.
  intros s res.
  destruct (short_log_flags_fast_typing Examples.typingConfig s 3000 eq_refl (le_S 1 1 (le_n 1)))
    as (_ & _ & H3 & _ & H5).
  split; [reflexivity|]. split; [vm_compute; reflexivity|].
  split; [exact H3 | exact H5].
Defined.

End TypingTestFraud.

(* ------------------------------------------------------------------ *)
(** ** Interview: evaluation and aggregation *)

Module InterviewScoring.
Import JS JSFacts AIInterview.

Lemma Math_round_comp (x y : Q) : (x == y)%Q -> Math_round x = Math_round y.
Proof. intro H. unfold Math_round. rewrite H. reflexivity. Qed.

(** Appending an evaluation adds its score, in binary64. *)
Lemma sumScores_snoc (l : list QuestionEvaluation) (e : QuestionEvaluation) :
  sumScores (l ++ [e]) = fadd (sumScores l) (aiScore e).
Proof. unfold sumScores. rewrite fold_left_app. reflexivity. Qed.

(** Scores that all lie in a band of integers have their running sum
    in the band scaled by their number, as long as the scaled bounds
    are below [2^53] and hence binary64 values. *)
Lemma fold_scores_bounds (lo hi : Z) (l : list QuestionEvaluation) :
  forall (acc : Q) (k : nat),
    0 <= lo <= hi ->
    hi * Z.of_nat (k + List.length l) < 2 ^ 53 ->
    Forall (fun e => inject_Z lo <= aiScore e <= inject_Z hi)%Q l ->
    (inject_Z (lo * Z.of_nat k) <= acc <= inject_Z (hi * Z.of_nat k))%Q ->
    (inject_Z (lo * Z.of_nat (k + List.length l))
     <= fold_left (fun sum result => fadd sum (aiScore result)) l acc
     <= inject_Z (hi * Z.of_nat (k + List.length l)))%Q.
Proof.
  induction l as [|e l IH]; intros acc k Hb Hn HF Hacc; cbn [fold_left List.length] in *.
  - rewrite Nat.add_0_r. exact Hacc.
  - inversion HF as [|? ? [He1 He2] HF']; subst.
    replace (k + S (List.length l))%nat with (S k + List.length l)%nat in * by lia.
    apply IH; [exact Hb | exact Hn | exact HF' |].
    assert (Hk : 0 <= lo * Z.of_nat (S k) <= hi * Z.of_nat (S k)) by nia.
    assert (Hk' : hi * Z.of_nat (S k) < 2 ^ 53) by nia.
    destruct Hacc as [Hlo Hhi].
    unfold fadd. split.
    + apply round64_ge_Z; [lia|].
      rewrite Nat2Z.inj_succ, Z.mul_succ_r, inject_Z_plus. lra.
    + apply round64_le_Z; [lia|].
      rewrite Nat2Z.inj_succ, Z.mul_succ_r, inject_Z_plus. lra.
Qed.

Lemma sumScores_bounds (lo hi : Z) (l : list QuestionEvaluation) :
  0 <= lo <= hi ->
  hi * Z.of_nat (List.length l) < 2 ^ 53 ->
  Forall (fun e => inject_Z lo <= aiScore e <= inject_Z hi)%Q l ->
  (inject_Z (lo * Z.of_nat (List.length l)) <= sumScores l
   <= inject_Z (hi * Z.of_nat (List.length l)))%Q.
Proof.
  intros Hb Hn HF.
  apply (fold_scores_bounds lo hi l 0%Q O Hb Hn HF).
  rewrite !Z.mul_0_r. split; apply Qle_refl.
Qed.

(** The mean of such scores, as the code computes it, stays in the
    band. *)
Lemma mean_bounds (lo hi : Z) (l : list QuestionEvaluation) :
  l <> [] ->
  0 <= lo <= hi ->
  hi * Z.of_nat (List.length l) < 2 ^ 53 ->
  Forall (fun e => inject_Z lo <= aiScore e <= inject_Z hi)%Q l ->
  (inject_Z lo <= fdiv (sumScores l) (inject_Z (Z.of_nat (List.length l)))
   <= inject_Z hi)%Q.
Proof.
  intros Hne Hb Hn HF. destruct (sumScores_bounds lo hi l Hb Hn HF) as [Hlo Hhi].
  assert (Hlen : 0 < Z.of_nat (List.length l)).
  { destruct l; [congruence | simpl; lia]. }
  assert (Hq : (0 < inject_Z (Z.of_nat (List.length l)))%Q).
  { change 0%Q with (inject_Z 0). rewrite <- Zlt_Qlt. exact Hlen. }
  rewrite inject_Z_mult in Hlo, Hhi.
  unfold fdiv. split.
  - apply round64_ge_Z; [nia|]. apply Qle_shift_div_l; assumption.
  - apply round64_le_Z; [nia|]. apply Qle_shift_div_r; assumption.
Qed.

(** The scores of an array of evaluations can be summed in this way:
    an array has at most [max_array_length] elements. *)
Lemma array_sum_exact (n : nat) :
  Z.of_nat n <= max_array_length -> 100 * Z.of_nat n < 2 ^ 53.
Proof. unfold max_array_length. intro H. lia. Qed.

Lemma processAnswers_from_length (questions : list Question) (random : nat -> Q)
      (answers : list Answer) :
  forall (k : nat) (evals : list QuestionEvaluation),
    processAnswers_from questions random k answers = Some evals ->
    List.length evals = List.length answers.
Proof.
  induction answers as [|a rest IH]; intros k evals H; simpl in H.
  - injection H as <-. reflexivity.
  - destruct (findQuestion questions (questionId a)); [|discriminate].
    destruct (processAnswers_from questions random (S k) rest) eqn:E; [|discriminate].
    injection H as <-. simpl. f_equal. exact (IH _ _ E).
Qed.

(** [processAnswers] returns one evaluation per answer. *)
Lemma processAnswers_length (questions : list Question) (random : nat -> Q)
      (answers : list Answer) (evals : list QuestionEvaluation) :
  processAnswers questions random answers = Some evals ->
  List.length evals = List.length answers.
Proof. apply processAnswers_from_length. Qed.

(** C1: with one evaluation per answer, [percentageScore] is the
    rounded mean of the [aiScore]s: their sum [S], accumulated in
    JavaScript numbers and not rounded to an integer, divided by
    [questionsAttempted], then rounded.  The result reports [S] rounded
    to an integer as [totalScore].  [passed] holds exactly when
    [percentageScore >= minimumPassingScore], the boundary included.
    Two answers scored 80 and 60 give 70, which passes a minimum of 70. *)
Theorem calculateResults_mean :
  forall (config : Config) (questions : list Question) (answers : list Answer)
         (evals : list QuestionEvaluation),
    let res := calculateResults config questions answers evals in
    List.length evals = List.length answers ->
    (answers <> [] ->
     percentageScore res
     = Some (Math_round (fdiv (sumScores evals)
                              (inject_Z (Z.of_nat (questionsAttempted res))))))
    /\ totalScore res = Math_round (sumScores evals)
    /\ (passed res = true <->
        exists p, percentageScore res = Some p
                  /\ (minimumPassingScore config <= inject_Z p)%Q)
    /\ (forall e1 e2,
           evals = [e1; e2] -> (aiScore e1 == 80)%Q -> (aiScore e2 == 60)%Q ->
           percentageScore res = Some 70
           /\ totalScore res = 140
           /\ ((minimumPassingScore config == 70)%Q -> passed res = true)).
Proof.
  intros config questions answers evals res Hlen.
  assert (Hpass : passed res = true <->
                  exists p, percentageScore res = Some p
                            /\ (minimumPassingScore config <= inject_Z p)%Q).
  { subst res. unfold calculateResults; simpl.
    destruct (round_opt (div_length (sumScores evals) (List.length evals))) as [p|]; simpl.
    - rewrite Qge_bool_iff. split.
      + intro H. exists p. split; [reflexivity | exact H].
      + intros (p' & Hp & H). injection Hp as ->. exact H.
    - split; [discriminate | intros (p' & Hp & _); discriminate]. }
  split; [|split; [reflexivity | split; [exact Hpass|]]].
  - intro Hne. subst res. unfold calculateResults; simpl. rewrite Hlen.
    destruct answers as [|a rest]; [congruence | reflexivity].
  - intros e1 e2 -> H1 H2.
    assert (Hsum : (sumScores [e1; e2] == 140)%Q).
    { unfold sumScores, fadd; cbn [fold_left].
      rewrite (round64_comp (round64 (0 + aiScore e1) + aiScore e2) 140);
        [vm_compute; reflexivity|].
      rewrite (round64_comp (0 + aiScore e1) 80) by (rewrite H1; reflexivity).
      rewrite H2. vm_compute. reflexivity. }
    assert (Hp : percentageScore res = Some 70).
    { subst res. unfold calculateResults; simpl. f_equal.
      rewrite <- (Math_round_Z 70). apply Math_round_comp.
      unfold fdiv. rewrite (round64_comp _ 70); [vm_compute; reflexivity|].
      rewrite Hsum. reflexivity. }
    split; [exact Hp|]. split.
    + subst res. unfold calculateResults; simpl.
      rewrite <- (Math_round_Z 140). apply Math_round_comp. exact Hsum.
    + intro Hmin. apply Hpass. exists 70. split; [exact Hp|].
      rewrite Hmin. apply Qle_refl.
Qed.

Lemma calculateResults_mean_witness :
  exists evals,
    processAnswers Examples.twoQuestions Examples.noDraw Examples.twoAnswers = Some evals
    /\ let res := calculateResults (Examples.interviewConfig 2) Examples.twoQuestions
                                   Examples.twoAnswers evals in
       percentageScore res = Some 70 /\ totalScore res = 140 /\ passed res = true.
Proof.
  destruct (processAnswers Examples.twoQuestions Examples.noDraw Examples.twoAnswers)
    as [evals|] eqn:E; [|vm_compute in E; discriminate].
  exists evals. split; [reflexivity|].
  destruct (calculateResults_mean (Examples.interviewConfig 2) Examples.twoQuestions
              Examples.twoAnswers evals (processAnswers_length _ _ _ _ E))
    as (_ & _ & _ & Hpair).
  vm_compute in E. injection E as <-.
  destruct (Hpair _ _ eq_refl eq_refl eq_refl) as (Hp & Ht & Hok).
  split; [exact Hp|]. split; [exact Ht | exact (Hok eq_refl)].
Defined.

(** C1 as stated fails for the reported total: two answers of 453
    characters are scored 45.3 each; the sum is 90.6, the reported
    [totalScore] is 91, and [percentageScore] is 45 (the rounding of
    45.3), not [round(totalScore / questionsAttempted)], which is 46. *)
Lemma reported_total_counterexample :
  exists res,
    interviewResults (Examples.interviewConfig 2) Examples.twoQuestions
                     Examples.noDraw Examples.fractionalAnswers = Some res
    /\ map aiScore (evaluations res) = [dbl (453 # 10); dbl (453 # 10)]
    /\ List.length (evaluations res) = questionsAttempted res
    /\ (sumScores (evaluations res) == dbl (906 # 10))%Q
    /\ ~ (inject_Z (totalScore res) == sumScores (evaluations res))%Q
    /\ totalScore res = 91
    /\ percentageScore res = Some 45
    /\ Math_round (fdiv (inject_Z (totalScore res))
                        (inject_Z (Z.of_nat (questionsAttempted res)))) = 46.
Proof.
  eexists. split; [vm_compute; reflexivity|].
  split; [vm_compute; reflexivity|]. split; [reflexivity|].
  split; [vm_compute; reflexivity|]. split; [vm_compute; discriminate|].
  split; [vm_compute; reflexivity|]. split; vm_compute; reflexivity.
Qed.

(** The sum and the mean are those of binary64: three answers of 304,
    338 and 363 characters are scored 30.4, 33.8 and 36.3; their sum
    in JavaScript numbers is 100.49999999999999, so that
    [percentageScore] is 33 and [totalScore] 100, where the decimal
    fractions would give 33.5 and 100.5, hence 34 and 101. *)
Lemma binary64_mean_example :
  let answerOf n :=
    {| questionId := q_id Examples.q1; answer := Examples.filler n; timeSpent := 700;
       autoSubmitted := false; timestamp := 701000 |} in
  let answers := map answerOf [304; 338; 363]%nat in
  let evals := map (fun a => evaluate Examples.q1 a 0) answers in
  let res := calculateResults (Examples.interviewConfig 2) [Examples.q1] answers evals in
  map aiScore evals = [dbl (304 # 10); dbl (338 # 10); dbl (363 # 10)]
  /\ percentageScore res = Some 33
  /\ totalScore res = 100
  /\ Math_round (((304 # 10) + (338 # 10) + (363 # 10)) / 3) = 34.
Proof. vm_compute. repeat split. Qed.

Lemma baseScore_bounds (a : Answer) : (30 <= baseScore a <= 90)%Q.
Proof.
  unfold baseScore. split.
  - apply Q.min_glb; [discriminate | apply Q.le_max_l].
  - apply Q.le_min_l.
Qed.

Lemma timeBonus_cases (q : Question) (a : Answer) :
  timeBonus q a = 10%Q \/ timeBonus q a = 0%Q.
Proof. unfold timeBonus. destruct (Qlt_bool _ _); [now left | now right]. Qed.

Lemma evaluate_bounds (q : Question) (a : Answer) (rnd : Q) :
  (30 <= aiScore (evaluate q a rnd) <= 100)%Q.
Proof.
  simpl. destruct (baseScore_bounds a) as [Hlo Hhi]. split.
  - apply Q.min_glb; [discriminate|].
    apply (round64_ge_Z _ 30); [lia|]. change (inject_Z 30) with 30%Q.
    destruct (timeBonus_cases q a) as [-> | ->]; lra.
  - apply Q.le_min_l.
Qed.

Lemma evaluate_blank (q : Question) (a : Answer) (rnd : Q) :
  answer a = EmptyString ->
  (aiScore (evaluate q a rnd) == 30 \/ aiScore (evaluate q a rnd) == 40)%Q.
Proof.
  intro H. simpl. unfold baseScore. rewrite H.
  destruct (timeBonus_cases q a) as [-> | ->]; [right | left]; vm_compute; reflexivity.
Qed.

Lemma processAnswers_from_total (questions : list Question) (random : nat -> Q)
      (answers : list Answer) :
  (forall a, In a answers -> exists q, findQuestion questions (questionId a) = Some q) ->
  forall k, exists evals,
      processAnswers_from questions random k answers = Some evals
      /\ Forall2 (evaluated questions) answers evals.
Proof.
  induction answers as [|a rest IH]; intros Hfound k.
  - exists []. split; [reflexivity | constructor].
  - destruct (Hfound a (or_introl eq_refl)) as [q Hq].
    destruct (IH (fun b Hb => Hfound b (or_intror Hb)) (S k)) as (evals & He & HF).
    exists (evaluate q a (random k) :: evals). split.
    + simpl. rewrite Hq, He. reflexivity.
    + constructor; [|exact HF].
      exists q. split; [exact Hq|]. split; [reflexivity|].
      split; [apply evaluate_bounds | apply evaluate_blank].
Qed.

(** C10: whenever every answer names a generated question, the stub
    evaluator returns one evaluation per answer whose [aiScore] is
    [min(100, min(90, max(30, length / 10)) + bonus)], the bonus being
    10 when [timeSpent] is below half the time limit and 0 otherwise;
    the score lies in [30, 100], a blank answer gets 30 or 40, and the
    [percentageScore] of a non-empty interview is at least 30 (and at
    most 100), blank answers or not.  The answers are an array, of at
    most [max_array_length] elements: the sums of their scores are
    then exact bounds in binary64. *)
Theorem stub_evaluator_floor :
  forall (questions : list Question) (random : nat -> Q) (answers : list Answer),
    (forall a, In a answers -> exists q, findQuestion questions (questionId a) = Some q) ->
    exists evals,
      processAnswers questions random answers = Some evals
      /\ Forall2 (evaluated questions) answers evals
      /\ Forall (fun e => 30 <= aiScore e <= 100)%Q evals
      /\ (answers <> [] ->
          Z.of_nat (List.length answers) <= max_array_length ->
          forall config, exists p,
              percentageScore (calculateResults config questions answers evals) = Some p
              /\ 30 <= p <= 100).
Proof.
  intros questions random answers Hfound.
  destruct (processAnswers_from_total questions random answers Hfound O)
    as (evals & He & HF).
  exists evals. split; [exact He|]. split; [exact HF|].
  assert (Hband : Forall (fun e => 30 <= aiScore e <= 100)%Q evals).
  { clear He Hfound.
    induction HF as [|a e l l' (q & _ & _ & Hb & _) _ IH];
      [apply Forall_nil | apply Forall_cons; assumption]. }
  split; [exact Hband|].
  intros Hne Harr config.
  assert (Hlen : List.length evals = List.length answers)
    by exact (processAnswers_length _ _ _ _ He).
  assert (Hne' : evals <> []).
  { destruct evals; [|discriminate]. destruct answers; [congruence | discriminate]. }
  assert (Hn : 100 * Z.of_nat (List.length evals) < 2 ^ 53).
  { rewrite Hlen. apply array_sum_exact, Harr. }
  destruct (mean_bounds 30 100 evals Hne' ltac:(lia) Hn Hband) as [Hlo Hhi].
  unfold calculateResults; simpl.
  destruct evals as [|e evals']; [congruence|].
  eexists. split; [reflexivity|]. split.
  - rewrite <- (Math_round_Z 30) at 1. apply Math_round_mono. exact Hlo.
  - apply Z.le_trans with (Math_round (inject_Z 100)).
    + apply Math_round_mono. exact Hhi.
    + rewrite Math_round_Z. apply Z.le_refl.
Qed.

Lemma stub_evaluator_floor_witness :
  exists evals,
    processAnswers Examples.twoQuestions Examples.noDraw Examples.blankAnswers = Some evals
    /\ Forall (fun e => 30 <= aiScore e <= 100)%Q evals
    /\ exists p,
        percentageScore (calculateResults (Examples.interviewConfig 2) Examples.twoQuestions
                                          Examples.blankAnswers evals) = Some p
        /\ 30 <= p <= 100.
Proof.
  assert (Hfound : forall a, In a Examples.blankAnswers ->
                             exists q, findQuestion Examples.twoQuestions (questionId a) = Some q).
  { intros a [<- | [<- | []]]; eexists; vm_compute; reflexivity. }
  assert (Hne : Examples.blankAnswers <> []) by discriminate.
  assert (Harr : Z.of_nat (List.length Examples.blankAnswers) <= max_array_length)
    by (vm_compute; discriminate).
  destruct (stub_evaluator_floor Examples.twoQuestions Examples.noDraw Examples.blankAnswers Hfound)
    as (evals & He & _ & Hband & Hmean).
  exists evals. split; [exact He|]. split; [exact Hband|].
  exact (Hmean Hne Harr (Examples.interviewConfig 2)).
Defined.

End InterviewScoring.

(* ------------------------------------------------------------------ *)
(** ** Interview: question allocation *)

Module InterviewAllocation.
Import JS JSFacts AIInterview.



Section Allocation.
Variable mockQuestion : Category -> nat -> string.
Variable clock : Category -> nat -> Z.
Variable shuffle : list Question -> list Question.
Hypothesis shuffle_permutes : forall l, Permutation l (shuffle l).


Lemma length_questionsFor (config : Config) (c : Category) :
  List.length (questionsFor mockQuestion clock config c) = Z.to_nat (questionCount config c).
Proof. unfold questionsFor. rewrite length_map, length_seq. reflexivity. Qed.


Lemma length_mockQuestions (config : Config) :
  List.length (mockQuestions mockQuestion clock config)
  = (Z.to_nat (questionCount config coding)
     + Z.to_nat (questionCount config dsa)
     + Z.to_nat (questionCount config education)
     + Z.to_nat (questionCount config achievements)
     + Z.to_nat (questionCount config problem_solving))%nat.
Proof.
  unfold mockQuestions, Object_keys. cbn [flat_map].
  rewrite !length_app, !length_questionsFor. cbn [List.length]. lia.
Qed.


End Allocation.

(** The counts are those of binary64: 29 % of 50 questions is
    14.499999999999998 in JavaScript numbers and gives 14 questions,
    where the exact product 14.5 would give 15. *)
Lemma binary64_allocation_example :
  let config :=
    {| totalQuestions := 50;
       questionDistribution :=
         {| d_coding := 29; d_dsa := 25; d_education := 16; d_achievements := 15;
            d_problem_solving := 15 |};
       aiModel := "gpt-4"; difficultyLevel := "medium"; minimumPassingScore := 70;
       evaluationStrictness := "moderate"; dynamicQuestionsEnabled := false |} in
  questionCount config coding = 14
  /\ Math_round ((29 / 100) * 50) = 15.
Proof. vm_compute. split; reflexivity. Qed.


End InterviewAllocation.

(* ------------------------------------------------------------------ *)
(** ** Interview: navigation and the answer list *)

Module InterviewNavigation.
Import AIInterview.

(** The updater of [handlePreviousQuestion] keeps one record per
    question: it overwrites the record of the same question if there
    is one. *)
Lemma upsert_keeps_ids_unique (t : Answer) (l : list Answer) :
  NoDup (map questionId l) -> NoDup (map questionId (upsert t l)).
Proof.
  assert (Hin : forall l' id, In id (map questionId (upsert t l')) ->
                              id = questionId t \/ In id (map questionId l')).
  { induction l' as [|a l' IH]; simpl; intros id H.
    - destruct H as [<- | []]. now left.
    - destruct (String.eqb (questionId a) (questionId t)) eqn:E; simpl in H.
      + destruct H as [<- | H]; [now left | right; now right].
      + destruct H as [<- | H]; [right; now left|].
        destruct (IH _ H) as [-> | H']; [now left | right; now right]. }
  induction l as [|a l IH]; simpl; intro Hnd.
  - constructor; [intros [] | constructor].
  - inversion Hnd as [|? ? Hnotin Hnd']; subst.
    destruct (String.eqb (questionId a) (questionId t)) eqn:E; simpl.
    + apply String.eqb_eq in E. constructor; [rewrite <- E; exact Hnotin | exact Hnd'].
    + constructor; [|exact (IH Hnd')].
      intro H. destruct (Hin _ _ H) as [Heq | H'].
      * rewrite Heq, String.eqb_refl in E. discriminate.
      * exact (Hnotin H').
Qed.

Lemma submit_answers (a : Answer) (now : Z) (s s' : State) :
  submit a now s = Some s' -> answers s' = answers s ++ [a].
Proof.
  unfold submit, startQuestion. simpl.
  destruct (currentQuestionIndex s <? List.length (questions s) - 1)%nat.
  - destruct (nth_error (questions s) (currentQuestionIndex s + 1)); [|discriminate].
    intro H. injection H as <-. reflexivity.
  - intro H. injection H as <-. reflexivity.
Qed.

(** [handleSubmitAnswer] has no such test: the record it builds is
    appended, so a question that already has a record gets one more. *)
Lemma handleSubmitAnswer_appends (now : Z) (s s' : State) (q : Question) :
  nth_error (questions s) (currentQuestionIndex s) = Some q ->
  handleSubmitAnswer now s = Some s' ->
  List.length (answersFor (q_id q) (answers s'))
  = S (List.length (answersFor (q_id q) (answers s))).
Proof.
  intros Hq H. unfold handleSubmitAnswer in H. rewrite Hq in H.
  destruct (submit _ now s) as [s1|] eqn:E; [|discriminate].
  injection H as <-. apply submit_answers in E. simpl. rewrite E.
  unfold answersFor. rewrite filter_app, length_app. simpl.
  rewrite String.eqb_refl. simpl. lia.
Qed.

(** C4 on the code: the first question is answered, the candidate
    goes on, comes back and answers it again.  The answer list then
    holds two records for that question, the old text and the new one,
    and the interview (two questions) completes with four answers. *)
Theorem resubmission_leaves_two_records :
  exists s s',
    run (mounted Examples.twoQuestions) Examples.backAndForth = Some s
    /\ map (fun a => (questionId a, answer a)) (answers s)
       = [ ("coding_0_1700000000000", "first");
           ("dsa_0_1700000000000", "");
           ("coding_0_1700000000000", "second") ]%string
    /\ map answer (answersFor (q_id Examples.q1) (answers s)) = ["first"; "second"]%string
    /\ step s (ClickSubmit 130000) = Some s'
    /\ map (map answer) (completions s') = [["first"; ""; "second"; ""]]%string
    /\ option_map questionsAttempted
                  (interviewResults (Examples.interviewConfig 2) Examples.twoQuestions
                                    Examples.noDraw (answers s')) = Some 4%nat.
Proof.
  destruct (run (mounted Examples.twoQuestions) Examples.backAndForth) as [s|] eqn:E;
    [|vm_compute in E; discriminate].
  destruct (step s (ClickSubmit 130000)) as [s'|] eqn:E';
    [|vm_compute in E; injection E as <-; vm_compute in E'; discriminate].
  exists s, s'.
  vm_compute in E. injection E as <-.
  vm_compute in E'. injection E' as <-.
  repeat split; vm_compute; reflexivity.
Qed.

Lemma findQuestion_member (qs : list Question) (q : Question) :
  In q qs -> exists q', findQuestion qs (q_id q) = Some q'.
Proof.
  unfold findQuestion. induction qs as [|q0 qs IH]; intros Hin; [destruct Hin|].
  simpl. destruct (String.eqb (q_id q0) (q_id q)) eqn:E.
  - exists q0. reflexivity.
  - destruct Hin as [-> | Hin]; [rewrite String.eqb_refl in E; discriminate|].
    exact (IH Hin).
Qed.

Lemma answersKnown_app (qs : list Question) (l : list Answer) (a : Answer) :
  answersKnown qs l ->
  (exists q, findQuestion qs (questionId a) = Some q) ->
  answersKnown qs (l ++ [a]).
Proof.
  intros Hl Ha b Hin. apply in_app_or in Hin.
  destruct Hin as [Hin | [<- | []]]; [exact (Hl b Hin) | exact Ha].
Qed.

Lemma answersKnown_upsert (qs : list Question) (l : list Answer) (t : Answer) :
  answersKnown qs l ->
  (exists q, findQuestion qs (questionId t) = Some q) ->
  answersKnown qs (upsert t l).
Proof.
  intros Hl Ht. induction l as [|a l IH]; simpl.
  - intros b [<- | []]. exact Ht.
  - destruct (String.eqb (questionId a) (questionId t)).
    + intros b [<- | Hin]; [exact Ht | exact (Hl b (or_intror Hin))].
    + intros b [<- | Hin]; [exact (Hl _ (or_introl eq_refl))|].
      exact (IH (fun c Hc => Hl c (or_intror Hc)) b Hin).
Qed.

Lemma startQuestion_inv (qs : list Question) (index : nat) (now : Z) (s s' : State) :
  session_inv qs s -> startQuestion index now s = Some s' -> session_inv qs s'.
Proof.
  intros H E. unfold startQuestion in E.
  destruct (nth_error (questions s) index); [|discriminate].
  injection E as <-. exact H.
Qed.

Lemma submit_inv (qs : list Question) (a : Answer) (now : Z) (s s' : State) :
  session_inv qs s ->
  (exists q, findQuestion qs (questionId a) = Some q) ->
  submit a now s = Some s' -> session_inv qs s'.
Proof.
  intros (Hq & Ha & Hc) Hknown E. unfold submit in E.
  assert (Hnew : answersKnown qs (answers s ++ [a]))
    by exact (answersKnown_app qs _ a Ha Hknown).
  destruct (currentQuestionIndex s <? List.length (questions s) - 1)%nat.
  - refine (startQuestion_inv qs _ _ (set_answers (answers s ++ [a]) s) _ _ E).
    exact (conj Hq (conj Hnew Hc)).
  - injection E as <-. split; [exact Hq|]. split; [exact Hnew|].
    simpl. apply Forall_app. split; [exact Hc|]. constructor; [exact Hnew | constructor].
Qed.

Lemma current_question_known (qs : list Question) (s : State) (q : Question) :
  questions s = qs ->
  nth_error (questions s) (currentQuestionIndex s) = Some q ->
  exists q', findQuestion qs (q_id q) = Some q'.
Proof.
  intros <- Hn. apply findQuestion_member. exact (nth_error_In _ _ Hn).
Qed.

Lemma step_session_inv (qs : list Question) (s s' : State) (e : Event) :
  session_inv qs s -> step s e = Some s' -> session_inv qs s'.
Proof.
  intros H E. pose proof H as (Hq & Ha & Hc). destruct e as [now|value|now|now|now]; simpl in E.
  - destruct (interviewState s); try (injection E as <-; exact H).
    exact (startQuestion_inv qs O now (set_interviewState active s) s' H E).
  - destruct (questionCard s && negb (isSubmitting s)); injection E as <-; exact H.
  - destruct (questionCard s && negb (isSubmitting s)); [|injection E as <-; exact H].
    unfold handleSubmitAnswer in E.
    destruct (nth_error (questions s) (currentQuestionIndex s)) as [q|] eqn:Hn; [|discriminate].
    destruct (submit _ now s) as [s1|] eqn:E1; [|discriminate].
    injection E as <-.
    assert (H1 : session_inv qs s1).
    { eapply submit_inv; [exact H | | exact E1].
      exact (current_question_known qs s q Hq Hn). }
    exact H1.
  - destruct (questionCard s && _); [|injection E as <-; exact H].
    unfold handlePreviousQuestion in E.
    destruct (0 <? currentQuestionIndex s)%nat; [|injection E as <-; exact H].
    destruct (nth_error (questions s) (currentQuestionIndex s)) as [q|] eqn:Hn; [|discriminate].
    destruct (startQuestion _ now _) as [s1|] eqn:E1; [|discriminate].
    assert (H1 : session_inv qs s1).
    { apply (startQuestion_inv qs _ _ _ _) in E1; [exact E1|].
      split; [exact Hq|]. split; [|exact Hc]. simpl.
      apply answersKnown_upsert; [exact Ha|].
      exact (current_question_known qs s q Hq Hn). }
    destruct (nth_error (questions s) (currentQuestionIndex s - 1)); [|discriminate].
    destruct (find _ (answers s)); injection E as <-; exact H1.
  - unfold timerEffect in E.
    destruct (interviewState s); try (injection E as <-; exact H).
    destruct (0 <? timeRemaining s); [injection E as <-; exact H|].
    destruct (timeRemaining s =? 0); [|injection E as <-; exact H].
    unfold handleAutoSubmit in E.
    destruct (nth_error (questions s) (currentQuestionIndex s)) as [q|] eqn:Hn; [|discriminate].
    eapply submit_inv; [exact H | | exact E].
    exact (current_question_known qs s q Hq Hn).
Qed.

(** Whatever the candidate does, every answer list handed to
    [completeInterview] names generated questions only, so
    [processAnswers] does not raise on it. *)
Lemma completed_answers_known (qs : list Question) (events : list Event) (s : State) :
  run (mounted qs) events = Some s ->
  Forall (answersKnown qs) (completions s).
Proof.
  assert (H0 : session_inv qs (mounted qs)).
  { split; [reflexivity|]. split; [intros a [] | constructor]. }
  revert H0. generalize (mounted qs). clear.
  induction events as [|e events IH]; intros s0 H0 E; simpl in E.
  - injection E as <-. apply H0.
  - destruct (step s0 e) as [s1|] eqn:E1; [|discriminate].
    exact (IH s1 (step_session_inv qs _ _ _ H0 E1) E).
Qed.

End InterviewNavigation.

(* ------------------------------------------------------------------ *)
(** ** Coordinator: the ATS gate *)

Module CoordinatorGate.
Import JS JSFacts TestCoordinator.

Lemma updatePhase_noActive (id : PhaseId) (ok : bool) (r : PhaseResults)
      (phases : list TestPhase) :
  (forall p, In p phases -> status p <> active) ->
  forall p, In p (updatePhase id ok r phases) -> status p <> active.
Proof.
  intros H p Hin. unfold updatePhase in Hin. apply in_map_iff in Hin.
  destruct Hin as (p0 & <- & Hin0).
  destruct (PhaseId_eqb (phase_id p0) id); [|exact (H _ Hin0)].
  simpl. destruct ok; discriminate.
Qed.

Lemma dispatch_noActive (s : State) (e : Event) :
  noActivePhase s -> noActivePhase (dispatch s e).
Proof.
  intro H. unfold dispatch.
  destruct e, (view s); try exact H.
  - destruct (overallResults s); [exact H|].
    destruct (_ && _); [|exact H].
    unfold startNextPhase. destruct (find _ _); exact H.
  - unfold handleTypingTestComplete.
    assert (H1 : noActivePhase
                   (set_testPhases (updatePhase typing_test (TypingTest.passed r)
                                                (TypingResults r) (testPhases s)) s)).
    { unfold noActivePhase; simpl. apply updatePhase_noActive. exact H. }
    destruct (TypingTest.passed r); [destruct (find _ _)|]; exact H1.
  - unfold noActivePhase; simpl. apply updatePhase_noActive. exact H.
  - destruct (0 <? pendingTimeouts s)%nat; exact H.
  - destruct (0 <? pendingTimeouts s)%nat; exact H.
  - destruct (0 <? pendingTimeouts s)%nat; exact H.
  - destruct (0 <? pendingTimeouts s)%nat; exact H.
Qed.

Lemma step_noActive (s : State) (e : Event) :
  noActivePhase s -> noActivePhase (step s e).
Proof.
  intro H. unfold step.
  destruct (showsInterview (dispatch s e) && negb (showsInterview s));
    exact (dispatch_noActive s e H).
Qed.

(** A phase never has the status [active], in any session. *)
Lemma never_active (job : option JobData) (application : option ApplicationData)
      (events : list Event) :
  Forall noActivePhase (trace (initializeTest job application initial) events).
Proof.
  assert (H0 : noActivePhase (initializeTest job application initial)).
  { unfold initializeTest.
    destruct job as [jobData|], application as [applicationData|];
      try (intros p []).
    destruct (Qlt_bool _ _); [intros p []|].
    intros p Hin. simpl in Hin.
    destruct (Qge_bool _ _), (typing_test_enabled jobData); simpl in Hin;
      repeat (destruct Hin as [<- | Hin]); try discriminate; destruct Hin. }
  revert H0. generalize (initializeTest job application initial).
  induction events as [|e events IH]; intros s H; simpl.
  - constructor; [exact H | constructor].
  - constructor; [exact H|]. apply IH. apply step_noActive. exact H.
Qed.

(** The state [initializeTest] leaves when the ATS score is too low:
    still loading, and one toast. *)
Lemma initializeTest_gated (jobData : JobData) (applicationData : ApplicationData) :
  (or_else (ai_score applicationData) 0%Q < ats_minimum_score jobData)%Q ->
  initializeTest (Some jobData) (Some applicationData) initial
  = add_toast (AtsScoreRequirementNotMet (ats_minimum_score jobData)
                                         (or_else (ai_score applicationData) 0%Q))
              initial.
Proof.
  intro H. unfold initializeTest. apply Qlt_bool_iff in H. rewrite H. reflexivity.
Qed.

(** Nothing on the loading card can be operated. *)
Lemma loading_is_stuck (s : State) (e : Event) :
  view s = LoadingView -> pendingTimeouts s = O -> step s e = s.
Proof.
  intros Hv Ht.
  assert (Hd : dispatch s e = s).
  { unfold dispatch. rewrite Hv, Ht. destruct e; reflexivity. }
  unfold step. rewrite Hd. unfold showsInterview. rewrite Hv. reflexivity.
Qed.

Lemma stuck_trace (s : State) (events : list Event) :
  (forall e, step s e = s) -> Forall (fun s' => s' = s) (trace s events).
Proof.
  intro H. induction events as [|e events IH]; simpl.
  - constructor; [reflexivity | constructor].
  - constructor; [reflexivity|]. rewrite H. exact IH.
Qed.

(** The overview guards the Start Next Phase button a second time:
    were a configuration loaded with an ATS score below the minimum,
    the button would not be rendered. *)
Lemma overview_gate (s : State) (config : JobConfig) (candidate : CandidateInfo) :
  view s = OverviewView config candidate ->
  (atsScore candidate < atsMinimumScore config)%Q ->
  dispatch s ClickStartNextPhase = s.
Proof.
  intros Hv Hlt. unfold dispatch. rewrite Hv.
  destruct (overallResults s); [reflexivity|].
  apply Qlt_bool_iff in Hlt. unfold Qlt_bool in Hlt. apply negb_true_iff in Hlt.
  unfold Qge_bool. rewrite Hlt. reflexivity.
Qed.

(** C5: when the candidate's ATS score is below the job's minimum,
    [initializeTest] raises the rejection toast and returns; whatever
    happens afterwards the component stays in that state: no phase is
    active, the typing test and the interview are never on screen, the
    overall outcome is false and no interview is mounted, so question
    generation never runs. *)
Theorem ats_gate_is_terminal :
  forall (jobData : JobData) (applicationData : ApplicationData) (events : list Event),
    let score := or_else (ai_score applicationData) 0%Q in
    let s0 := initializeTest (Some jobData) (Some applicationData) initial in
    (score < ats_minimum_score jobData)%Q ->
    Forall (fun s =>
              s = s0
              /\ phaseActive typing_test s = false
              /\ phaseActive ai_interview s = false
              /\ currentPhase s = overview
              /\ view s = LoadingView
              /\ overallOutcome s = false
              /\ questionGenerations s = O
              /\ toasts s = [AtsScoreRequirementNotMet (ats_minimum_score jobData) score])
           (trace s0 events).
Proof.
  intros jobData applicationData events score s0 Hlt.
  assert (Hs0 : s0 = add_toast (AtsScoreRequirementNotMet (ats_minimum_score jobData) score)
                               initial)
    by exact (initializeTest_gated jobData applicationData Hlt).
  assert (Hstuck : forall e, step s0 e = s0).
  { intro e. apply loading_is_stuck; rewrite Hs0; reflexivity. }
  eapply Forall_impl; [|exact (stuck_trace s0 events Hstuck)].
  intros s ->. split; [reflexivity|]. rewrite Hs0. repeat split.
Qed.

Lemma ats_gate_is_terminal_witness :
  let s0 := initializeTest (Some (Examples.jobRow 60)) (Some (Examples.applicationRow 40))
                           initial in
  Forall (fun s => overallOutcome s = false
                   /\ questionGenerations s = O
                   /\ toasts s = [AtsScoreRequirementNotMet 60 40])
         (trace s0 Examples.insistentCandidate).
Proof.
  intro s0.
  eapply Forall_impl;
    [|exact (ats_gate_is_terminal (Examples.jobRow 60) (Examples.applicationRow 40)
                                  Examples.insistentCandidate eq_refl)].
  intros s (_ & _ & _ & _ & _ & H1 & H2 & H3). split; [exact H1|]. split; [exact H2 | exact H3].
Defined.

(** With a sufficient ATS score the same coordinator does mount the
    interview, once. *)
Lemma sufficient_score_reaches_interview :
  let s := run (initializeTest (Some (Examples.jobRow 60)) (Some (Examples.applicationRow 75))
                               initial)
               Examples.ordinaryCourse in
  currentPhase s = phase ai_interview /\ questionGenerations s = 1%nat.
Proof. split; reflexivity. Qed.

End CoordinatorGate.
(* ------------------------------------------------------------------ *)
(** ** Typing test: sessions from start to completion *)

Module TypingTestSessions.
Import JS JSFacts TypingTest TypingTestDisplay.

Ltac handler_cases :=
  repeat match goal with
         | |- context [match testState ?s with _ => _ end] => destruct (testState s) eqn:?
         | |- context [if ?b then _ else _] => destruct b eqn:?
         end.

(** Once finished, the component ignores every event. *)
Lemma completed_is_stuck (config : Config) (s : State) (e : Event) :
  testState s = completed -> step config s e = s.
Proof.
  intro H. destruct e; simpl; unfold timerEffect, handleFocusLoss; rewrite H; reflexivity.
Qed.

Lemma completed_run (config : Config) (events : list Event) (s : State) :
  testState s = completed -> run config s events = s.
Proof.
  intro H. induction events as [|e events IH]; simpl; [reflexivity|].
  rewrite (completed_is_stuck config s e H). exact IH.
Qed.

Lemma run_app (config : Config) (s : State) (l1 l2 : list Event) :
  run config s (l1 ++ l2) = run config (run config s l1) l2.
Proof. unfold run. apply fold_left_app. Qed.

Lemma run_cons (config : Config) (s : State) (e : Event) (l : list Event) :
  run config s (e :: l) = run config (step config s e) l.
Proof. reflexivity. Qed.

Lemma step_completion_inv (config : Config) (s : State) (e : Event) :
  completion_inv s -> completion_inv (step config s e).
Proof.
  unfold completion_inv. intro H.
  destruct (testState s) eqn:Hs.
  - destruct e; simpl; unfold timerEffect, handleFocusLoss; rewrite Hs; simpl;
      try rewrite Hs; exact H.
  - destruct e as [now|newInput now|now| |now]; simpl;
      unfold timerEffect, handleFocusLoss, handleInputChange; rewrite Hs.
    + rewrite Hs. exact H.
    + destruct (fraudDetectionEnabled config);
        destruct (String.length (currentText s) <=? String.length newInput)%nat;
        simpl; rewrite ?Hs, ?H; reflexivity.
    + destruct (0 <? timeRemaining s); [simpl; rewrite Hs; exact H|].
      destruct (timeRemaining s =? 0); simpl; rewrite ?Hs, ?H; reflexivity.
    + simpl. rewrite Hs. exact H.
    + simpl. rewrite H. reflexivity.
  - rewrite (completed_is_stuck config s e Hs), Hs. exact H.
Qed.

Lemma run_completion_inv (config : Config) (events : list Event) (s : State) :
  completion_inv s -> completion_inv (run config s events).
Proof.
  revert s. induction events as [|e events IH]; intros s H; simpl; [exact H|].
  apply IH, step_completion_inv, H.
Qed.

(** X1: a typing test reports at most one result, it is finished
    exactly when it has reported one, and a finished test ignores
    everything that follows: the session ends in the state it had when
    it finished. *)
Theorem completion_is_final :
  forall (config : Config) (r : nat) (before after : list Event),
    let s := run config (init config r) before in
    (List.length (completions (run config (init config r) (before ++ after))) <= 1)%nat
    /\ (testState s = completed <-> completions s <> [])
    /\ (testState s = completed ->
        run config (init config r) (before ++ after) = s).
Proof.
  intros config r before after s.
  assert (Hinv : forall events, completion_inv (run config (init config r) events)).
  { intro events. apply run_completion_inv. reflexivity. }
  split; [|split].
  - specialize (Hinv (before ++ after)). unfold completion_inv in Hinv.
    destruct (testState _); rewrite Hinv; simpl; lia.
  - specialize (Hinv before). fold s in Hinv. unfold completion_inv in Hinv.
    destruct (testState s); split; intro H; try discriminate; try reflexivity;
      try (exfalso; apply H; exact Hinv).
    intro E. rewrite E in Hinv. discriminate.
  - intro H. rewrite run_app. apply completed_run. exact H.
Qed.

Lemma completion_is_final_witness :
  let s := run Examples.typingConfig (init Examples.typingConfig 0)
               (Examples.idleSession ++ [ClickSubmitEarly 3000]) in
  testState s = completed
  /\ run Examples.typingConfig (init Examples.typingConfig 0)
         ((Examples.idleSession ++ [ClickSubmitEarly 3000])
            ++ [InputChange "S" 3100; ClickSubmitEarly 3200; Timer 3300]) = s.
Proof.
  intro s.
  destruct (completion_is_final Examples.typingConfig 0
              (Examples.idleSession ++ [ClickSubmitEarly 3000])
              [InputChange "S" 3100; ClickSubmitEarly 3200; Timer 3300])
    as (_ & _ & H).
  split; [reflexivity | exact (H eq_refl)].
Defined.

End TypingTestSessions.

(* ------------------------------------------------------------------ *)
(** ** Typing test: what a session reports *)

Module TypingTestReports.
Import JS JSFacts TypingTest TypingTestDisplay TypingTestSessions.

Lemma paragraph_nonempty (r : nat) :
  (r < 3)%nat -> (0 < String.length (nth r TEST_PARAGRAPHS_technical EmptyString))%nat.
Proof.
  intro H. destruct r as [|[|[|r]]]; [| | |lia]; vm_compute; lia.
Qed.

Lemma step_currentText (config : Config) (s : State) (e : Event) :
  currentText (step config s e) = currentText s.
Proof.
  destruct e; simpl; unfold timerEffect, handleFocusLoss, handleInputChange;
    handler_cases; reflexivity.
Qed.

Lemma step_input_inv (config : Config) (s : State) (e : Event) :
  input_inv s -> input_inv (step config s e).
Proof.
  unfold input_inv. intro H.
  destruct (testState s) eqn:Hs.
  - destruct e; simpl; unfold timerEffect, handleFocusLoss; rewrite Hs; simpl;
      try rewrite Hs; exact H.
  - destruct e as [now|newInput now|now| |now]; simpl;
      unfold timerEffect, handleFocusLoss, handleInputChange; rewrite Hs.
    + rewrite Hs. exact H.
    + destruct (String.length (currentText s) <=? String.length newInput)%nat eqn:E;
        destruct (fraudDetectionEnabled config); simpl; rewrite ?Hs; try exact I;
        apply Nat.leb_gt in E; exact E.
    + destruct (0 <? timeRemaining s); [simpl; rewrite Hs; exact H|].
      destruct (timeRemaining s =? 0); simpl; rewrite ?Hs; [exact I | exact H].
    + simpl. rewrite Hs. exact H.
    + simpl. exact I.
  - rewrite (completed_is_stuck config s e Hs), Hs. exact I.
Qed.

Lemma run_input_inv (config : Config) (events : list Event) (s : State) :
  input_inv s -> input_inv (run config s events).
Proof.
  revert s. induction events as [|e events IH]; intros s H; simpl; [exact H|].
  apply IH, step_input_inv, H.
Qed.

(** X2: when an input event brings the input to the length of the
    reference text, the test is finished with the statistics of the
    input as it was before that event.  The new input is stored, but
    the reported [charactersTyped] is the old length, which is below
    the length of the text: a text typed to the end is never reported
    as fully typed. *)
Theorem final_keystroke_not_counted :
  forall (config : Config) (r : nat) (events : list Event) (newInput : string) (now : Z),
    let s := run config (init config r) events in
    let s' := step config s (InputChange newInput now) in
    (r < 3)%nat ->
    testState s = active ->
    (String.length (currentText s) <= String.length newInput)%nat ->
    testState s' = completed
    /\ userInput s' = newInput
    /\ completions s' = [(testResults config s now, false)]
    /\ r_charactersTyped (testResults config s now) = String.length (userInput s)
    /\ (r_charactersTyped (testResults config s now) < String.length (currentText s'))%nat.
Proof.
  intros config r events newInput now s s' Hr Hactive Hlen.
  assert (Hin : input_inv s).
  { apply run_input_inv. unfold input_inv; simpl. apply paragraph_nonempty. exact Hr. }
  assert (Hc : completion_inv s) by (apply run_completion_inv; reflexivity).
  unfold input_inv in Hin. unfold completion_inv in Hc. rewrite Hactive in Hin, Hc.
  assert (Htext : currentText s' = currentText s) by apply step_currentText.
  rewrite Htext. subst s'. simpl. rewrite Hactive. unfold handleInputChange.
  rewrite Hactive. apply Nat.leb_le in Hlen. rewrite Hlen.
  destruct (fraudDetectionEnabled config); simpl; rewrite Hc;
    repeat split; exact Hin.
Qed.

Lemma final_keystroke_not_counted_witness :
  let config := MoreExamples.shortConfig in
  let text := nth 0 TEST_PARAGRAPHS_technical EmptyString in
  let s := run config (init config 0) [ClickStart 1000] in
  let s' := step config s (InputChange text 31000) in
  userInput s' = text
  /\ completions s' = [(testResults config s 31000, false)]
  /\ r_charactersTyped (testResults config s 31000) = O
  /\ passed (testResults config s 31000) = false.
Proof.
  intros config text s s'.
  destruct (final_keystroke_not_counted config 0 [ClickStart 1000] text 31000)
    as (_ & H2 & H3 & H4 & _).
  - lia.
  - reflexivity.
  - apply Nat.le_refl.
  - split; [exact H2|]. split; [exact H3|]. split; [exact H4 | reflexivity].
Defined.

Lemma step_timer_inv (config : Config) (s : State) (e : Event) :
  timer_inv config s -> timer_inv config (step config s e).
Proof.
  unfold timer_inv. intro H.
  destruct e as [now|newInput now|now| |now]; simpl;
    unfold timerEffect, handleFocusLoss, handleInputChange.
  - handler_cases; exact H.
  - handler_cases; exact H.
  - destruct (testState s); try exact H.
    destruct (0 <? timeRemaining s) eqn:E.
    + apply Z.ltb_lt in E. simpl. lia.
    + destruct (timeRemaining s =? 0); exact H.
  - handler_cases; exact H.
  - handler_cases; exact H.
Qed.

Lemma run_timer_inv (config : Config) (events : list Event) (s : State) :
  timer_inv config s -> timer_inv config (run config s events).
Proof.
  revert s. induction events as [|e events IH]; intros s H; simpl; [exact H|].
  apply IH, step_timer_inv, H.
Qed.

(** X3: for a non-negative duration the countdown stays within
    [0, duration] throughout a session, so the [timeSpent] of every
    reported result lies between 0 and the duration. *)
Theorem timeSpent_within_duration :
  forall (config : Config) (r : nat) (events : list Event)
         (res : TypingTestResult) (auto : bool),
    0 <= duration config ->
    In (res, auto) (completions (run config (init config r) events)) ->
    0 <= timeRemaining (run config (init config r) events) <= duration config
    /\ 0 <= timeSpent res <= duration config.
Proof.
  intros config r events res auto Hd Hin.
  assert (Hinv : forall l, timer_inv config (run config (init config r) l)).
  { intro l. apply run_timer_inv. unfold timer_inv; simpl. lia. }
  split; [exact (Hinv events)|].
  destruct (TypingTestFraud.completions_are_testResults config r events res auto Hin)
    as (before & after & now & _ & ->).
  specialize (Hinv before). unfold timer_inv in Hinv. simpl. lia.
Qed.

Lemma timeSpent_within_duration_witness :
  let s := run Examples.typingConfig (init Examples.typingConfig 0)
               [ClickStart 1000; Timer 2000; Timer 3000; InputChange "S" 3100;
                ClickSubmitEarly 3500] in
  completions s <> []
  /\ forall res auto, In (res, auto) (completions s) -> 0 <= timeSpent res <= 60.
Proof.
  intro s. split; [vm_compute; discriminate|].
  intros res auto Hin.
  assert (Hd : 0 <= duration Examples.typingConfig) by (simpl; lia).
  exact (proj2 (timeSpent_within_duration Examples.typingConfig 0 _ res auto Hd Hin)).
Defined.

End TypingTestReports.

(* ------------------------------------------------------------------ *)
(** ** Typing test: countdown, logging and the fraud verdict *)

Module TypingTestTimerAndFraud.
Import JS JSFacts TypingTest TypingTestDisplay TypingTestSessions.

Lemma ticking (config : Config) (ticks : list Z) (s : State) :
  testState s = active ->
  Z.of_nat (List.length ticks) <= timeRemaining s ->
  run config s (map Timer ticks)
  = set_timeRemaining (timeRemaining s - Z.of_nat (List.length ticks)) s.
Proof.
  revert s. induction ticks as [|t ticks IH]; intros s Ha Hlen.
  - simpl. rewrite Z.sub_0_r. destruct s; reflexivity.
  - change (map Timer (t :: ticks)) with (Timer t :: map Timer ticks).
    rewrite run_cons.
    assert (Hstep : step config s (Timer t) = set_timeRemaining (timeRemaining s - 1) s).
    { simpl. unfold timerEffect. rewrite Ha.
      cbn [List.length] in Hlen.
      destruct (0 <? timeRemaining s) eqn:E; [reflexivity|].
      apply Z.ltb_ge in E. lia. }
    rewrite Hstep, IH.
    + unfold set_timeRemaining; simpl. f_equal. cbn [List.length]. lia.
    + exact Ha.
    + simpl. cbn [List.length] in Hlen. lia.
Qed.

(** X4: a candidate who starts the test and types nothing sees the
    countdown run: after [n <= duration] timer effects the test is
    still active with [duration - n] seconds left, and the effect that
    follows the last second finishes it as auto-submitted, with
    [timeSpent] equal to the whole duration, no character typed and an
    accuracy of 100. *)
Theorem countdown_completes :
  forall (config : Config) (r : nat) (start : Z) (ticks : list Z) (last : Z),
    let running := run config (init config r) (idleCountdown start ticks) in
    let finished := step config running (Timer last) in
    Z.of_nat (List.length ticks) <= duration config ->
    (testState running = active
     /\ timeRemaining running = duration config - Z.of_nat (List.length ticks)
     /\ completions running = [])
    /\ (Z.of_nat (List.length ticks) = duration config ->
        testState finished = completed
        /\ exists res,
            completions finished = [(res, true)]
            /\ timeSpent res = duration config
            /\ r_charactersTyped res = O
            /\ r_accuracy res = 100).
Proof.
  intros config r start ticks last running finished Hlen.
  assert (Hrun : running
                 = set_timeRemaining (duration config - Z.of_nat (List.length ticks))
                                     (startTest start (init config r))).
  { subst running. unfold idleCountdown. rewrite run_cons.
    change (step config (init config r) (ClickStart start))
      with (startTest start (init config r)).
    rewrite ticking; [reflexivity | reflexivity | exact Hlen]. }
  split.
  - rewrite Hrun. repeat split.
  - intro Hall. subst finished. rewrite Hrun. simpl. unfold timerEffect. simpl.
    rewrite Hall, Z.sub_diag. simpl. split; [reflexivity|].
    eexists. split; [reflexivity|]. simpl. repeat split. lia.
Qed.

Lemma countdown_completes_witness :
  let config := MoreExamples.shortConfig in
  let running := run config (init config 1) (idleCountdown 1000 [2000; 3000; 4000]) in
  testState running = active
  /\ timeRemaining running = 0
  /\ exists res, completions (step config running (Timer 4001)) = [(res, true)]
                 /\ timeSpent res = 3.
Proof.
  intros config running.
  destruct (countdown_completes config 1 1000 [2000; 3000; 4000] 4001) as [H1 H2].
  - simpl. lia.
  - destruct H1 as (Ha & Ht & _). destruct (H2 eq_refl) as (_ & res & Hc & Hs & _).
    split; [exact Ha|]. split; [exact Ht|]. exists res. split; [exact Hc | exact Hs].
Defined.

Lemma step_quiet_inv (config : Config) (s : State) (e : Event) :
  fraudDetectionEnabled config = false -> quiet_inv s -> quiet_inv (step config s e).
Proof.
  unfold quiet_inv. intros Hoff H.
  destruct e; simpl; unfold timerEffect, handleFocusLoss, handleInputChange;
    rewrite ?Hoff; handler_cases; exact H.
Qed.

Lemma run_quiet_inv (config : Config) (events : list Event) (s : State) :
  fraudDetectionEnabled config = false -> quiet_inv s -> quiet_inv (run config s events).
Proof.
  intro Hoff. revert s. induction events as [|e events IH]; intros s H; simpl; [exact H|].
  apply IH, step_quiet_inv; assumption.
Qed.

(** X5: with fraud detection disabled nothing is logged: the keystroke
    log and the alert list stay empty whatever the candidate does, so
    every reported result has [correctionsMade = 0], also after
    deletions, and no fraud indicator. *)
Theorem nothing_logged_without_detection :
  forall (config : Config) (r : nat) (events : list Event),
    let s := run config (init config r) events in
    fraudDetectionEnabled config = false ->
    keystrokeData s = []
    /\ fraudAlerts s = []
    /\ forall res auto,
        In (res, auto) (completions s) ->
        correctionsMade res = O /\ fraudIndicators res = [].
Proof.
  intros config r events s Hoff.
  assert (Hinv : forall l, quiet_inv (run config (init config r) l)).
  { intro l. apply run_quiet_inv; [exact Hoff | split; reflexivity]. }
  destruct (Hinv events) as [Hk Ha]. split; [exact Hk|]. split; [exact Ha|].
  intros res auto Hin.
  destruct (TypingTestFraud.completions_are_testResults config r events res auto Hin)
    as (before & after & now & _ & ->).
  destruct (Hinv before) as [Hk' _].
  unfold testResults; simpl. rewrite Hk'. unfold fraudAnalysis. rewrite Hoff.
  split; reflexivity.
Qed.

Lemma nothing_logged_without_detection_witness :
  let s := run Examples.typingConfigNoFraud (init Examples.typingConfigNoFraud 0)
               [ClickStart 1000; InputChange "Sx" 1200; InputChange "S" 1400;
                InputChange "So" 1600; FocusLoss; ClickSubmitEarly 2000] in
  focusLostCount s = 1%nat
  /\ completions s <> []
  /\ forall res auto,
      In (res, auto) (completions s) ->
      correctionsMade res = O /\ fraudIndicators res = [].
Proof.
  intro s.
  destruct (nothing_logged_without_detection Examples.typingConfigNoFraud 0
              [ClickStart 1000; InputChange "Sx" 1200; InputChange "S" 1400;
               InputChange "So" 1600; FocusLoss; ClickSubmitEarly 2000] eq_refl)
    as (_ & _ & H).
  split; [vm_compute; reflexivity|].
  split; [vm_compute; discriminate | exact H].
Defined.

(** The three rules as booleans. *)
Lemma fraud_threshold (config : Config) (s : State) :
  Qlt_bool (fst (fraudAnalysis config s)) (7 # 10)
  = negb (fraudDetectionEnabled config
          && Qlt_bool (avgTimeBetweenKeystrokes (keystrokeData s)) 50
          && (2 <? focusLostCount s)%nat
          && (0 <? List.length (fraudAlerts s))%nat).
Proof.
  unfold fraudAnalysis.
  destruct (fraudDetectionEnabled config); [|reflexivity].
  destruct (Qlt_bool _ 50); destruct (2 <? focusLostCount s)%nat;
    destruct (0 <? List.length (fraudAlerts s))%nat; reflexivity.
Qed.

Lemma fraud_range (config : Config) (s : State) :
  (0 <= fst (fraudAnalysis config s) <= 7 # 10)%Q.
Proof.
  unfold fraudAnalysis.
  destruct (fraudDetectionEnabled config); [|split; discriminate].
  destruct (Qlt_bool _ 50); destruct (2 <? focusLostCount s)%nat;
    destruct (0 <? List.length (fraudAlerts s))%nat; split; discriminate.
Qed.

Lemma count_le_length (m : string) (l : list string) :
  (count_msg m l <= List.length l)%nat.
Proof.
  unfold count_msg. induction l as [|a l IH]; simpl; [lia|].
  destruct (String.eqb m a); simpl; lia.
Qed.

(** X6: in every session the fraud score lies between 0 and 0.7, and
    the fraud check alone fails a candidate exactly when the average
    keystroke interval is below 50 ms and focus was lost more than
    twice: the result is passed if and only if speed and accuracy reach
    their minimums and not both of these hold (with detection enabled).
    A rapid-typing alert never changes the verdict. *)
Theorem fraud_verdict_in_sessions :
  forall (config : Config) (r : nat) (events : list Event) (now : Z),
    let s := run config (init config r) events in
    let res := testResults config s now in
    (0 <= fraudScore res <= 7 # 10)%Q
    /\ (passed res = true <->
        (minimumWpm config <= inject_Z (r_wpm res))%Q
        /\ (minimumAccuracy config <= inject_Z (r_accuracy res))%Q
        /\ ~ (fraudDetectionEnabled config = true
              /\ (avgTimeBetweenKeystrokes (keystrokeData s) < 50)%Q
              /\ (2 < focusLostCount s)%nat)).
Proof.
  intros config r events now s res.
  split.
  - subst res. rewrite TypingTestVerdict.fraudScore_unrounded. apply fraud_range.
  - destruct (TypingTestFraud.run_inv config events _
                (TypingTestFraud.alerts_inv_init config r)) as [_ HC].
    fold s in HC.
    assert (Halerts : fraudDetectionEnabled config = true ->
                      (2 <? focusLostCount s)%nat = true ->
                      (0 <? List.length (fraudAlerts s))%nat = true).
    { intros He Hf. apply Nat.ltb_lt in Hf. apply Nat.ltb_lt.
      pose proof (count_le_length msg_focus_lost (fraudAlerts s)) as Hle.
      rewrite (HC He) in Hle. lia. }
    subst res. unfold testResults; simpl.
    rewrite fraud_threshold, !andb_true_iff, !Qge_bool_iff, negb_true_iff.
    rewrite <- Qlt_bool_iff, <- Nat.ltb_lt.
    destruct (fraudDetectionEnabled config) eqn:He;
      destruct (Qlt_bool (avgTimeBetweenKeystrokes (keystrokeData s)) 50) eqn:Hb;
      destruct (2 <? focusLostCount s)%nat eqn:Hf;
      try rewrite (Halerts eq_refl eq_refl); simpl;
      intuition congruence.
Qed.

Lemma fraud_verdict_in_sessions_witness :
  let s := run Examples.typingConfig (init Examples.typingConfig 0) Examples.steadySession in
  passed (testResults Examples.typingConfig s 3000) = true.
Proof.
  intro s.
  destruct (fraud_verdict_in_sessions Examples.typingConfig 0 Examples.steadySession 3000)
    as [_ [_ H]].
  apply H. split; [vm_compute; discriminate|]. split; [vm_compute; discriminate|].
  intros (_ & _ & Hf). vm_compute in Hf. lia.
Defined.

End TypingTestTimerAndFraud.

(* ------------------------------------------------------------------ *)
(** ** Typing test: statistics of correct typing, and the display *)

Module TypingTestAccuracy.
Import JS JSFacts TypingTest TypingTestDisplay.

Lemma filter_shift (p : nat -> bool) (a n : nat) :
  List.length (filter p (seq (S a) n))
  = List.length (filter (fun i => p (S i)) (seq a n)).
Proof.
  revert a. induction n as [|n IH]; intro a; simpl; [reflexivity|].
  destruct (p (S a)); simpl; rewrite IH; reflexivity.
Qed.

(** The comparison, read character by character from the front. *)
Lemma matching_cons (a b : ascii) (s t : string) :
  matching_positions (String a s) (String b t)
  = ((if Ascii.eqb a b then 1 else 0) + matching_positions s t)%nat.
Proof.
  unfold matching_positions. simpl String.length.
  rewrite <- Nat.succ_min_distr. simpl seq. simpl filter.
  assert (H0 : same_char (String a s) (String b t) 0 = Ascii.eqb a b) by reflexivity.
  rewrite H0.
  assert (Hrest : List.length (filter (same_char (String a s) (String b t))
                                      (seq 1 (Nat.min (String.length s) (String.length t))))
                  = List.length (filter (same_char s t)
                                        (seq 0 (Nat.min (String.length s) (String.length t))))).
  { rewrite filter_shift. reflexivity. }
  destruct (Ascii.eqb a b); simpl; rewrite Hrest; reflexivity.
Qed.

Lemma matching_prefix (input text : string) :
  String.prefix input text = true ->
  matching_positions input text = String.length input.
Proof.
  revert text. induction input as [|a input IH]; intros text H.
  - reflexivity.
  - destruct text as [|b text]; [discriminate|].
    simpl in H. destruct (ascii_dec a b) as [->|]; [|discriminate].
    rewrite matching_cons, Ascii.eqb_refl, (IH _ H). reflexivity.
Qed.

Lemma prefix_length (input text : string) :
  String.prefix input text = true -> (String.length input <= String.length text)%nat.
Proof.
  revert text. induction input as [|a input IH]; intros text H; simpl; [lia|].
  destruct text as [|b text]; [discriminate|].
  simpl in H. destruct (ascii_dec a b); [|discriminate].
  simpl. specialize (IH _ H). lia.
Qed.

(** X7: as long as the input is a prefix of the reference text (every
    character typed so far is right) the statistics show no error and
    an accuracy of 100, and every typed character counts for the
    speed: [wpm = round((len(input) / 5) / elapsedMinutes)], the two
    quotients being those of JavaScript numbers. *)
Theorem correct_typing_is_fully_accurate :
  forall (start : option Z) (kd : list KeystrokeData) (now : Z) (input text : string),
    let st := calculateStats start kd now input text in
    String.prefix input text = true ->
    errorsCount st = O
    /\ accuracy st = 100
    /\ ((0 < timeElapsed start now)%Q ->
        wpm st
        = Math_round (fdiv (fdiv (inject_Z (Z.of_nat (String.length input))) 5)
                           (timeElapsed start now))).
Proof.
  intros start kd now input text st Hp.
  pose proof (matching_prefix input text Hp) as Hm.
  pose proof (prefix_length input text Hp) as Hl.
  subst st. unfold calculateStats; simpl.
  rewrite TypingTestStats.correctChars_matching, TypingTestStats.errors_mismatching, Hm.
  split; [lia|]. split.
  - destruct (0 <? String.length input)%nat eqn:E; [|reflexivity].
    apply Nat.ltb_lt in E.
    rewrite <- (Math_round_Z 100). apply InterviewScoring.Math_round_comp.
    assert (Hn : ~ (inject_Z (Z.of_nat (String.length input)) == 0)%Q).
    { change 0%Q with (inject_Z 0). rewrite inject_Z_injective. lia. }
    unfold fmul, fdiv.
    rewrite (round64_comp _ 100); [vm_compute; reflexivity|].
    rewrite (round64_comp _ 1); [vm_compute; reflexivity|].
    unfold Qdiv. apply Qmult_inv_r, Hn.
  - intro He. apply Qlt_bool_iff in He. rewrite He. reflexivity.
Qed.

Lemma correct_typing_is_fully_accurate_witness :
  let text := nth 2 TEST_PARAGRAPHS_technical EmptyString in
  let st := calculateStats (Some 1000) [] 61000 text text in
  let st7 := calculateStats (Some 1000) [] 2600 (substring 0 7 text) text in
  String.length text = 306%nat
  /\ errorsCount st = O /\ accuracy st = 100 /\ wpm st = 61
  /\ wpm st7 = 52.
Proof.
  intros text st st7.
  destruct (correct_typing_is_fully_accurate (Some 1000) [] 61000 text text)
    as (H1 & H2 & H3).
  - reflexivity.
  - destruct (correct_typing_is_fully_accurate (Some 1000) [] 2600 (substring 0 7 text) text)
      as (_ & _ & H7); [reflexivity|].
    split; [reflexivity|]. split; [exact H1|]. split; [exact H2|].
    split; [exact (eq_trans (H3 eq_refl) eq_refl) | exact (eq_trans (H7 eq_refl) eq_refl)].
Defined.

Lemma filter_below (p : nat -> bool) (m n : nat) :
  List.length (filter (fun i => negb (m <=? i)%nat && p i) (seq 0 n))
  = List.length (filter p (seq 0 (Nat.min m n))).
Proof.
  induction n as [|n IH]; [rewrite Nat.min_0_r; reflexivity|].
  rewrite seq_S, filter_app, length_app, IH. simpl.
  destruct (m <=? n)%nat eqn:E.
  - apply Nat.leb_le in E. simpl.
    rewrite (Nat.min_l m n), (Nat.min_l m (S n)) by lia. lia.
  - apply Nat.leb_gt in E. simpl.
    rewrite (Nat.min_r m n), (Nat.min_r m (S n)) by lia.
    rewrite seq_S, filter_app, length_app. simpl. reflexivity.
Qed.

Lemma countStatus_map (st : CharacterStatus) (f : nat -> CharacterStatus) (l : list nat) :
  countStatus st (map f l) = List.length (filter (fun i => CharacterStatus_eqb st (f i)) l).
Proof.
  unfold countStatus. induction l as [|i l IH]; simpl; [reflexivity|].
  destruct (CharacterStatus_eqb st (f i)); simpl; rewrite IH; reflexivity.
Qed.

Lemma filter_length_ext (p q : nat -> bool) (l : list nat) :
  (forall i, p i = q i) ->
  List.length (filter p l) = List.length (filter q l).
Proof. intro H. rewrite (filter_ext p q H). reflexivity. Qed.

Lemma countStatus_total (l : list CharacterStatus) :
  (countStatus correct l + countStatus incorrect l + countStatus pending l
   = List.length l)%nat.
Proof.
  unfold countStatus. induction l as [|st l IH]; [reflexivity|].
  destruct st; simpl; lia.
Qed.

(** X8: the colouring of the reference text agrees with the
    statistics: the characters shown as correct are as many as
    [correctChars], those shown as incorrect as many as the reported
    errors, and every character of the text has one of the three
    statuses. *)
Theorem display_agrees_with_statistics :
  forall (start : option Z) (kd : list KeystrokeData) (now : Z) (input text : string),
    let shown := displayedStatuses input text in
    countStatus correct shown = fst (compare_loop input text)
    /\ countStatus incorrect shown
       = errorsCount (calculateStats start kd now input text)
    /\ (countStatus correct shown + countStatus incorrect shown
        + countStatus pending shown = String.length text)%nat.
Proof.
  intros start kd now input text shown.
  assert (Hc : countStatus correct shown = fst (compare_loop input text)).
  { subst shown. unfold displayedStatuses. rewrite countStatus_map.
    unfold compare_loop. rewrite TypingTestStats.compare_fold. simpl.
    rewrite <- (filter_below (same_char input text)).
    apply filter_length_ext. intro i. unfold getCharacterStatus.
    destruct (String.length input <=? i)%nat; [reflexivity|].
    destruct (same_char input text i); reflexivity. }
  assert (He : countStatus incorrect shown = snd (compare_loop input text)).
  { subst shown. unfold displayedStatuses. rewrite countStatus_map.
    unfold compare_loop. rewrite TypingTestStats.compare_fold. simpl.
    rewrite <- (filter_below (fun i => negb (same_char input text i))).
    apply filter_length_ext. intro i. unfold getCharacterStatus.
    destruct (String.length input <=? i)%nat; [reflexivity|].
    destruct (same_char input text i); reflexivity. }
  split; [exact Hc|]. split; [exact He|].
  rewrite (countStatus_total shown). subst shown. unfold displayedStatuses.
  rewrite length_map, length_seq. reflexivity.
Qed.

End TypingTestAccuracy.

(* ------------------------------------------------------------------ *)
(** ** Interview: going through the questions *)

Module InterviewCourse.
Import AIInterview InterviewSessions.

Lemma skipn_nth (A : Type) (l : list A) (k : nat) (x : A) :
  nth_error l k = Some x -> skipn k l = x :: skipn (S k) l.
Proof.
  revert k. induction l as [|y l IH]; intros [|k] H; try discriminate.
  - injection H as ->. reflexivity.
  - simpl in H. change (skipn k l = x :: skipn (S k) l). exact (IH k H).
Qed.

Lemma nth_in_range (A : Type) (l : list A) (k : nat) :
  (k < List.length l)%nat -> exists x, nth_error l k = Some x.
Proof.
  intro H. destruct (nth_error l k) as [x|] eqn:E; [exists x; reflexivity|].
  apply nth_error_None in E. lia.
Qed.

Lemma run_app_some (s s1 : State) (l1 l2 : list Event) :
  run s l1 = Some s1 -> run s (l1 ++ l2) = run s1 l2.
Proof.
  revert s. induction l1 as [|e l1 IH]; intros s H; simpl in *.
  - injection H as ->. reflexivity.
  - destruct (step s e) as [s'|]; [exact (IH s' H) | discriminate].
Qed.

(** One question answered by hand: the text is typed, then submitted. *)
Lemma answer_one (s : State) (q : Question) (text : string) (now : Z) :
  interviewState s = active ->
  isSubmitting s = false ->
  nth_error (questions s) (currentQuestionIndex s) = Some q ->
  run s [AnswerChange text; ClickSubmit now]
  = option_map (set_isSubmitting false)
      (submit {| questionId := q_id q; answer := text;
                 timeSpent := (now - questionStartTime s) / 1000;
                 autoSubmitted := false; timestamp := now |}
              now (set_currentAnswer text s)).
Proof.
  intros Ha Hs Hq.
  assert (Hcard : questionCard s = true).
  { unfold questionCard. rewrite Ha, Hq. reflexivity. }
  cbn [run step]. rewrite Hcard, Hs. cbn [andb negb].
  unfold handleAnswerChange.
  assert (Hcard' : questionCard (set_currentAnswer text s) = true) by exact Hcard.
  rewrite Hcard'. cbn [isSubmitting set_currentAnswer andb negb].
  rewrite Hs. cbn [andb negb]. unfold handleSubmitAnswer.
  cbn [questions currentQuestionIndex set_currentAnswer]. rewrite Hq.
  destruct (option_map _ _); reflexivity.
Qed.

Lemma forward (inputs : list (string * Z)) :
  forall s : State,
    interviewState s = active ->
    isSubmitting s = false ->
    inputs <> [] ->
    (currentQuestionIndex s + List.length inputs = List.length (questions s))%nat ->
    exists s',
      run s (flat_map (fun p => [AnswerChange (fst p); ClickSubmit (snd p)]) inputs) = Some s'
      /\ interviewState s' = completed
      /\ map questionId (answers s')
         = map questionId (answers s) ++ map q_id (skipn (currentQuestionIndex s) (questions s))
      /\ map answer (answers s') = map answer (answers s) ++ map fst inputs
      /\ map autoSubmitted (answers s')
         = map autoSubmitted (answers s) ++ map (fun _ => false) inputs
      /\ completions s' = completions s ++ [answers s'].
Proof.
  induction inputs as [|[text now] rest IH]; intros s Ha Hs Hne Hlen; [congruence|].
  destruct (nth_in_range _ (questions s) (currentQuestionIndex s)) as [q Hq];
    [cbn [List.length] in Hlen; lia|].
  change (flat_map (fun p => [AnswerChange (fst p); ClickSubmit (snd p)])
                   ((text, now) :: rest))
    with ([AnswerChange text; ClickSubmit now]
            ++ flat_map (fun p => [AnswerChange (fst p); ClickSubmit (snd p)]) rest).
  set (a := {| questionId := q_id q; answer := text;
               timeSpent := (now - questionStartTime s) / 1000;
               autoSubmitted := false; timestamp := now |}).
  destruct rest as [|p rest].
  - (* the last question *)
    rewrite app_nil_r, (answer_one s q text now Ha Hs Hq). fold a.
    unfold submit. cbn [currentQuestionIndex questions set_currentAnswer set_answers].
    assert (Hlast : (currentQuestionIndex s <? List.length (questions s) - 1)%nat = false).
    { apply Nat.ltb_ge. cbn [List.length] in Hlen. lia. }
    rewrite Hlast. cbn [option_map].
    assert (Hskip : skipn (currentQuestionIndex s) (questions s) = [q]).
    { rewrite (skipn_nth _ _ _ _ Hq). f_equal.
      apply skipn_all2. cbn [List.length] in Hlen. lia. }
    eexists. split; [reflexivity|]. rewrite Hskip.
    cbn. rewrite !map_app. repeat split.
  - (* another question follows *)
    destruct (nth_in_range _ (questions s) (currentQuestionIndex s + 1)) as [q' Hq'];
      [cbn [List.length] in Hlen; lia|].
    set (s2 := {| interviewState := active; questions := questions s;
                  currentQuestionIndex := (currentQuestionIndex s + 1)%nat;
                  answers := answers s ++ [a];
                  currentAnswer := EmptyString; questionStartTime := now;
                  timeRemaining := timeLimit q'; isSubmitting := false;
                  completions := completions s |}).
    assert (Hone : run s [AnswerChange text; ClickSubmit now] = Some s2).
    { rewrite (answer_one s q text now Ha Hs Hq). fold a.
      unfold submit. cbn [currentQuestionIndex questions set_currentAnswer set_answers].
      assert (Hmore : (currentQuestionIndex s <? List.length (questions s) - 1)%nat = true).
      { apply Nat.ltb_lt. cbn [List.length] in Hlen. lia. }
      rewrite Hmore. unfold startQuestion.
      cbn [questions set_answers set_currentAnswer]. rewrite Hq'.
      cbn. rewrite Ha. reflexivity. }
    destruct (IH s2) as (s' & Hrun & Hdone & Hids & Htexts & Hauto & Hcompl).
    + reflexivity.
    + reflexivity.
    + discriminate.
    + subst s2. cbn [currentQuestionIndex questions List.length] in *. lia.
    + exists s'. split.
      * rewrite (run_app_some _ _ _ _ Hone). exact Hrun.
      * split; [exact Hdone|].
        subst s2. cbn [answers currentQuestionIndex questions completions] in *.
        rewrite Hids, Htexts, Hauto, Hcompl, !map_app, (skipn_nth _ _ _ _ Hq).
        replace (S (currentQuestionIndex s)) with (currentQuestionIndex s + 1)%nat by lia.
        cbn [map app fst autoSubmitted answer questionId]. subst a.
        cbn [map app fst autoSubmitted answer questionId].
        rewrite <- !app_assoc. repeat split.
Qed.

(** X9: a candidate who starts the interview and answers the questions
    one after the other, without going back, ends with exactly one
    record per question, in the order of the questions and with the
    texts typed, none of them auto-submitted; the interview is then
    completed and [completeInterview] has been called once, with
    exactly these records. *)
Theorem straight_through_session :
  forall (qs : list Question) (start : Z) (inputs : list (string * Z)),
    qs <> [] ->
    List.length inputs = List.length qs ->
    exists s,
      run (mounted qs) (straightThrough start inputs) = Some s
      /\ interviewState s = completed
      /\ map questionId (answers s) = map q_id qs
      /\ map answer (answers s) = map fst inputs
      /\ Forall (fun a => autoSubmitted a = false) (answers s)
      /\ completions s = [answers s].
Proof.
  intros qs start inputs Hqs Hlen.
  destruct qs as [|q0 qs']; [congruence|].
  set (qs := q0 :: qs') in *.
  set (s0 := {| interviewState := active; questions := qs; currentQuestionIndex := O;
                answers := []; currentAnswer := EmptyString; questionStartTime := start;
                timeRemaining := timeLimit q0; isSubmitting := false;
                completions := [] |}).
  destruct (forward inputs s0) as (s & Hrun & Hdone & Hids & Htexts & Hauto & Hcompl).
  - reflexivity.
  - reflexivity.
  - destruct inputs; [discriminate | discriminate].
  - cbn. exact Hlen.
  - exists s. split.
    + unfold straightThrough. cbn [run step mounted interviewState].
      unfold startInterview, startQuestion. cbn. exact Hrun.
    + split; [exact Hdone|]. cbn in Hids, Htexts, Hauto, Hcompl.
      split; [exact Hids|]. split; [exact Htexts|]. split; [|exact Hcompl].
      clear - Hauto. revert Hauto. generalize (answers s) as l.
      induction inputs as [|p inputs IH]; intros [|a l] H; try discriminate; constructor.
      * cbn in H. congruence.
      * apply IH. cbn in H. congruence.
Qed.

Lemma straight_through_session_witness :
  exists s,
    run (mounted Examples.twoQuestions)
        (straightThrough 1000 [("arrays"%string, 61000); ("trees"%string, 122000)]) = Some s
    /\ map questionId (answers s) = map q_id Examples.twoQuestions
    /\ map answer (answers s) = ["arrays"; "trees"]%string
    /\ completions s = [answers s].
Proof.
  destruct (straight_through_session Examples.twoQuestions 1000
              [("arrays"%string, 61000); ("trees"%string, 122000)])
    as (s & H1 & _ & H3 & H4 & _ & H6).
  - discriminate.
  - reflexivity.
  - exists s. split; [exact H1|]. split; [exact H3|]. split; [exact H4 | exact H6].
Defined.

End InterviewCourse.

(* ------------------------------------------------------------------ *)
(** ** Interview: timeout, going back, and an empty question list *)

Module InterviewHandlers.
Import AIInterview InterviewSessions InterviewCourse.

(** X10: when the countdown of a question reaches zero the timer
    effect records the current text exactly as the Next button would,
    except that the record is marked [autoSubmitted] and its
    [timeSpent] is the whole time limit; after either event the
    interview is at the same question, in the same state. *)
Theorem timeout_submits_like_the_button :
  forall (s : State) (now : Z) (q : Question),
    interviewState s = active ->
    isSubmitting s = false ->
    timeRemaining s = 0 ->
    nth_error (questions s) (currentQuestionIndex s) = Some q ->
    exists s1 s2 a1 a2,
      step s (ClickSubmit now) = Some s1
      /\ step s (Timer now) = Some s2
      /\ answers s1 = answers s ++ [a1]
      /\ answers s2 = answers s ++ [a2]
      /\ (questionId a2 = q_id q /\ answer a2 = currentAnswer s
          /\ timeSpent a2 = timeLimit q /\ autoSubmitted a2 = true)
      /\ (questionId a1 = q_id q /\ answer a1 = currentAnswer s
          /\ timeSpent a1 = (now - questionStartTime s) / 1000 /\ autoSubmitted a1 = false)
      /\ interviewState s2 = interviewState s1
      /\ currentQuestionIndex s2 = currentQuestionIndex s1
      /\ currentAnswer s2 = currentAnswer s1
      /\ timeRemaining s2 = timeRemaining s1
      /\ List.length (completions s2) = List.length (completions s1).
Proof.
  intros s now q Ha Hs Ht Hq.
  assert (Hcard : questionCard s = true).
  { unfold questionCard. rewrite Ha, Hq. reflexivity. }
  cbn [step]. unfold timerEffect. rewrite Hcard, Hs, Ha, Ht. cbn [andb negb Z.ltb Z.eqb Z.compare].
  unfold handleSubmitAnswer, handleAutoSubmit. rewrite Hq. unfold submit.
  cbn [currentQuestionIndex questions set_answers].
  destruct (currentQuestionIndex s <? List.length (questions s) - 1)%nat eqn:E.
  - apply Nat.ltb_lt in E.
    destruct (nth_in_range _ (questions s) (currentQuestionIndex s + 1)) as [q' Hq']; [lia|].
    unfold startQuestion. cbn [questions set_answers]. rewrite Hq'. cbn [option_map].
    do 4 eexists. split; [reflexivity|]. split; [reflexivity|].
    cbn. rewrite ?length_app. repeat split.
  - cbn [option_map]. do 4 eexists. split; [reflexivity|]. split; [reflexivity|].
    cbn. rewrite ?length_app. repeat split.
Qed.

Lemma timeout_submits_like_the_button_witness :
  let s := {| interviewState := active; questions := Examples.twoQuestions;
              currentQuestionIndex := 1%nat; answers := [];
              currentAnswer := "half an answer"; questionStartTime := 1000;
              timeRemaining := 0; isSubmitting := false; completions := [] |} in
  exists s2 a2,
    step s (Timer 601000) = Some s2
    /\ answers s2 = [a2]
    /\ timeSpent a2 = 600 /\ autoSubmitted a2 = true /\ answer a2 = "half an answer"%string
    /\ interviewState s2 = completed.
Proof.
  intro s.
  destruct (timeout_submits_like_the_button s 601000 Examples.q2 eq_refl eq_refl eq_refl eq_refl)
    as (s1 & s2 & a1 & a2 & H1 & H2 & _ & H4 & (_ & Hans & Hts & Hau) & _ & Hst & _).
  exists s2, a2. split; [exact H2|]. split; [exact H4|].
  split; [exact Hts|]. split; [exact Hau|]. split; [exact Hans|].
  rewrite Hst. vm_compute in H1. injection H1 as <-. reflexivity.
Defined.

Lemma upsert_in (t : Answer) (l : list Answer) : In t (upsert t l).
Proof.
  induction l as [|a l IH]; simpl; [now left|].
  destruct (String.eqb (questionId a) (questionId t)); [now left | right; exact IH].
Qed.

Lemma upsert_find (t : Answer) (l : list Answer) :
  find (fun a => String.eqb (questionId a) (questionId t)) (upsert t l) = Some t.
Proof.
  induction l as [|a l IH]; simpl.
  - rewrite String.eqb_refl. reflexivity.
  - destruct (String.eqb (questionId a) (questionId t)) eqn:E; simpl.
    + rewrite String.eqb_refl. reflexivity.
    + rewrite E. exact IH.
Qed.

Lemma upsert_others (t : Answer) (l : list Answer) (id : string) :
  id <> questionId t -> answersFor id (upsert t l) = answersFor id l.
Proof.
  intro Hne. assert (Hf : String.eqb (questionId t) id = false).
  { apply String.eqb_neq. congruence. }
  unfold answersFor. induction l as [|a l IH]; simpl.
  - rewrite Hf. reflexivity.
  - destruct (String.eqb (questionId a) (questionId t)) eqn:E; simpl.
    + apply String.eqb_eq in E. rewrite E, Hf. reflexivity.
    + rewrite IH. reflexivity.
Qed.

Lemma upsert_length (t : Answer) (l : list Answer) :
  List.length (upsert t l)
  = if existsb (fun a => String.eqb (questionId a) (questionId t)) l
    then List.length l else S (List.length l).
Proof.
  induction l as [|a l IH]; simpl; [reflexivity|].
  destruct (String.eqb (questionId a) (questionId t)); simpl; [reflexivity|].
  rewrite IH. destruct (existsb _ l); reflexivity.
Qed.

Lemma answersFor_unique (t : Answer) (l : list Answer) :
  NoDup (map questionId l) -> In t l -> answersFor (questionId t) l = [t].
Proof.
  unfold answersFor. induction l as [|a l IH]; intros Hnd Hin; [destruct Hin|].
  inversion Hnd as [|? ? Hnotin Hnd']; subst. simpl.
  destruct Hin as [-> | Hin].
  - rewrite String.eqb_refl. f_equal.
    clear IH Hnd Hnd'. induction l as [|b l IH]; [reflexivity|]. simpl.
    destruct (String.eqb (questionId b) (questionId t)) eqn:E.
    + apply String.eqb_eq in E. exfalso. apply Hnotin. left. exact E.
    + apply IH. intro H. apply Hnotin. right. exact H.
  - destruct (String.eqb (questionId a) (questionId t)) eqn:E.
    + apply String.eqb_eq in E. exfalso. apply Hnotin. rewrite E.
      apply in_map. exact Hin.
    + exact (IH Hnd' Hin).
Qed.

(** X11: the update [handlePreviousQuestion] applies to the answer
    list is a keyed replace: looking the question up afterwards
    returns the new record, the records of the other questions are
    untouched, the list grows by one only when the question had no
    record, and a list with one record per question stays so, the new
    record being the only one of its question. *)
Theorem upsert_is_a_keyed_replace :
  forall (t : Answer) (l : list Answer),
    find (fun a => String.eqb (questionId a) (questionId t)) (upsert t l) = Some t
    /\ (forall id, id <> questionId t -> answersFor id (upsert t l) = answersFor id l)
    /\ List.length (upsert t l)
       = (if existsb (fun a => String.eqb (questionId a) (questionId t)) l
          then List.length l else S (List.length l))
    /\ (NoDup (map questionId l) ->
        NoDup (map questionId (upsert t l))
        /\ answersFor (questionId t) (upsert t l) = [t]).
Proof.
  intros t l. split; [apply upsert_find|]. split; [apply upsert_others|].
  split; [apply upsert_length|]. intro Hnd.
  pose proof (InterviewNavigation.upsert_keeps_ids_unique t l Hnd) as Hnd'.
  split; [exact Hnd'|]. apply answersFor_unique; [exact Hnd' | apply upsert_in].
Qed.

Lemma upsert_is_a_keyed_replace_witness :
  let edited := {| questionId := q_id Examples.q1; answer := "edited";
                   timeSpent := 9; autoSubmitted := false; timestamp := 9000 |} in
  answersFor (q_id Examples.q1) (upsert edited Examples.blankAnswers) = [edited]
  /\ List.length (upsert edited Examples.blankAnswers) = 2%nat.
Proof.
  intro edited.
  destruct (upsert_is_a_keyed_replace edited Examples.blankAnswers) as (_ & _ & Hlen & Hu).
  split; [|exact Hlen].
  apply Hu. vm_compute. constructor.
  - intros [H | []]. discriminate.
  - constructor; [intros [] | constructor].
Defined.

Lemma find_none_of_answersFor (id : string) (l : list Answer) :
  answersFor id l = [] -> find (fun a => String.eqb (questionId a) id) l = None.
Proof.
  unfold answersFor. induction l as [|a l IH]; simpl; [reflexivity|].
  destruct (String.eqb (questionId a) id); [discriminate | exact IH].
Qed.

Lemma find_app_none (A : Type) (p : A -> bool) (l1 l2 : list A) :
  find p l1 = None -> find p (l1 ++ l2) = find p l2.
Proof.
  induction l1 as [|x l1 IH]; simpl; [reflexivity|].
  destruct (p x); [discriminate | exact IH].
Qed.

(** X12: submitting a first answer to a question that is not the last
    one and pressing Previous brings the candidate back to that
    question with the submitted text in the box; in passing, the
    question just left has received a record with an empty text. *)
Theorem going_back_restores_the_answer :
  forall (s : State) (now1 now2 : Z) (q : Question),
    interviewState s = active ->
    isSubmitting s = false ->
    nth_error (questions s) (currentQuestionIndex s) = Some q ->
    (currentQuestionIndex s + 1 < List.length (questions s))%nat ->
    answersFor (q_id q) (answers s) = [] ->
    exists s2 next,
      run s [ClickSubmit now1; ClickPrevious now2] = Some s2
      /\ currentQuestionIndex s2 = currentQuestionIndex s
      /\ currentAnswer s2 = currentAnswer s
      /\ nth_error (questions s) (currentQuestionIndex s + 1) = Some next
      /\ In {| questionId := q_id next; answer := EmptyString;
               timeSpent := (now2 - now1) / 1000; autoSubmitted := false;
               timestamp := now2 |} (answers s2).
Proof.
  intros s now1 now2 q Ha Hs Hq Hlt Hnone.
  destruct (nth_in_range _ (questions s) (currentQuestionIndex s + 1)) as [next Hnext];
    [exact Hlt|].
  destruct s as [st qs idx ans cur qstart trem sub compl].
  cbn [interviewState isSubmitting questions currentQuestionIndex answers currentAnswer] in *.
  subst st sub.
  set (a := {| questionId := q_id q; answer := cur; timeSpent := (now1 - qstart) / 1000;
               autoSubmitted := false; timestamp := now1 |}).
  set (s1 := {| interviewState := active; questions := qs;
                currentQuestionIndex := (idx + 1)%nat; answers := ans ++ [a];
                currentAnswer := EmptyString; questionStartTime := now1;
                timeRemaining := timeLimit next; isSubmitting := false;
                completions := compl |}).
  assert (H1 : step {| interviewState := active; questions := qs;
                       currentQuestionIndex := idx; answers := ans;
                       currentAnswer := cur; questionStartTime := qstart;
                       timeRemaining := trem; isSubmitting := false;
                       completions := compl |} (ClickSubmit now1) = Some s1).
  { cbn [step]. unfold questionCard, handleSubmitAnswer, submit, startQuestion.
    cbn [interviewState isSubmitting questions currentQuestionIndex answers currentAnswer
         questionStartTime set_answers].
    rewrite Hq. cbn [andb negb].
    assert (Hmore : (idx <? List.length qs - 1)%nat = true) by (apply Nat.ltb_lt; lia).
    rewrite Hmore, Hnext. reflexivity. }
  set (temp := {| questionId := q_id next; answer := EmptyString;
                  timeSpent := (now2 - now1) / 1000; autoSubmitted := false;
                  timestamp := now2 |}).
  set (s2 := {| interviewState := active; questions := qs;
                currentQuestionIndex := idx; answers := upsert temp (ans ++ [a]);
                currentAnswer := cur; questionStartTime := now2;
                timeRemaining := timeLimit q; isSubmitting := false;
                completions := compl |}).
  assert (H2 : step s1 (ClickPrevious now2) = Some s2).
  { subst s1. cbn [step]. unfold questionCard, handlePreviousQuestion, startQuestion.
    cbn [interviewState isSubmitting questions currentQuestionIndex answers currentAnswer
         questionStartTime set_answers].
    rewrite Hnext.
    assert (Hpos : (idx + 1 =? 0)%nat = false) by (apply Nat.eqb_neq; lia).
    assert (Hgt : (0 <? idx + 1)%nat = true) by (apply Nat.ltb_lt; lia).
    rewrite Hpos, Hgt. cbn [andb negb orb].
    replace (idx + 1 - 1)%nat with idx by lia. rewrite Hq.
    rewrite (find_app_none _ _ _ _ (find_none_of_answersFor _ _ Hnone)).
    subst a. cbn [find questionId]. rewrite String.eqb_refl. reflexivity. }
  exists s2, next. split.
  - cbn [run]. rewrite H1, H2. reflexivity.
  - split; [reflexivity|]. split; [reflexivity|]. split; [exact Hnext|].
    apply upsert_in.
Qed.

Lemma going_back_restores_the_answer_witness :
  let s := {| interviewState := active; questions := Examples.twoQuestions;
              currentQuestionIndex := O; answers := [];
              currentAnswer := "first"; questionStartTime := 1000;
              timeRemaining := 900; isSubmitting := false; completions := [] |} in
  run (mounted Examples.twoQuestions) [ClickStartInterview 1000; AnswerChange "first"] = Some s
  /\ exists s2,
      run s [ClickSubmit 61000; ClickPrevious 62000] = Some s2
      /\ currentQuestionIndex s2 = O
      /\ currentAnswer s2 = "first"%string.
Proof.
  intro s. split; [reflexivity|].
  destruct (going_back_restores_the_answer s 61000 62000 Examples.q1
              eq_refl eq_refl eq_refl (le_n 2) eq_refl)
    as (s2 & next & H1 & H2 & H3 & _).
  exists s2. split; [exact H1|]. split; [exact H2 | exact H3].
Defined.

(** X13: when every category rounds to no question (a total of 1 with
    the default distribution does), no question is generated and the
    Start Interview button raises the [TypeError] of
    [questions[0].timeLimit]: the interview cannot be taken. *)
Theorem no_questions_no_interview :
  forall (mockQuestion : Category -> nat -> string) (clock : Category -> nat -> Z)
         (shuffle : list Question -> list Question) (config : Config) (now : Z),
    (forall l, Permutation l (shuffle l)) ->
    (forall c, questionCount config c <= 0) ->
    generateInterviewQuestions mockQuestion clock shuffle config = []
    /\ step (mounted (generateInterviewQuestions mockQuestion clock shuffle config))
            (ClickStartInterview now) = None.
Proof.
  intros mockQuestion clock shuffle config now Hperm Hzero.
  assert (Hnil : generateInterviewQuestions mockQuestion clock shuffle config = []).
  { unfold generateInterviewQuestions. apply length_zero_iff_nil.
    rewrite <- (Permutation_length (Hperm (mockQuestions mockQuestion clock config))).
    rewrite InterviewAllocation.length_mockQuestions.
    pose proof (Hzero coding). pose proof (Hzero dsa). pose proof (Hzero education).
    pose proof (Hzero achievements). pose proof (Hzero problem_solving). lia. }
  split; [exact Hnil|]. rewrite Hnil. reflexivity.
Qed.

Lemma no_questions_no_interview_witness :
  generateInterviewQuestions Examples.bankEntry Examples.fixedClock Examples.reversing
                             (Examples.interviewConfig 1) = []
  /\ step (mounted (generateInterviewQuestions Examples.bankEntry Examples.fixedClock
                                               Examples.reversing (Examples.interviewConfig 1)))
          (ClickStartInterview 1000) = None.
Proof.
  apply no_questions_no_interview.
  - intro l. apply Permutation_rev.
  - intro c. destruct c; vm_compute; discriminate.
Defined.

End InterviewHandlers.

(* ------------------------------------------------------------------ *)
(** ** Interview: sub-scores, category breakdown and completed answers *)

Module InterviewBreakdown.
Import JS JSFacts AIInterview InterviewSessions.

(** X14: every sub-score the stub evaluator produces lies in
    [0, 100]: technical accuracy in [27, 90], problem solving in
    [24, 80], communication in [25.5, 85], time management is 90 or
    60, and creativity lies in [60, 100] for a draw in [0, 1).  The
    upper bound 100 is reached: the products and the sum are rounded
    to binary64, and the largest draws give exactly 100. *)
Theorem sub_scores_in_range :
  forall (q : Question) (a : Answer) (rnd : Q),
    let e := evaluate q a rnd in
    (0 <= rnd < 1)%Q ->
    (27 <= technicalAccuracy e <= 90)%Q
    /\ (24 <= problemSolving e <= 80)%Q
    /\ (51 # 2 <= communication e <= 85)%Q
    /\ (timeManagement e = 90 \/ timeManagement e = 60)
    /\ (60 <= creativity e <= 100)%Q.
Proof.
  intros q a rnd e [Hr0 Hr1].
  pose proof (InterviewScoring.evaluate_bounds q a rnd) as Hscore.
  subst e. cbn [technicalAccuracy problemSolving communication timeManagement creativity
                evaluate aiScore] in *.
  set (score := Qmin 100 (fadd (baseScore a) (timeBonus q a))) in *.
  split.
  { destruct (fmul_between score 30 100 (dbl (9 # 10)) ltac:(vm_compute; discriminate) Hscore)
      as [Hlo Hhi].
    split; [eapply Qle_trans; [|exact Hlo] | eapply Qle_trans; [exact Hhi|]];
      vm_compute; discriminate. }
  split.
  { destruct (fmul_between score 30 100 (dbl (8 # 10)) ltac:(vm_compute; discriminate) Hscore)
      as [Hlo Hhi].
    split; [eapply Qle_trans; [|exact Hlo] | eapply Qle_trans; [exact Hhi|]];
      vm_compute; discriminate. }
  split.
  { destruct (fmul_between score 30 100 (dbl (85 # 100)) ltac:(vm_compute; discriminate)
                           Hscore) as [Hlo Hhi].
    split; [eapply Qle_trans; [|exact Hlo] | eapply Qle_trans; [exact Hhi|]];
      vm_compute; discriminate. }
  split; [destruct (timeSpent a <? timeLimit q); [left | right]; reflexivity|].
  assert (Hdraw : (0 <= fmul rnd 40 <= 40)%Q).
  { unfold fmul. split.
    - apply round64_nonneg. apply Qmult_le_0_compat; [exact Hr0 | discriminate].
    - apply (round64_le_Z _ 40); [lia|]. change (inject_Z 40) with 40%Q. lra. }
  unfold fadd. split.
  - apply (round64_ge_Z _ 60); [lia|]. change (inject_Z 60) with 60%Q. lra.
  - apply (round64_le_Z _ 100); [lia|]. change (inject_Z 100) with 100%Q. lra.
Qed.

Lemma sub_scores_in_range_witness :
  let blank := nth 0 Examples.blankAnswers
                   {| questionId := ""; answer := ""; timeSpent := 0;
                      autoSubmitted := false; timestamp := 0 |} in
  let largest := (1 - (1 # 9007199254740992))%Q in
  let e := evaluate Examples.q1 blank largest in
  (27 <= technicalAccuracy e <= 90)%Q
  /\ (60 <= creativity e <= 100)%Q
  /\ (creativity e == 100)%Q
  /\ (creativity (evaluate Examples.q1 blank (1 # 2)) == 80)%Q.
Proof.
  intros blank largest e.
  destruct (sub_scores_in_range Examples.q1 blank largest) as (H1 & _ & _ & _ & H5).
  - split; [discriminate | reflexivity].
  - split; [exact H1|]. split; [exact H5|]. split; vm_compute; reflexivity.
Defined.

Lemma processAnswers_from_band (questions : list Question) (random : nat -> Q)
      (answers : list Answer) :
  forall (k : nat) (evals : list QuestionEvaluation),
    processAnswers_from questions random k answers = Some evals ->
    Forall (fun e => 30 <= aiScore e <= 100)%Q evals.
Proof.
  induction answers as [|a rest IH]; intros k evals H; simpl in H.
  - injection H as <-. constructor.
  - destruct (findQuestion questions (questionId a)) as [q|]; [|discriminate].
    destruct (processAnswers_from questions random (S k) rest) eqn:E; [|discriminate].
    injection H as <-. constructor.
    + apply InterviewScoring.evaluate_bounds.
    + exact (IH _ _ E).
Qed.

Lemma Forall_filter (A : Type) (P : A -> Prop) (p : A -> bool) (l : list A) :
  Forall P l -> Forall P (filter p l).
Proof.
  induction 1 as [|x l Hx _ IH]; simpl; [constructor|].
  destruct (p x); [constructor; assumption | exact IH].
Qed.

(** X15: after the stub evaluation, each entry of the category
    breakdown is 0 when no evaluated answer belongs to a question of
    that category, and lies between 30 and 100 otherwise (the answers
    being an array, of at most [max_array_length] elements). *)
Theorem category_breakdown_range :
  forall (config : Config) (questions : list Question) (random : nat -> Q)
         (answers : list Answer) (evals : list QuestionEvaluation) (c : Category),
    let b := categoryBreakdown (calculateResults config questions answers evals) in
    processAnswers questions random answers = Some evals ->
    Z.of_nat (List.length answers) <= max_array_length ->
    (categoryResults questions c evals = [] -> breakdownOf b c = 0)
    /\ (categoryResults questions c evals <> [] -> 30 <= breakdownOf b c <= 100).
Proof.
  intros config questions random answers evals c b Hp Harr.
  assert (Hb : breakdownOf b c = categoryAverage questions c evals)
    by (destruct c; reflexivity).
  rewrite Hb. unfold categoryAverage.
  pose proof (processAnswers_from_band _ _ _ _ _ Hp) as Hband.
  assert (Hsub : Forall (fun e => 30 <= aiScore e <= 100)%Q
                        (categoryResults questions c evals))
    by (apply Forall_filter; exact Hband).
  split.
  - intros ->. reflexivity.
  - intro Hne.
    assert (Hn : 100 * Z.of_nat (List.length (categoryResults questions c evals)) < 2 ^ 53).
    { apply InterviewScoring.array_sum_exact.
      pose proof (filter_length_le
                    (fun result =>
                       match findQuestion questions (e_questionId result) with
                       | Some q0 => Category_eqb (q_category q0) c
                       | None => false
                       end) evals) as Hf.
      fold (categoryResults questions c evals) in Hf.
      rewrite <- (InterviewScoring.processAnswers_length _ _ _ _ Hp) in Harr. lia. }
    destruct (InterviewScoring.mean_bounds 30 100 _ Hne ltac:(lia) Hn Hsub) as [Hlo Hhi].
    destruct (categoryResults questions c evals) as [|e l] eqn:E; [congruence|].
    cbn [List.length Nat.ltb Nat.leb]. split.
    + rewrite <- (Math_round_Z 30) at 1. apply Math_round_mono. exact Hlo.
    + apply Z.le_trans with (Math_round (inject_Z 100)).
      * apply Math_round_mono. exact Hhi.
      * rewrite Math_round_Z. apply Z.le_refl.
Qed.

Lemma category_breakdown_range_witness :
  exists evals,
    processAnswers Examples.twoQuestions Examples.noDraw Examples.blankAnswers = Some evals
    /\ let b := categoryBreakdown
                  (calculateResults (Examples.interviewConfig 2) Examples.twoQuestions
                                    Examples.blankAnswers evals) in
       breakdownOf b education = 0 /\ 30 <= breakdownOf b coding <= 100.
Proof.
  destruct (processAnswers Examples.twoQuestions Examples.noDraw Examples.blankAnswers)
    as [evals|] eqn:E; [|vm_compute in E; discriminate].
  exists evals. split; [reflexivity|].
  assert (Harr : Z.of_nat (List.length Examples.blankAnswers) <= max_array_length)
    by (vm_compute; discriminate).
  pose proof (category_breakdown_range (Examples.interviewConfig 2) _ _ _ _ education E Harr)
    as [H0 _].
  pose proof (category_breakdown_range (Examples.interviewConfig 2) _ _ _ _ coding E Harr)
    as [_ H1].
  vm_compute in E. injection E as <-.
  split; [apply H0; reflexivity | apply H1; discriminate].
Defined.

Lemma dropWhile_split (A : Type) (p : A -> bool) (l : list A) :
  exists pre, l = pre ++ dropWhile p l /\ forallb p pre = true.
Proof.
  induction l as [|x l (pre & Hl & Hp)]; [exists []; split; reflexivity|].
  simpl. destruct (p x) eqn:E.
  - exists (x :: pre). split; [simpl; f_equal; exact Hl | simpl; rewrite E; exact Hp].
  - exists []. split; reflexivity.
Qed.

Lemma dropWhile_head (A : Type) (p : A -> bool) (l : list A) (x : A) (rest : list A) :
  dropWhile p l = x :: rest -> p x = false.
Proof.
  induction l as [|y l IH]; simpl; [discriminate|].
  destruct (p y) eqn:E; [exact IH|]. intro H. injection H as <- _. exact E.
Qed.

Lemma dropWhile_nil (A : Type) (p : A -> bool) (l : list A) :
  dropWhile p l = [] <-> forallb p l = true.
Proof.
  induction l as [|x l IH]; simpl; [tauto|].
  destruct (p x); simpl; [exact IH | split; discriminate].
Qed.

Lemma forallb_rev (A : Type) (p : A -> bool) (l : list A) :
  forallb p (rev l) = forallb p l.
Proof.
  induction l as [|x l IH]; [reflexivity|].
  simpl. rewrite forallb_app, IH. simpl. rewrite andb_true_r. apply andb_comm.
Qed.

Lemma chars_trim (s : string) :
  chars (trim s)
  = rev (dropWhile is_white_space (rev (dropWhile is_white_space (chars s)))).
Proof. unfold chars, trim. apply list_ascii_of_string_of_list_ascii. Qed.

(** [trim] removes exactly the white space at both ends: the
    string is a run of white space, the trimmed text, and a run of
    white space, and the trimmed text neither starts nor ends with a
    white-space character. *)
Lemma trim_strips_both_ends :
  forall s : string,
    exists pre post,
      chars s = pre ++ chars (trim s) ++ post
      /\ forallb is_white_space pre = true
      /\ forallb is_white_space post = true
      /\ (forall c rest, chars (trim s) = c :: rest -> is_white_space c = false)
      /\ (forall c rest, rev (chars (trim s)) = c :: rest -> is_white_space c = false).
Proof.
  intro s. rewrite chars_trim.
  destruct (dropWhile_split _ is_white_space (chars s)) as (pre & Hl & Hpre).
  set (middle := dropWhile is_white_space (chars s)) in *.
  destruct (dropWhile_split _ is_white_space (rev middle)) as (post' & Hr & Hpost).
  set (core := dropWhile is_white_space (rev middle)) in *.
  exists pre, (rev post'). split; [|split; [exact Hpre | split; [|split]]].
  - rewrite Hl at 1. f_equal.
    rewrite <- (rev_involutive middle), Hr, rev_app_distr. reflexivity.
  - rewrite forallb_rev. exact Hpost.
  - intros c rest Hc.
    destruct core as [|x core'] eqn:Ecore; [discriminate|].
    (* [c] is the first character of [middle], which [dropWhile] left *)
    assert (Hm : middle = rev (x :: core') ++ rev post').
    { rewrite <- (rev_involutive middle), Hr, rev_app_distr. reflexivity. }
    rewrite Hc in Hm. destruct middle as [|m0 middle'] eqn:Em; [discriminate|].
    injection Hm as -> _. exact (dropWhile_head _ _ _ _ _ Em).
  - intros c rest Hc. rewrite rev_involutive in Hc.
    exact (dropWhile_head _ _ _ _ _ Hc).
Qed.

Lemma trim_visible (s : string) :
  (0 <? String.length (trim s))%nat = hasVisibleCharacter s.
Proof.
  unfold hasVisibleCharacter.
  assert (Hlen : String.length (trim s) = List.length (chars (trim s))).
  { unfold chars. generalize (trim s) as t.
    induction t as [|c t IH]; simpl; [reflexivity | f_equal; exact IH]. }
  rewrite Hlen, chars_trim, length_rev.
  assert (Hex : existsb (fun c => negb (is_white_space c)) (chars s)
                = negb (forallb is_white_space (chars s))).
  { induction (chars s) as [|c l IH]; simpl; [reflexivity|].
    rewrite IH. destruct (is_white_space c); reflexivity. }
  rewrite Hex.
  set (middle := dropWhile is_white_space (chars s)).
  destruct (dropWhile is_white_space (rev middle)) as [|x core] eqn:Ecore.
  - apply dropWhile_nil in Ecore. rewrite forallb_rev in Ecore.
    destruct middle as [|m0 middle'] eqn:Em.
    + apply dropWhile_nil in Em. rewrite Em. reflexivity.
    + pose proof (dropWhile_head _ _ _ _ _ Em) as Hm0.
      simpl in Ecore. rewrite Hm0 in Ecore. discriminate.
  - simpl. destruct (forallb is_white_space (chars s)) eqn:Eall; [|reflexivity].
    apply dropWhile_nil in Eall. fold middle in Eall. rewrite Eall in Ecore.
    discriminate.
Qed.

(** X16: [questionsCompleted] is the number of answers that contain
    at least one character that is not white space, so an answer left
    blank or filled with spaces is attempted but not completed; it
    never exceeds [questionsAttempted], and neither does the number of
    auto-submitted questions. *)
Theorem completed_answers_have_text :
  forall (config : Config) (questions : list Question) (answers : list Answer)
         (evals : list QuestionEvaluation),
    let res := calculateResults config questions answers evals in
    questionsCompleted res
    = List.length (filter (fun a => hasVisibleCharacter (answer a)) answers)
    /\ (questionsCompleted res <= questionsAttempted res)%nat
    /\ (questionsAutoSubmitted (timeAnalysis res) <= questionsAttempted res)%nat.
Proof.
  intros config questions answers evals res. subst res. cbn.
  assert (Hle : forall (p : Answer -> bool), (List.length (filter p answers)
                                              <= List.length answers)%nat).
  { intro p. induction answers as [|a l IH]; simpl; [lia|].
    destruct (p a); simpl; lia. }
  split; [|split; apply Hle].
  rewrite (filter_ext _ (fun a => hasVisibleCharacter (answer a))); [reflexivity|].
  intro a. apply trim_visible.
Qed.

End InterviewBreakdown.

(* ------------------------------------------------------------------ *)
(** ** Interview: the identifiers of the generated questions *)

Module InterviewIdentifiers.
Import AIInterview InterviewSessions.

Lemma append_inv_head (s a b : string) : (s ++ a = s ++ b)%string -> a = b.
Proof.
  induction s as [|c s IH]; simpl; intro H; [exact H|].
  injection H as H. exact (IH H).
Qed.

(** Two digit strings followed by an underscore and anything: equal
    wholes have equal digit strings. *)
Lemma digits_then_underscore (d1 d2 x y : string) :
  all_digits d1 = true -> all_digits d2 = true ->
  (d1 ++ String "_" x = d2 ++ String "_" y)%string -> d1 = d2.
Proof.
  revert d2. induction d1 as [|c d1 IH]; intros [|c2 d2] H1 H2 H; simpl in *.
  - reflexivity.
  - injection H as Hc _. subst c2. discriminate.
  - injection H as Hc _. subst c. discriminate.
  - injection H as -> H.
    apply andb_true_iff in H1. apply andb_true_iff in H2.
    f_equal. apply (IH d2); tauto.
Qed.

Lemma uint_digits (u : Decimal.uint) :
  all_digits (NilEmpty.string_of_uint u) = true.
Proof. induction u; simpl; try reflexivity; exact IHu. Qed.

Lemma decimal_digits (n : nat) : all_digits (decimal (Z.of_nat n)) = true.
Proof.
  unfold decimal. destruct (Z.of_nat n) as [|p|p] eqn:E; [reflexivity | | lia].
  simpl. unfold NilZero.string_of_uint.
  destruct (Pos.to_uint p) eqn:Eu; try (rewrite <- Eu; apply uint_digits).
  reflexivity.
Qed.

Lemma to_int_proper (z : Z) : Z.to_int z <> Decimal.Pos Decimal.Nil
                              /\ Z.to_int z <> Decimal.Neg Decimal.Nil.
Proof.
  destruct z as [|p|p]; simpl; split; try discriminate;
    intro H; injection H as H; exact (DecimalPos.Unsigned.to_uint_nonnil p H).
Qed.

Lemma decimal_inj (a b : Z) : decimal a = decimal b -> a = b.
Proof.
  unfold decimal. intro H.
  destruct (to_int_proper a) as [Ha1 Ha2]. destruct (to_int_proper b) as [Hb1 Hb2].
  pose proof (NilZero.isi _ Ha1 Ha2) as Ia. pose proof (NilZero.isi _ Hb1 Hb2) as Ib.
  rewrite H, Ib in Ia. injection Ia as Ia.
  rewrite <- (DecimalZ.of_to a), <- (DecimalZ.of_to b), Ia. reflexivity.
Qed.

Section Identifiers.
Variable mockQuestion : Category -> nat -> string.
Variable clock : Category -> nat -> Z.
Variable shuffle : list Question -> list Question.
Hypothesis shuffle_permutes : forall l, Permutation l (shuffle l).

(** The identifier determines the category and the index of a slot. *)
Lemma q_id_inj (config : Config) (c c' : Category) (i i' : nat) :
  q_id (mkQuestion mockQuestion clock config c i)
  = q_id (mkQuestion mockQuestion clock config c' i') ->
  c = c' /\ i = i'.
Proof.
  cbn [q_id mkQuestion]. intro H.
  assert (Hc : c = c').
  { destruct c, c'; try reflexivity; simpl in H; discriminate H. }
  subst c'. split; [reflexivity|].
  apply append_inv_head in H. simpl in H. injection H as H.
  apply digits_then_underscore in H; try apply decimal_digits.
  apply decimal_inj in H. lia.
Qed.

Lemma mockQuestions_slots (config : Config) :
  mockQuestions mockQuestion clock config
  = map (fun p => mkQuestion mockQuestion clock config (fst p) (snd p)) (slots config).
Proof.
  unfold mockQuestions, slots, questionsFor.
  induction Object_keys as [|c l IH]; cbn [flat_map map]; [reflexivity|].
  rewrite map_app, map_map, IH. reflexivity.
Qed.

Lemma slots_NoDup (config : Config) : NoDup (slots config).
Proof.
  unfold slots.
  assert (Hkeys : NoDup Object_keys).
  { unfold Object_keys. repeat constructor; simpl; intuition discriminate. }
  induction Hkeys as [|c l Hnotin _ IH]; cbn [flat_map]; [constructor|].
  apply NoDup_app.
  - apply NoDup_map_NoDup_ForallPairs; [|apply seq_NoDup].
    intros i j _ _ H. injection H as H. exact H.
  - exact IH.
  - intros [c0 i] H1 H2. apply in_map_iff in H1. destruct H1 as (j & Hj & _).
    injection Hj as <- _.
    apply in_flat_map in H2. destruct H2 as (c1 & Hc1 & H2).
    apply in_map_iff in H2. destruct H2 as (j' & Hj' & _).
    injection Hj' as -> _. exact (Hnotin Hc1).
Qed.

Lemma find_unique (qs : list Question) (q : Question) :
  NoDup (map q_id qs) -> In q qs -> findQuestion qs (q_id q) = Some q.
Proof.
  unfold findQuestion. induction qs as [|q0 qs IH]; intros Hnd Hin; [destruct Hin|].
  inversion Hnd as [|? ? Hnotin Hnd']; subst. simpl.
  destruct Hin as [-> | Hin]; [rewrite String.eqb_refl; reflexivity|].
  destruct (String.eqb (q_id q0) (q_id q)) eqn:E; [|exact (IH Hnd' Hin)].
  apply String.eqb_eq in E. exfalso. apply Hnotin. rewrite E. apply in_map. exact Hin.
Qed.

(** X17: the generated questions have pairwise distinct identifiers,
    whatever the clock shows and however they are shuffled, so the
    lookup by identifier that the evaluation and the category
    breakdown use returns, for every generated question, that very
    question. *)
Theorem generated_ids_are_distinct :
  forall (config : Config),
    let qs := generateInterviewQuestions mockQuestion clock shuffle config in
    NoDup (map q_id qs)
    /\ forall q, In q qs -> findQuestion qs (q_id q) = Some q.
Proof.
  intros config qs.
  assert (Hnd : NoDup (map q_id qs)).
  { subst qs. unfold generateInterviewQuestions.
    apply (Permutation_NoDup
             (Permutation_map q_id (shuffle_permutes (mockQuestions mockQuestion clock config)))).
    rewrite mockQuestions_slots, map_map.
    apply NoDup_map_NoDup_ForallPairs; [|apply slots_NoDup].
    intros [c i] [c' i'] _ _ H. cbn [fst snd] in H.
    destruct (q_id_inj config c c' i i' H) as [-> ->]. reflexivity. }
  split; [exact Hnd|]. intros q Hin. apply find_unique; assumption.
Qed.

End Identifiers.

Lemma generated_ids_are_distinct_witness :
  let qs := generateInterviewQuestions Examples.bankEntry Examples.fixedClock
                                       Examples.reversing (Examples.interviewConfig 20) in
  List.length qs = 20%nat /\ NoDup (map q_id qs).
Proof.
  intro qs. split; [reflexivity|].
  exact (proj1 (generated_ids_are_distinct Examples.bankEntry Examples.fixedClock
                  Examples.reversing (fun l => Permutation_rev l)
                  (Examples.interviewConfig 20))).
Defined.

End InterviewIdentifiers.

(* ------------------------------------------------------------------ *)
(** ** Coordinator: the course of an assessment *)

Module CoordinatorCourse.
Import JS JSFacts TestCoordinator CoordinatorPhases.

Lemma updatePhase_ids (id : PhaseId) (ok : bool) (r : PhaseResults) (phases : list TestPhase) :
  map phase_id (updatePhase id ok r phases) = map phase_id phases.
Proof.
  unfold updatePhase. induction phases as [|p l IH]; simpl; [reflexivity|].
  rewrite IH. destruct (PhaseId_eqb (phase_id p) id); reflexivity.
Qed.

Lemma updatePhase_member (id : PhaseId) (ok : bool) (r : PhaseResults)
      (phases : list TestPhase) (p : TestPhase) :
  In p (updatePhase id ok r phases) ->
  In p phases
  \/ (phase_id p = id /\ status p = (if ok then completed else failed)).
Proof.
  unfold updatePhase. intro H. apply in_map_iff in H. destruct H as (p0 & <- & Hin).
  destruct (PhaseId_eqb (phase_id p0) id) eqn:E; [|left; exact Hin].
  right. split; [|reflexivity].
  simpl. destruct (phase_id p0), id; try discriminate; reflexivity.
Qed.

(** The part of the state that [phases_inv] reads changes only through
    [updatePhase] on one of the two test phases. *)
Lemma dispatch_phases (s : State) (e : Event) :
  jobConfig (dispatch s e) = jobConfig s
  /\ (testPhases (dispatch s e) = testPhases s
      \/ exists id ok r, id <> ats_check
                         /\ testPhases (dispatch s e) = updatePhase id ok r (testPhases s)).
Proof.
  unfold dispatch.
  destruct e, (view s); try (split; [reflexivity | left; reflexivity]).
  - destruct (overallResults s); [split; [reflexivity | left; reflexivity]|].
    destruct (_ && _); [|split; [reflexivity | left; reflexivity]].
    unfold startNextPhase. destruct (find _ _); split; try reflexivity; left; reflexivity.
  - unfold handleTypingTestComplete. split.
    + destruct (TypingTest.passed r); [destruct (find _ _)|]; reflexivity.
    + right. exists typing_test, (TypingTest.passed r), (TypingResults r).
      split; [discriminate|].
      destruct (TypingTest.passed r); [destruct (find _ _)|]; reflexivity.
  - split; [reflexivity|]. right.
    exists ai_interview, (AIInterview.passed r), (InterviewResults r).
    split; [discriminate | reflexivity].
  - destruct (0 <? pendingTimeouts s)%nat; split; try reflexivity; left; reflexivity.
  - destruct (0 <? pendingTimeouts s)%nat; split; try reflexivity; left; reflexivity.
  - destruct (0 <? pendingTimeouts s)%nat; split; try reflexivity; left; reflexivity.
  - destruct (0 <? pendingTimeouts s)%nat; split; try reflexivity; left; reflexivity.
Qed.

Lemma step_phases (s : State) (e : Event) :
  jobConfig (step s e) = jobConfig s
  /\ (testPhases (step s e) = testPhases s
      \/ exists id ok r, id <> ats_check
                         /\ testPhases (step s e) = updatePhase id ok r (testPhases s)).
Proof.
  unfold step.
  destruct (showsInterview (dispatch s e) && negb (showsInterview s));
    exact (dispatch_phases s e).
Qed.

Lemma step_phases_inv (s : State) (e : Event) : phases_inv s -> phases_inv (step s e).
Proof.
  intros (Hshape & Hats & Hstatus).
  destruct (step_phases s e) as [Hcfg [Hsame | (id & ok & r & Hid & Hupd)]].
  - unfold phases_inv. rewrite Hcfg, Hsame. tauto.
  - unfold phases_inv. rewrite Hcfg, Hupd. split; [|split].
    + destruct Hshape as [Hnil | (config & Hc & Hids)].
      * left. rewrite Hnil. reflexivity.
      * right. exists config. split; [exact Hc|]. rewrite updatePhase_ids. exact Hids.
    + intros p Hin Hp. destruct (updatePhase_member _ _ _ _ _ Hin) as [Hold | [Hnew _]].
      * exact (Hats p Hold Hp).
      * congruence.
    + intros p Hin. destruct (updatePhase_member _ _ _ _ _ Hin) as [Hold | [_ Hnew]].
      * exact (Hstatus p Hold).
      * rewrite Hnew. destruct ok; tauto.
Qed.

Lemma initializeTest_phases_inv (job : option JobData) (application : option ApplicationData) :
  phases_inv (initializeTest job application initial).
Proof.
  unfold initializeTest.
  destruct job as [jobData|], application as [applicationData|];
    try (split; [left; reflexivity | split; intros p []]).
  destruct (Qlt_bool (or_else (ai_score applicationData) 0%Q) (ats_minimum_score jobData))
    eqn:E; [split; [left; reflexivity | split; intros p []]|].
  assert (Hok : Qge_bool (or_else (ai_score applicationData) 0%Q) (ats_minimum_score jobData)
                = true).
  { apply Qge_bool_iff. apply Qlt_bool_false_iff. exact E. }
  split; [|split].
  - right. eexists. split; [reflexivity|]. cbn.
    destruct (typing_test_enabled jobData); reflexivity.
  - intros p Hin Hp. cbn in Hin. rewrite Hok in Hin.
    destruct (typing_test_enabled jobData); cbn in Hin;
      repeat (destruct Hin as [<- | Hin]); try discriminate; try reflexivity; destruct Hin.
  - intros p Hin. cbn in Hin. rewrite Hok in Hin.
    destruct (typing_test_enabled jobData); cbn in Hin;
      repeat (destruct Hin as [<- | Hin]); cbn; try tauto; destruct Hin.
Qed.

Lemma trace_phases_inv (s : State) (events : list Event) :
  phases_inv s -> Forall phases_inv (trace s events).
Proof.
  revert s. induction events as [|e events IH]; intros s H; simpl.
  - constructor; [exact H | constructor].
  - constructor; [exact H|]. apply IH, step_phases_inv, H.
Qed.

(** X18: whatever the fetches return and whatever happens afterwards,
    the phase list is either empty or the planned one (the ATS check,
    the typing test if enabled, the interview, in this order); the ATS
    phase, when it exists, is completed (its failed status is never
    displayed, a failing score leaving the list empty), and every
    phase is pending, completed or failed, never active or skipped. *)
Theorem phase_list_invariant :
  forall (job : option JobData) (application : option ApplicationData)
         (events : list Event),
    Forall phases_inv (trace (initializeTest job application initial) events).
Proof.
  intros job application events.
  apply trace_phases_inv, initializeTest_phases_inv.
Qed.

(** Evaluates one event on a loaded state, given the value of the ATS
    comparison, of the typing-test switch and of the reported verdict. *)
Ltac one_step Hge Hty Hr :=
  unfold step, dispatch, showsInterview, view, handleTypingTestComplete, timeoutCallback;
  repeat (cbn -[Qge_bool]; rewrite ?Hge, ?Hty, ?Hr);
  reflexivity.

(** [at_innermost e k]: runs [k a] for the occurrence [step a e] of the
    goal whose state [a] contains no further step. *)
Ltac at_innermost e k :=
  match goal with
  | |- context [step ?a e] =>
      lazymatch a with
      | context [step] => fail
      | _ => k a
      end
  end.

(** The state [initializeTest] produces when the ATS score suffices. *)
Lemma initializeTest_loaded (jobData : JobData) (applicationData : ApplicationData) :
  (ats_minimum_score jobData <= or_else (ai_score applicationData) 0%Q)%Q ->
  exists config candidate,
    initializeTest (Some jobData) (Some applicationData) initial
    = {| loading := false; jobConfig := Some config; candidateInfo := Some candidate;
         currentPhase := overview;
         testPhases :=
           [ {| phase_id := ats_check; status := completed; required := true;
                results := Some (AtsResults (or_else (ai_score applicationData) 0%Q)
                                            (ats_minimum_score jobData)) |} ]
           ++ (if typing_test_enabled jobData
               then [ {| phase_id := typing_test; status := pending;
                         required := true; results := None |} ]
               else [])
           ++ [ {| phase_id := ai_interview; status := pending;
                   required := true; results := None |} ];
         overallResults := None; toasts := []; pendingTimeouts := O;
         questionGenerations := O; statusUpdates := [] |}
    /\ typingTestEnabled config = typing_test_enabled jobData
    /\ atsMinimumScore config = ats_minimum_score jobData
    /\ atsScore candidate = or_else (ai_score applicationData) 0%Q.
Proof.
  intro Hok. unfold initializeTest.
  assert (E : Qlt_bool (or_else (ai_score applicationData) 0%Q) (ats_minimum_score jobData)
              = false) by (apply Qlt_bool_false_iff; exact Hok).
  assert (E' : Qge_bool (or_else (ai_score applicationData) 0%Q) (ats_minimum_score jobData)
               = true) by (apply Qge_bool_iff; exact Hok).
  rewrite E. cbn [atsMinimumScore typingTestEnabled]. rewrite E'.
  do 2 eexists. split; [reflexivity|]. repeat split.
Qed.

(** X19: a failed typing test does not close the assessment: the
    coordinator returns to the overview with the typing phase failed
    and the interview still pending, the Start Next Phase button stays
    enabled, and pressing it opens the interview. *)
Theorem failed_typing_test_leaves_interview_open :
  forall (jobData : JobData) (applicationData : ApplicationData)
         (r : TypingTest.TypingTestResult),
    let s0 := initializeTest (Some jobData) (Some applicationData) initial in
    let failed_state := run s0 [ClickStartNextPhase; TypingTestOnComplete r] in
    let s := step failed_state ClickStartNextPhase in
    (ats_minimum_score jobData <= or_else (ai_score applicationData) 0%Q)%Q ->
    typing_test_enabled jobData = true ->
    TypingTest.passed r = false ->
    (currentPhase failed_state = overview
     /\ statusOf typing_test (testPhases failed_state) = Some failed
     /\ statusOf ai_interview (testPhases failed_state) = Some pending
     /\ overallResults failed_state = None)
    /\ currentPhase s = phase ai_interview
    /\ showsInterview s = true
    /\ questionGenerations s = 1%nat.
Proof.
  intros jobData applicationData r s0 failed_state s Hok Hen Hfail.
  destruct (initializeTest_loaded jobData applicationData Hok)
    as (config & candidate & Hs0 & Hty & Hmin & Hsc).
  assert (Hge : Qge_bool (atsScore candidate) (atsMinimumScore config) = true).
  { apply Qge_bool_iff. rewrite Hmin, Hsc. exact Hok. }
  rewrite Hen in Hty, Hs0. cbn [app] in Hs0.
  subst s failed_state s0. rewrite Hs0. clear Hs0.
  unfold run. cbn [fold_left].
  at_innermost ClickStartNextPhase ltac:(fun a =>
    assert (E1 : step a ClickStartNextPhase = set_currentPhase (phase typing_test) a)
      by one_step Hge Hty Hfail;
    rewrite E1; clear E1).
  at_innermost (TypingTestOnComplete r) ltac:(fun a =>
    assert (E2 : step a (TypingTestOnComplete r)
                 = set_currentPhase overview
                     (set_testPhases
                        (updatePhase typing_test false (TypingResults r) (testPhases a)) a))
      by one_step Hge Hty Hfail;
    rewrite E2; clear E2).
  at_innermost ClickStartNextPhase ltac:(fun a =>
    assert (E3 : step a ClickStartNextPhase
                 = set_questionGenerations 1 (set_currentPhase (phase ai_interview) a))
      by one_step Hge Hty Hfail;
    rewrite E3; clear E3).
  unfold showsInterview, view. cbn. repeat split.
Qed.

Lemma failed_typing_test_leaves_interview_open_witness :
  let s := run (initializeTest (Some (Examples.jobRow 60)) (Some (Examples.applicationRow 75))
                               initial)
               [ClickStartNextPhase; TypingTestOnComplete MoreExamples.failedTyping;
                ClickStartNextPhase] in
  currentPhase s = phase ai_interview /\ questionGenerations s = 1%nat.
Proof.
  intro s.
  destruct (failed_typing_test_leaves_interview_open
              (Examples.jobRow 60) (Examples.applicationRow 75) MoreExamples.failedTyping)
    as (_ & H1 & _ & H2).
  - discriminate.
  - reflexivity.
  - reflexivity.
  - split; [exact H1 | exact H2].
Defined.

End CoordinatorCourse.

(* ------------------------------------------------------------------ *)
(** ** Coordinator: outcomes *)

Module CoordinatorOutcomes.
Import JS JSFacts TestCoordinator CoordinatorPhases.

Lemma stuck_run (s : State) (events : list Event) :
  (forall e, step s e = s) -> run s events = s.
Proof.
  intro H. unfold run. induction events as [|e events IH]; simpl; [reflexivity|].
  rewrite H. exact IH.
Qed.

(** X20: when one of the two fetches fails, [initializeTest] raises
    the initialization toast and nothing else: [loading] is never
    cleared, so the loading card stays on screen whatever happens, and
    no test is ever shown. *)
Theorem fetch_failure_never_loads :
  forall (job : option JobData) (application : option ApplicationData)
         (events : list Event),
    job = None \/ application = None ->
    Forall (fun s => view s = LoadingView
                     /\ toasts s = [InitializationError]
                     /\ testPhases s = []
                     /\ questionGenerations s = O)
           (trace (initializeTest job application initial) events).
Proof.
  intros job application events H.
  assert (Hs0 : initializeTest job application initial = add_toast InitializationError initial).
  { destruct H as [-> | ->]; [reflexivity|]. destruct job; reflexivity. }
  rewrite Hs0.
  assert (Hstuck : forall e, step (add_toast InitializationError initial) e
                             = add_toast InitializationError initial).
  { intro e. apply CoordinatorGate.loading_is_stuck; reflexivity. }
  eapply Forall_impl; [|exact (CoordinatorGate.stuck_trace _ events Hstuck)].
  intros s ->. repeat split.
Qed.

Lemma fetch_failure_never_loads_witness :
  Forall (fun s => view s = LoadingView /\ toasts s = [InitializationError])
         (trace (initializeTest None (Some (Examples.applicationRow 75)) initial)
                Examples.insistentCandidate).
Proof.
  eapply Forall_impl;
    [|exact (fetch_failure_never_loads None (Some (Examples.applicationRow 75))
                                       Examples.insistentCandidate
                                       (or_introl eq_refl))].
  intros s (H1 & H2 & _). split; [exact H1 | exact H2].
Defined.

(** X21: when the interview reports its results and no timeout is
    outstanding, the coordinator returns to the overview, the overall
    verdict is the interview's [passed] alone, one status update is
    issued ([Under Review] with the percentage when passed, [Rejected]
    without a score otherwise), and from then on no event changes the
    state: the Start Next Phase button is gone. *)
Theorem interview_completion_is_final :
  forall (s : State) (config : AIInterview.Config) (r : AIInterview.InterviewResults)
         (events : list Event),
    view s = AIInterviewView config ->
    pendingTimeouts s = O ->
    let s' := step s (InterviewOnComplete r) in
    currentPhase s' = overview
    /\ overallOutcome s' = AIInterview.passed r
    /\ statusUpdates s'
       = statusUpdates s
         ++ [ if AIInterview.passed r
              then ("Under Review"%string, AIInterview.percentageScore r)
              else ("Rejected"%string, None) ]
    /\ questionGenerations s' = questionGenerations s
    /\ run s' events = s'.
Proof.
  intros s config r events Hv Ht s'.
  assert (Hload : loading s = false /\ exists c k, jobConfig s = Some c /\ candidateInfo s = Some k).
  { unfold view in Hv. destruct (loading s); [discriminate|].
    destruct (jobConfig s) as [c|]; [|discriminate].
    destruct (candidateInfo s) as [k|]; [|discriminate].
    split; [reflexivity|]. exists c, k. split; reflexivity. }
  destruct Hload as (Hl & c & k & Hc & Hk).
  assert (Hd : dispatch s (InterviewOnComplete r) = handleInterviewComplete r s).
  { unfold dispatch. rewrite Hv. reflexivity. }
  assert (Hv' : view (handleInterviewComplete r s) = OverviewView c k).
  { unfold view. cbn. rewrite Hl, Hc, Hk. reflexivity. }
  assert (Hs' : s' = handleInterviewComplete r s).
  { unfold s', step. rewrite Hd. unfold showsInterview. rewrite Hv'. reflexivity. }
  rewrite Hs'. repeat split.
  apply stuck_run. intro e.
  assert (He : dispatch (handleInterviewComplete r s) e = handleInterviewComplete r s).
  { unfold dispatch. rewrite Hv'. cbn [pendingTimeouts overallResults handleInterviewComplete].
    rewrite Ht. destruct e; reflexivity. }
  unfold step. rewrite He. unfold showsInterview. rewrite Hv'. reflexivity.
Qed.

Lemma interview_completion_is_final_witness :
  let s := run (initializeTest (Some (Examples.jobRow 60)) (Some (Examples.applicationRow 75))
                               initial)
               Examples.ordinaryCourse in
  let s' := step s (InterviewOnComplete MoreExamples.passedInterview) in
  overallOutcome s' = true /\ run s' Examples.insistentCandidate = s'.
Proof.
  intros s s'.
  destruct (interview_completion_is_final
              s (interviewProps
                   (match jobConfig s with
                    | Some c => c
                    | None => Build_JobConfig false 0 0 0 false "" 0 defaultDistribution
                                              "" "" 0 "" false "" "" 0
                    end))
              MoreExamples.passedInterview Examples.insistentCandidate)
    as (_ & H1 & _ & _ & H2).
  - reflexivity.
  - reflexivity.
  - split; [exact H1 | exact H2].
Defined.

(** X22: after a passed typing test the coordinator shows the overview
    with one timeout outstanding; the interview is then mounted exactly
    once, whether the candidate waits for the timeout or presses Start
    Next Phase first (the timeout then sets the phase it already has). *)
Theorem passed_typing_test_opens_interview_once :
  forall (jobData : JobData) (applicationData : ApplicationData)
         (r : TypingTest.TypingTestResult),
    let s0 := initializeTest (Some jobData) (Some applicationData) initial in
    let waiting := run s0 [ClickStartNextPhase; TypingTestOnComplete r] in
    let patient := step waiting TimeoutFires in
    let impatient := run waiting [ClickStartNextPhase; TimeoutFires] in
    (ats_minimum_score jobData <= or_else (ai_score applicationData) 0%Q)%Q ->
    typing_test_enabled jobData = true ->
    TypingTest.passed r = true ->
    (currentPhase waiting = overview
     /\ pendingTimeouts waiting = 1%nat
     /\ statusOf typing_test (testPhases waiting) = Some completed
     /\ questionGenerations waiting = O)
    /\ patient = impatient
    /\ showsInterview patient = true
    /\ pendingTimeouts patient = O
    /\ questionGenerations patient = 1%nat.
Proof.
  intros jobData applicationData r s0 waiting patient impatient Hok Hen Hpass.
  destruct (CoordinatorCourse.initializeTest_loaded jobData applicationData Hok)
    as (config & candidate & Hs0 & Hty & Hmin & Hsc).
  assert (Hge : Qge_bool (atsScore candidate) (atsMinimumScore config) = true).
  { apply Qge_bool_iff. rewrite Hmin, Hsc. exact Hok. }
  rewrite Hen in Hty, Hs0. cbn [app] in Hs0.
  subst impatient patient waiting s0. rewrite Hs0. clear Hs0.
  unfold run. cbn [fold_left].
  CoordinatorCourse.at_innermost ClickStartNextPhase ltac:(fun a =>
    assert (E1 : step a ClickStartNextPhase = set_currentPhase (phase typing_test) a)
      by CoordinatorCourse.one_step Hge Hty Hpass;
    rewrite E1; clear E1).
  CoordinatorCourse.at_innermost (TypingTestOnComplete r) ltac:(fun a =>
    assert (E2 : step a (TypingTestOnComplete r)
                 = set_pendingTimeouts 1
                     (set_currentPhase overview
                        (set_testPhases
                           (updatePhase typing_test true (TypingResults r) (testPhases a)) a)))
      by CoordinatorCourse.one_step Hge Hty Hpass;
    rewrite E2; clear E2).
  CoordinatorCourse.at_innermost ClickStartNextPhase ltac:(fun a =>
    assert (E3 : step a ClickStartNextPhase
                 = set_questionGenerations 1 (set_currentPhase (phase ai_interview) a))
      by CoordinatorCourse.one_step Hge Hty Hpass;
    rewrite E3; clear E3).
  CoordinatorCourse.at_innermost TimeoutFires ltac:(fun a =>
    assert (E4 : step a TimeoutFires
                 = set_questionGenerations 1
                     (set_pendingTimeouts 0 (set_currentPhase (phase ai_interview) a)))
      by CoordinatorCourse.one_step Hge Hty Hpass;
    rewrite E4; clear E4).
  CoordinatorCourse.at_innermost TimeoutFires ltac:(fun a =>
    assert (E5 : step a TimeoutFires
                 = set_pendingTimeouts 0 (set_currentPhase (phase ai_interview) a))
      by CoordinatorCourse.one_step Hge Hty Hpass;
    rewrite E5; clear E5).
  unfold showsInterview, view. cbn. repeat split.
Qed.

Lemma passed_typing_test_opens_interview_once_witness :
  let waiting := run (initializeTest (Some (Examples.jobRow 60))
                                     (Some (Examples.applicationRow 75)) initial)
                     [ClickStartNextPhase; TypingTestOnComplete Examples.passedTyping] in
  step waiting TimeoutFires = run waiting [ClickStartNextPhase; TimeoutFires]
  /\ questionGenerations (step waiting TimeoutFires) = 1%nat.
Proof.
  intro waiting.
  destruct (passed_typing_test_opens_interview_once
              (Examples.jobRow 60) (Examples.applicationRow 75) Examples.passedTyping)
    as (_ & H1 & _ & _ & H2).
  - discriminate.
  - reflexivity.
  - reflexivity.
  - split; [exact H1 | exact H2].
Defined.

Lemma forallb_ext_in {A} (f g : A -> bool) (l : list A) :
  (forall x, In x l -> f x = g x) -> forallb f l = forallb g l.
Proof.
  induction l as [|x l IH]; intro H; simpl; [reflexivity|].
  rewrite (H x (or_introl eq_refl)), IH; [reflexivity|].
  intros y Hy. apply H. right. exact Hy.
Qed.

(** X23: the second half of the Start Next Phase button's [disabled]
    test never decides anything: a typing-test phase exists only when
    the typing test is enabled, so in every state of every run the
    button is disabled exactly when no phase is pending. *)
Theorem start_button_disabled_iff_nothing_pending :
  forall (job : option JobData) (application : option ApplicationData)
         (events : list Event),
    Forall (fun s => forall config, jobConfig s = Some config ->
                       startDisabled config s
                       = forallb (fun p => negb (is_pending (status p))) (testPhases s))
           (trace (initializeTest job application initial) events).
Proof.
  intros job application events.
  eapply Forall_impl;
    [|exact (CoordinatorCourse.trace_phases_inv _ events
               (CoordinatorCourse.initializeTest_phases_inv job application))].
  intros s (Hshape & _ & _) config Hc. unfold startDisabled.
  apply forallb_ext_in. intros p Hin.
  destruct Hshape as [Hnil | (config' & Hc' & Hids)].
  - rewrite Hnil in Hin. destruct Hin.
  - rewrite Hc in Hc'. injection Hc' as <-.
    destruct (typingTestEnabled config) eqn:Hty.
    + cbn. rewrite andb_false_r, orb_false_r. reflexivity.
    + assert (Hp : In (phase_id p) (plannedPhases false)).
      { rewrite <- Hids. apply in_map. exact Hin. }
      cbn in Hp. destruct Hp as [Hp | [Hp | []]]; rewrite <- Hp; cbn;
        rewrite orb_false_r; reflexivity.
Qed.

End CoordinatorOutcomes.

(* ------------------------------------------------------------------ *)
(** ** My Exams: the status of an application *)

Module ExamStatus.
Import JS JSFacts MyExams.

(** X24: My Exams offers the Start Assessment button exactly when the
    ATS score reaches the job's minimum and either the typing test is
    enabled and has no result row, or the typing stage is out of the way
    (disabled, or its first row passed) and the interview has no result
    row.  An empty result array counts as no row. *)
Theorem exam_offered_iff :
  forall application : ExamApplication,
    canTakeExam (getApplicationStatus application) = true
    <-> (ats_minimum_score (job application) <= ai_score application)%Q
        /\ ((typing_test_enabled (job application) = true
             /\ firstRow (typing_test_results application) = None)
            \/ ((typing_test_enabled (job application) = false
                 \/ option_map t_passed (firstRow (typing_test_results application))
                    = Some true)
                /\ firstRow (interview_results application) = None)).
Proof.
  intro application. unfold getApplicationStatus, interviewStatus.
  destruct (Qlt_bool (ai_score application) (ats_minimum_score (job application))) eqn:E.
  - apply Qlt_bool_iff in E. split; [discriminate|].
    intros [Hle _]. exfalso. exact (Qlt_not_le _ _ E Hle).
  - apply Qlt_bool_false_iff in E.
    destruct (typing_test_enabled (job application));
      destruct (firstRow (typing_test_results application)) as [t|];
      try destruct (t_passed t) eqn:Ht;
      destruct (firstRow (interview_results application)) as [i|];
      try destruct (i_passed i);
      cbn; try rewrite Ht;
      (split;
       [ intro H; first [discriminate H | split; [exact E | intuition congruence]]
       | intros [_ H]; first [reflexivity | exfalso; intuition congruence] ]).
Qed.

(** X25: the status shown for an application is decided in a fixed
    order: the ATS check overrides every recorded result, and a failed
    first typing row (typing test enabled) overrides the interview
    rows; only the first row of each result list is read. *)
Theorem status_precedence :
  forall application : ExamApplication,
    ((ai_score application < ats_minimum_score (job application))%Q ->
     getApplicationStatus application = notQualified)
    /\ ((ats_minimum_score (job application) <= ai_score application)%Q ->
        typing_test_enabled (job application) = true ->
        option_map t_passed (firstRow (typing_test_results application)) = Some false ->
        getApplicationStatus application = typingFailed)
    /\ ((ats_minimum_score (job application) <= ai_score application)%Q ->
        typing_test_enabled (job application) = false ->
        getApplicationStatus application = interviewStatus application).
Proof.
  intro application. unfold getApplicationStatus. split; [|split].
  - intro H. apply Qlt_bool_iff in H. rewrite H. reflexivity.
  - intros H Hen Hrow. apply Qlt_bool_false_iff in H. rewrite H, Hen.
    destruct (firstRow (typing_test_results application)) as [t|]; [|discriminate].
    cbn in Hrow. injection Hrow as ->. reflexivity.
  - intros H Hen. apply Qlt_bool_false_iff in H. rewrite H, Hen. reflexivity.
Qed.

(** X26: an application that My Exams offers for assessment is never
    stopped by the coordinator's ATS gate when both read the same score
    and minimum; and with the typing test enabled the coordinator
    starts at the typing test, also for an application shown as
    [Interview Pending] because its typing test was passed before: the
    coordinator reads no earlier results. *)
Theorem offered_exam_starts_from_the_first_phase :
  forall (application : ExamApplication) (jobData : TestCoordinator.JobData)
         (applicationData : TestCoordinator.ApplicationData),
    let s0 := TestCoordinator.initializeTest (Some jobData) (Some applicationData)
                                             TestCoordinator.initial in
    let s1 := TestCoordinator.step s0 TestCoordinator.ClickStartNextPhase in
    canTakeExam (getApplicationStatus application) = true ->
    TestCoordinator.ai_score applicationData = Some (ai_score application) ->
    TestCoordinator.ats_minimum_score jobData = ats_minimum_score (job application) ->
    TestCoordinator.typing_test_enabled jobData = typing_test_enabled (job application) ->
    TestCoordinator.toasts s0 = []
    /\ TestCoordinator.loading s0 = false
    /\ TestCoordinator.currentPhase s1
       = TestCoordinator.phase (if typing_test_enabled (job application)
                                then TestCoordinator.typing_test
                                else TestCoordinator.ai_interview).
Proof.
  intros application jobData applicationData s0 s1 Hcan Hsc Hmin Hen.
  assert (Hok : (TestCoordinator.ats_minimum_score jobData
                 <= TestCoordinator.or_else (TestCoordinator.ai_score applicationData) 0%Q)%Q).
  { rewrite Hsc, Hmin. cbn. unfold getApplicationStatus in Hcan.
    destruct (Qlt_bool (ai_score application) (ats_minimum_score (job application))) eqn:E;
      [discriminate|].
    apply Qlt_bool_false_iff. exact E. }
  destruct (CoordinatorCourse.initializeTest_loaded jobData applicationData Hok)
    as (config & candidate & Hs0 & Hty & Hmin' & Hsc').
  assert (Hge : Qge_bool (TestCoordinator.atsScore candidate)
                         (TestCoordinator.atsMinimumScore config) = true).
  { apply Qge_bool_iff. rewrite Hmin', Hsc'. exact Hok. }
  subst s1 s0. rewrite Hs0. clear Hs0. rewrite <- Hen.
  destruct (TestCoordinator.typing_test_enabled jobData); cbn [app].
  - CoordinatorCourse.at_innermost TestCoordinator.ClickStartNextPhase ltac:(fun a =>
      assert (E1 : TestCoordinator.step a TestCoordinator.ClickStartNextPhase
                   = TestCoordinator.set_currentPhase
                       (TestCoordinator.phase TestCoordinator.typing_test) a)
        by CoordinatorCourse.one_step Hge Hty Hty;
      rewrite E1; clear E1).
    repeat split.
  - CoordinatorCourse.at_innermost TestCoordinator.ClickStartNextPhase ltac:(fun a =>
      assert (E1 : TestCoordinator.step a TestCoordinator.ClickStartNextPhase
                   = TestCoordinator.set_questionGenerations 1
                       (TestCoordinator.set_currentPhase
                          (TestCoordinator.phase TestCoordinator.ai_interview) a))
        by CoordinatorCourse.one_step Hge Hty Hty;
      rewrite E1; clear E1).
    repeat split.
Qed.

Lemma offered_exam_starts_from_the_first_phase_witness :
  s_status (getApplicationStatus MoreExamples.resumedApplication) = "Interview Pending"%string
  /\ TestCoordinator.currentPhase
       (TestCoordinator.step
          (TestCoordinator.initializeTest
             (Some (jobRowOf MoreExamples.resumedApplication (Examples.jobRow 0)))
             (Some (applicationRowOf MoreExamples.resumedApplication))
             TestCoordinator.initial)
          TestCoordinator.ClickStartNextPhase)
     = TestCoordinator.phase TestCoordinator.typing_test.
Proof.
  split; [reflexivity|].
  destruct (offered_exam_starts_from_the_first_phase
              MoreExamples.resumedApplication
              (jobRowOf MoreExamples.resumedApplication (Examples.jobRow 0))
              (applicationRowOf MoreExamples.resumedApplication))
    as (_ & _ & H).
  - reflexivity.
  - reflexivity.
  - reflexivity.
  - reflexivity.
  - exact H.
Defined.

End ExamStatus.
